(** * SIWA (Sign In With Agent): message codec, signing flow, verification
    pipeline and response shaper of [siwa_py/siwa.py], embedded in Rocq.

    Conventions of the embedding:
    - a Python [str] is a [string]; its characters are the code points 0..255,
      so [str.isspace] and [str.lower] are given on that range;
    - a Python [int] is a [Z]; [int(s)] and [str(n)] are unbounded (the
      interpreter's optional limit on the number of digits is not modelled);
    - a function that can raise returns an [outcome]; the exceptions are the
      subclasses of [Exception] (interrupts and cancellation, which
      [except Exception] lets through, are outside the model);
    - a key of a [TypedDict] that is missing, or bound to [None], is [None];
    - the collaborators (signer, nonce validator, chain client, clock) act on
      a state of an arbitrary type; each of their invocations is recorded in a
      ghost trace of events. *)

From Stdlib Require Import ZArith String Ascii List Lia.
From Stdlib Require Import Decimal DecimalString DecimalZ.
From stdpp Require Import base option list strings gmap.

Local Open Scope Z_scope.

(** ** Python runtime: exceptions *)

Inductive exn : Type :=
| ValueError (msg : string)
| IndexError (msg : string)
| KeyError (key : string)
| Exception (cls msg : string).

Inductive outcome (A : Type) : Type :=
| Ok (a : A)
| Raise (e : exn).
Arguments Ok {A} a.
Arguments Raise {A} e.

Definition obind {A B} (m : outcome A) (k : A -> outcome B) : outcome B :=
  match m with
  | Ok a => k a
  | Raise e => Raise e
  end.

Notation "'let?' x ':=' m 'in' k" := (obind m (fun x => k))
  (at level 10, x name, m at level 100, k at level 200).

(** [str(e)] *)
Definition str_exn (e : exn) : string :=
  match e with
  | ValueError msg => msg
  | IndexError msg => msg
  | KeyError key => "'" +:+ key +:+ "'"
  | Exception _ msg => msg
  end.

Definition is_ValueError (e : exn) : bool :=
  match e with ValueError _ => true | _ => false end.

(** [d[key]] on a [TypedDict] field *)
Definition getitem {A} (key : string) (o : option A) : outcome A :=
  match o with
  | Some v => Ok v
  | None => Raise (KeyError key)
  end.

(** truth value of [d.get(key)] for a string field: [None] and [""] are false *)
Definition truthy (o : option string) : option string :=
  match o with
  | Some "" => None
  | _ => o
  end.

(** [s or None] *)
Definition or_none (s : string) : option string :=
  match s with
  | "" => None
  | _ => Some s
  end.

(** ** Python runtime: [str] methods *)

Module PyStr.

Definition newline : ascii := "010"%char.
Definition nl : string := String newline "".

(** the rest of [s] after the prefix [p], if [s.startswith(p)] *)
Fixpoint strip_prefix (p s : string) : option string :=
  match p with
  | "" => Some s
  | String a p' =>
      match s with
      | "" => None
      | String b s' => if Ascii.eqb a b then strip_prefix p' s' else None
      end
  end.

Definition startswith (s p : string) : bool :=
  match strip_prefix p s with Some _ => true | None => false end.

(** [s.split(sep)] for a separator of one character *)
Fixpoint split (sep : ascii) (s : string) : list string :=
  match s with
  | "" => [""]
  | String c s' =>
      if Ascii.eqb c sep then "" :: split sep s'
      else match split sep s' with
           | [] => [String c ""]
           | l :: ls => String c l :: ls
           end
  end.

(** [sep.join(ls)] *)
Fixpoint join (sep : string) (ls : list string) : string :=
  match ls with
  | [] => ""
  | l :: ls' =>
      match ls' with
      | [] => l
      | _ :: _ => l +:+ sep +:+ join sep ls'
      end
  end.

(** first occurrence of [sep] in [s]: the text before it and after it *)
Fixpoint find_sep (sep s : string) : option (string * string) :=
  match strip_prefix sep s with
  | Some rest => Some ("", rest)
  | None =>
      match s with
      | "" => None
      | String c s' =>
          match find_sep sep s' with
          | Some (a, b) => Some (String c a, b)
          | None => None
          end
      end
  end.

(** [sep in s] *)
Definition contains (sep s : string) : bool :=
  match find_sep sep s with Some _ => true | None => false end.

(** [s.partition(sep)] *)
Definition partition (sep s : string) : string * string * string :=
  match find_sep sep s with
  | Some (a, b) => (a, sep, b)
  | None => (s, "", "")
  end.

(** [c.isspace()] *)
Definition isspace (c : ascii) : bool :=
  let n := N_of_ascii c in
  ((9 <=? n) && (n <=? 13) || (28 <=? n) && (n <=? 32)
   || (n =? 133) || (n =? 160))%N.

Fixpoint lstrip (s : string) : string :=
  match s with
  | "" => ""
  | String c s' => if isspace c then lstrip s' else s
  end.

Fixpoint rstrip (s : string) : string :=
  match s with
  | "" => ""
  | String c s' =>
      match rstrip s' with
      | "" => if isspace c then "" else String c ""
      | r => String c r
      end
  end.

(** [s.strip()] *)
Definition strip (s : string) : string := rstrip (lstrip s).

Definition lower_char (c : ascii) : ascii :=
  let n := N_of_ascii c in
  if ((65 <=? n) && (n <=? 90)
      || (192 <=? n) && (n <=? 222) && negb (n =? 215))%N
  then ascii_of_N (n + 32) else c.

(** [s.lower()] *)
Fixpoint lower (s : string) : string :=
  match s with
  | "" => ""
  | String c s' => String (lower_char c) (lower s')
  end.

(** [s.replace(c, by)] for a pattern of one character *)
Fixpoint replace (c : ascii) (by_ : string) (s : string) : string :=
  match s with
  | "" => ""
  | String a s' =>
      if Ascii.eqb a c then by_ +:+ replace c by_ s'
      else String a (replace c by_ s')
  end.

(** [s] without its suffix [suf], if it ends with it *)
Fixpoint remove_suffix (suf s : string) : option string :=
  if String.eqb s suf then Some ""
  else match s with
       | "" => None
       | String c s' => option_map (String c) (remove_suffix suf s')
       end.

Definition no_newline (s : string) : bool := negb (contains nl s).

(** digits of a decimal literal, with single underscores between digits *)
Fixpoint int_digits (prev_digit : bool) (s : string) : option uint :=
  match s with
  | "" => if prev_digit then Some Nil else None
  | String c s' =>
      if Ascii.eqb c "_"
      then (if prev_digit then int_digits false s' else None)
      else uint_of_char c (int_digits true s')
  end.

Definition int_literal (s : string) : option Z :=
  match s with
  | String "+" r => option_map Z.of_uint (int_digits false r)
  | String "-" r => option_map (fun d => - Z.of_uint d) (int_digits false r)
  | _ => option_map Z.of_uint (int_digits false s)
  end.

(** [int(s)], base 10 *)
Definition int (s : string) : outcome Z :=
  match int_literal (strip s) with
  | Some n => Ok n
  | None =>
      Raise (ValueError
               ("invalid literal for int() with base 10: '" +:+ s +:+ "'"))
  end.

(** [str(n)] and [f"{n}"] for an [int] *)
Definition str_of_int (n : Z) : string := NilZero.string_of_int (Z.to_int n).

End PyStr.


(** ** Message codec *)

(** [SIWAMessageFields], a [TypedDict] with [total=False] *)
Record SIWAMessageFields : Type := {
  domain : option string;
  address : option string;
  statement : option string;
  uri : option string;
  version : option string;
  agent_id : option Z;
  agent_registry : option string;  (* e.g. "eip155:84532:0x8004AA63..." *)
  chain_id : option Z;
  nonce : option string;
  issued_at : option string;       (* RFC 3339 *)
  expiration_time : option string; (* RFC 3339 *)
  not_before : option string;      (* RFC 3339 *)
  request_id : option string
}.

Definition domain_suffix : string :=
  " wants you to sign in with your Agent account:".

(** the line [f"{key}: {value}"] of an optional field, when it is set *)
Definition optional_line (key : string) (o : option string) : list string :=
  match truthy o with
  | Some v => [key +:+ ": " +:+ v]
  | None => []
  end.

Definition build_lines (fields : SIWAMessageFields) : outcome (list string) :=
  let? d := getitem "domain" (domain fields) in
  let? a := getitem "address" (address fields) in
  let lines := [d +:+ domain_suffix; a; ""] in
  let lines :=
    lines ++ match truthy (statement fields) with
             | Some s => [s]
             | None => []
             end in
  let lines := lines ++ [""] in
  let? u := getitem "uri" (uri fields) in
  let lines := lines ++ ["URI: " +:+ u] in
  let lines := lines ++ ["Version: " +:+ default "1" (version fields)] in
  let? aid := getitem "agent_id" (agent_id fields) in
  let lines := lines ++ ["Agent ID: " +:+ PyStr.str_of_int aid] in
  let? reg := getitem "agent_registry" (agent_registry fields) in
  let lines := lines ++ ["Agent Registry: " +:+ reg] in
  let? cid := getitem "chain_id" (chain_id fields) in
  let lines := lines ++ ["Chain ID: " +:+ PyStr.str_of_int cid] in
  let? n := getitem "nonce" (nonce fields) in
  let lines := lines ++ ["Nonce: " +:+ n] in
  let? ia := getitem "issued_at" (issued_at fields) in
  let lines := lines ++ ["Issued At: " +:+ ia] in
  let lines := lines ++ optional_line "Expiration Time" (expiration_time fields) in
  let lines := lines ++ optional_line "Not Before" (not_before fields) in
  let lines := lines ++ optional_line "Request ID" (request_id fields) in
  Ok lines.

Definition build_siwa_message (fields : SIWAMessageFields) : outcome string :=
  let? lines := build_lines fields in
  Ok (PyStr.join PyStr.nl lines).

(** [re.match(r"^(.+) wants you to sign in with your Agent account:$", line)]:
    group 1 when the line matches. [$] also matches before one final newline,
    and [.] matches no newline. *)
Definition domain_match (line : string) : option string :=
  let body :=
    match PyStr.remove_suffix PyStr.nl line with
    | Some b => b
    | None => line
    end in
  match PyStr.remove_suffix domain_suffix body with
  | Some d =>
      match d with
      | "" => None
      | _ => if PyStr.no_newline d then Some d else None
      end
  | None => None
  end.

(** the local variables of the loop of [parse_siwa_message] *)
Record parse_state : Type := {
  ps_field_map : gmap string string;
  ps_statement : option string;
  ps_in_statement : bool;
  ps_stmt_lines : list string
}.

Definition parse_init : parse_state :=
  {| ps_field_map := ∅; ps_statement := None;
     ps_in_statement := false; ps_stmt_lines := [] |}.

(** [key, _, value = line.partition(": "); field_map[key] = value] *)
Definition record_field (line : string) (st : parse_state) : parse_state :=
  let '(key, _, value) := PyStr.partition ": " line in
  {| ps_field_map := <[key := value]> (ps_field_map st);
     ps_statement := ps_statement st;
     ps_in_statement := ps_in_statement st;
     ps_stmt_lines := ps_stmt_lines st |}.

(** one iteration of the loop, at index [i] *)
Definition parse_step (i : nat) (line : string) (st : parse_state) : parse_state :=
  if Nat.eqb i 2 && String.eqb line "" then
    {| ps_field_map := ps_field_map st; ps_statement := ps_statement st;
       ps_in_statement := true; ps_stmt_lines := ps_stmt_lines st |}
  else if ps_in_statement st then
    if String.eqb line "" || PyStr.startswith line "URI: " then
      let st' :=
        {| ps_field_map := ps_field_map st;
           ps_statement :=
             or_none (PyStr.strip (PyStr.join PyStr.nl (ps_stmt_lines st)));
           ps_in_statement := false;
           ps_stmt_lines := ps_stmt_lines st |} in
      if PyStr.startswith line "URI: " then record_field line st' else st'
    else
      {| ps_field_map := ps_field_map st; ps_statement := ps_statement st;
         ps_in_statement := true;
         ps_stmt_lines := ps_stmt_lines st ++ [line] |}
  else if PyStr.contains ": " line then record_field line st
  else st.

(** [for i in range(i, len(lines))], over the lines from index [i] on *)
Fixpoint parse_loop (i : nat) (lines : list string) (st : parse_state)
  : parse_state :=
  match lines with
  | [] => st
  | line :: rest => parse_loop (S i) rest (parse_step i line st)
  end.

Definition parse_siwa_message (message : string) : outcome SIWAMessageFields :=
  let lines := PyStr.split PyStr.newline message in
  match domain_match (default "" (lines !! 0%nat)) with
  | None => Raise (ValueError "Invalid SIWA message: missing domain line")
  | Some dom =>
      match lines !! 1%nat with
      | None => Raise (IndexError "list index out of range")
      | Some addr =>
          if String.eqb addr "" || negb (PyStr.startswith addr "0x")
             || negb (Nat.eqb (String.length addr) 42)
          then Raise (ValueError
                        "Invalid SIWA message: missing or malformed address")
          else
            let st := parse_loop 2 (drop 2 lines) parse_init in
            let field_map := ps_field_map st in
            let? aid := PyStr.int (default "0" (field_map !! "Agent ID")) in
            let? cid := PyStr.int (default "0" (field_map !! "Chain ID")) in
            Ok {| domain := Some dom;
                  address := Some addr;
                  statement := ps_statement st;
                  uri := Some (default "" (field_map !! "URI"));
                  version := Some (default "1" (field_map !! "Version"));
                  agent_id := Some aid;
                  agent_registry :=
                    Some (default "" (field_map !! "Agent Registry"));
                  chain_id := Some cid;
                  nonce := Some (default "" (field_map !! "Nonce"));
                  issued_at := Some (default "" (field_map !! "Issued At"));
                  expiration_time := field_map !! "Expiration Time";
                  not_before := field_map !! "Not Before";
                  request_id := field_map !! "Request ID" |}
      end
  end.

(** ** Fields that the codec reproduces *)

(** a field that is set and holds one line *)
Definition required_line (o : option string) : bool :=
  match o with
  | Some s => PyStr.no_newline s
  | None => false
  end.

(** a field that holds one line when it is set *)
Definition optional_one_line (o : option string) : bool :=
  match o with
  | Some s => PyStr.no_newline s
  | None => true
  end.

Definition domain_ok (o : option string) : bool :=
  match o with
  | Some d => negb (String.eqb d "") && PyStr.no_newline d
  | None => false
  end.

Definition address_ok (o : option string) : bool :=
  match o with
  | Some a =>
      PyStr.startswith a "0x" && Nat.eqb (String.length a) 42
      && PyStr.no_newline a
  | None => false
  end.

Definition statement_line_ok (line : string) : bool :=
  negb (String.eqb line "") && negb (PyStr.startswith line "URI: ").

(** no line of the statement is empty or begins with [URI: ] *)
Definition statement_ok (o : option string) : bool :=
  match truthy o with
  | Some s => forallb statement_line_ok (PyStr.split PyStr.newline s)
  | None => true
  end.

Definition is_set {A} (o : option A) : bool :=
  match o with Some _ => true | None => false end.

Definition well_formed (f : SIWAMessageFields) : bool :=
  domain_ok (domain f) && address_ok (address f)
  && statement_ok (statement f)
  && required_line (uri f) && required_line (version f)
  && is_set (agent_id f) && required_line (agent_registry f)
  && is_set (chain_id f) && required_line (nonce f)
  && required_line (issued_at f)
  && optional_one_line (expiration_time f)
  && optional_one_line (not_before f)
  && optional_one_line (request_id f).

(** the line of a field in the message *)
Definition field_line (kv : string * string) : string :=
  kv.1 +:+ ": " +:+ kv.2.

Definition optional_pair (key : string) (o : option string)
  : list (string * string) :=
  match truthy o with
  | Some v => [(key, v)]
  | None => []
  end.

(** the field map after the lines of [kvs], read in order *)
Definition record_all (kvs : list (string * string))
    (m : gmap string string) : gmap string string :=
  foldl (fun m kv => <[kv.1 := kv.2]> m) m kvs.

(** the fields as the parser gives them back: the statement stripped, an
    empty statement or optional field missing *)
Definition normalize (f : SIWAMessageFields) : SIWAMessageFields :=
  {| domain := domain f; address := address f;
     statement :=
       match statement f with
       | Some s => or_none (PyStr.strip s)
       | None => None
       end;
     uri := uri f; version := version f; agent_id := agent_id f;
     agent_registry := agent_registry f; chain_id := chain_id f;
     nonce := nonce f; issued_at := issued_at f;
     expiration_time := truthy (expiration_time f);
     not_before := truthy (not_before f);
     request_id := truthy (request_id f) |}.

(** ** The layout of a message *)

(** the required keys of [build_siwa_message] are set *)
Definition required_set (f : SIWAMessageFields) : bool :=
  is_set (domain f) && is_set (address f) && is_set (uri f)
  && is_set (agent_id f) && is_set (agent_registry f)
  && is_set (chain_id f) && is_set (nonce f) && is_set (issued_at f).

Definition required_keys : list string :=
  ["domain"; "address"; "uri"; "agent_id"; "agent_registry"; "chain_id";
   "nonce"; "issued_at"].

(** the keys the parser reads from the field map *)
Definition known_keys : list string :=
  ["URI"; "Version"; "Agent ID"; "Agent Registry"; "Chain ID"; "Nonce";
   "Issued At"; "Expiration Time"; "Not Before"; "Request ID"].

Definition statement_block (st : option string) : list string :=
  match truthy st with
  | Some s => [s]
  | None => []
  end.

(** the field lines of a message, as pairs of key and value *)
Definition field_pairs (f : SIWAMessageFields) : list (string * string) :=
  [("URI", default "" (uri f));
   ("Version", default "1" (version f));
   ("Agent ID", PyStr.str_of_int (default 0 (agent_id f)));
   ("Agent Registry", default "" (agent_registry f));
   ("Chain ID", PyStr.str_of_int (default 0 (chain_id f)));
   ("Nonce", default "" (nonce f));
   ("Issued At", default "" (issued_at f))]
  ++ optional_pair "Expiration Time" (expiration_time f)
  ++ optional_pair "Not Before" (not_before f)
  ++ optional_pair "Request ID" (request_id f).

(** the lines of a message: header, statement between two blank lines,
    field lines *)
Definition layout (d a : string) (stmt : list string)
    (kvs : list (string * string)) : list string :=
  [d +:+ domain_suffix; a; ""] ++ stmt ++ "" :: map field_line kvs.

(** [well_formed] without the demand that the version is set *)
Definition well_formed_core (f : SIWAMessageFields) : bool :=
  domain_ok (domain f) && address_ok (address f)
  && statement_ok (statement f)
  && required_line (uri f) && optional_one_line (version f)
  && is_set (agent_id f) && required_line (agent_registry f)
  && is_set (chain_id f) && required_line (nonce f)
  && required_line (issued_at f)
  && optional_one_line (expiration_time f)
  && optional_one_line (not_before f)
  && optional_one_line (request_id f).

(** [normalize], with the version the builder writes when none is set *)
Definition normalize_version (f : SIWAMessageFields) : SIWAMessageFields :=
  {| domain := domain f; address := address f;
     statement := statement (normalize f);
     uri := uri f; version := Some (default "1" (version f));
     agent_id := agent_id f;
     agent_registry := agent_registry f; chain_id := chain_id f;
     nonce := nonce f; issued_at := issued_at f;
     expiration_time := truthy (expiration_time f);
     not_before := truthy (not_before f);
     request_id := truthy (request_id f) |}.

(** the fields with another nonce *)
Definition with_nonce (f : SIWAMessageFields) (n : string)
  : SIWAMessageFields :=
  {| domain := domain f; address := address f;
     statement := statement f; uri := uri f;
     version := version f; agent_id := agent_id f;
     agent_registry := agent_registry f; chain_id := chain_id f;
     nonce := Some n; issued_at := issued_at f;
     expiration_time := expiration_time f; not_before := not_before f;
     request_id := request_id f |}.

(** what the parser answers for a message of the two header lines *)
Definition header_only (d a : string) : SIWAMessageFields :=
  {| domain := Some d; address := Some a; statement := None;
     uri := Some ""; version := Some "1"; agent_id := Some 0;
     agent_registry := Some ""; chain_id := Some 0;
     nonce := Some ""; issued_at := Some "";
     expiration_time := None; not_before := None; request_id := None |}.

(** ** Effects: collaborators acting on an external state, with a ghost trace *)

Inductive event : Type :=
| EvGetAddress
| EvSignMessage (message : string)
| EvNonceValidator (nonce : string)
| EvOwnerOf (registry : string) (token : Z)
| EvGetCode (addr : string).

Record world (W : Type) : Type := { ext : W; trace : list event }.
Arguments ext {W} w.
Arguments trace {W} w.
Arguments Build_world {W} ext trace.

Definition M (W A : Type) : Type := world W -> outcome A * world W.

Definition ret {W A} (a : A) : M W A := fun w => (Ok a, w).

Definition raise {W A} (e : exn) : M W A := fun w => (Raise e, w).

Definition bind {W A B} (m : M W A) (k : A -> M W B) : M W B :=
  fun w =>
    match m w with
    | (Ok a, w') => k a w'
    | (Raise e, w') => (Raise e, w')
    end.

(** a pure computation that can raise, inside an effectful one *)
Definition lift {W A} (o : outcome A) : M W A := fun w => (o, w).

(** a reading of the external state that changes nothing *)
Definition read {W A} (f : W -> A) : M W A := fun w => (Ok (f (ext w)), w).

(** invocation of a collaborator, recorded in the trace *)
Definition call {W A} (ev : event) (f : W -> outcome A * W) : M W A :=
  fun w =>
    let '(r, s) := f (ext w) in
    (r, {| ext := s; trace := trace w ++ [ev] |}).

(** [try: m  except Exception as e: h e] *)
Definition try_except {W A} (m : M W A) (h : exn -> M W A) : M W A :=
  fun w =>
    match m w with
    | (Ok a, w') => (Ok a, w')
    | (Raise e, w') => h e w'
    end.

Notation "'do' x '<-' m ';' k" := (bind m (fun x => k))
  (at level 10, x name, m at level 100, k at level 200).

(** ** Signing flow *)

(** the [Signer] abstract base class *)
Record Signer (W : Type) : Type := {
  get_address : W -> outcome string * W;
  sign_message : string -> W -> outcome string * W
}.
Arguments get_address {W} s.
Arguments sign_message {W} s.

(** the dictionary returned by [sign_siwa_message] *)
Record SignedMessage : Type := {
  sm_message : string;
  sm_signature : string;
  sm_address : string
}.

Definition with_address (fields : SIWAMessageFields) (a : string)
  : SIWAMessageFields :=
  {| domain := domain fields; address := Some a;
     statement := statement fields; uri := uri fields;
     version := version fields; agent_id := agent_id fields;
     agent_registry := agent_registry fields; chain_id := chain_id fields;
     nonce := nonce fields; issued_at := issued_at fields;
     expiration_time := expiration_time fields;
     not_before := not_before fields; request_id := request_id fields |}.

Definition address_mismatch (signer_address claimed : string) : exn :=
  ValueError ("Address mismatch: signer has " +:+ signer_address
              +:+ ", message claims " +:+ claimed).

Definition sign_siwa_message {W} (fields : SIWAMessageFields) (signer : Signer W)
  : M W SignedMessage :=
  do signer_address <- call EvGetAddress (get_address signer);
  let mismatch :=
    match truthy (address fields) with
    | Some a =>
        if negb (String.eqb (PyStr.lower signer_address) (PyStr.lower a))
        then Some a else None
    | None => None
    end in
  match mismatch with
  | Some a => raise (address_mismatch signer_address a)
  | None =>
      let resolved_fields := with_address fields signer_address in
      do message <- lift (build_siwa_message resolved_fields);
      do signature <- call (EvSignMessage message) (sign_message signer message);
      ret {| sm_message := message; sm_signature := signature;
             sm_address := signer_address |}
  end.

(** ** Verification results *)

Inductive SIWAErrorCode : Type :=
| INVALID_SIGNATURE
| DOMAIN_MISMATCH
| INVALID_NONCE
| MESSAGE_EXPIRED
| MESSAGE_NOT_YET_VALID
| INVALID_REGISTRY_FORMAT
| NOT_REGISTERED
| NOT_OWNER
| AGENT_NOT_ACTIVE
| MISSING_SERVICE
| MISSING_TRUST_MODEL
| LOW_REPUTATION
| CUSTOM_CHECK_FAILED
| VERIFICATION_FAILED.

Global Instance SIWAErrorCode_eq_dec : EqDecision SIWAErrorCode.
Proof. solve_decision. Defined.

Inductive Verified : Type := offline | onchain.

Inductive SignerType : Type := eoa | sca.

(** [SIWAVerificationResult], a [TypedDict] with [total=False] *)
Record SIWAVerificationResult : Type := {
  r_valid : option bool;
  r_address : option string;
  r_agent_id : option Z;
  r_agent_registry : option string;
  r_chain_id : option Z;
  r_verified : option Verified;
  r_signer_type : option SignerType;
  r_code : option SIWAErrorCode;
  r_error : option string
}.

(** ** [datetime] values *)

(** the calendar reading of a [datetime] and, for an aware one, its offset
    from UTC in seconds *)
Record datetime : Type := {
  year : Z; month : Z; day : Z;
  hour : Z; minute : Z; second : Z; microsecond : Z;
  tzinfo : option Z
}.

(** [d.replace(tzinfo=None)]: the same reading, without offset *)
Definition replace_tzinfo_None (d : datetime) : datetime :=
  {| year := year d; month := month d; day := day d;
     hour := hour d; minute := minute d; second := second d;
     microsecond := microsecond d; tzinfo := None |}.

Definition reading (d : datetime) : list Z :=
  [year d; month d; day d; hour d; minute d; second d; microsecond d].

Fixpoint lex_compare (a b : list Z) : comparison :=
  match a, b with
  | x :: a', y :: b' =>
      match x ?= y with
      | Eq => lex_compare a' b'
      | c => c
      end
  | [], [] => Eq
  | [], _ :: _ => Lt
  | _ :: _, [] => Gt
  end.

(** [a > b] and [a < b] on naive values: comparison of the readings *)
Definition dt_gt (a b : datetime) : bool :=
  match lex_compare (reading a) (reading b) with Gt => true | _ => false end.

Definition dt_lt (a b : datetime) : bool :=
  match lex_compare (reading a) (reading b) with Lt => true | _ => false end.

(** ** Verification pipeline *)

(** [w3]: the two chain calls the pipeline makes *)
Record Web3 (W : Type) : Type := {
  owner_of : string -> Z -> W -> outcome string * W;
  get_code : string -> W -> outcome (list Byte.byte) * W
}.
Arguments owner_of {W} w.
Arguments get_code {W} w.

(** library functions the pipeline calls: [Account.recover_message] on
    [encode_defunct(text=message)], [datetime.fromisoformat],
    [datetime.utcnow] and [Web3.to_checksum_address] *)
Record Library (W : Type) : Type := {
  recover_message : string -> string -> outcome string;
  fromisoformat : string -> outcome datetime;
  utcnow : W -> datetime;
  to_checksum_address : string -> outcome string
}.
Arguments recover_message {W} l.
Arguments fromisoformat {W} l.
Arguments utcnow {W} l.
Arguments to_checksum_address {W} l.

Definition fail (fields : SIWAMessageFields) (code : SIWAErrorCode)
    (error : string) : SIWAVerificationResult :=
  {| r_valid := Some false;
     r_address := Some (default "" (address fields));
     r_agent_id := Some (default 0 (agent_id fields));
     r_agent_registry := Some (default "" (agent_registry fields));
     r_chain_id := Some (default 0 (chain_id fields));
     r_verified := Some onchain;
     r_signer_type := None;
     r_code := Some code;
     r_error := Some error |}.

(** the result built by the handler at the boundary of the pipeline *)
Definition verification_failed (e : exn) : SIWAVerificationResult :=
  {| r_valid := Some false;
     r_address := Some "";
     r_agent_id := Some 0;
     r_agent_registry := Some "";
     r_chain_id := Some 0;
     r_verified := Some offline;
     r_signer_type := None;
     r_code := Some VERIFICATION_FAILED;
     r_error := Some (str_exn e) |}.

Section Pipeline.
Context {W : Type} (lib : Library W).

(** [datetime.fromisoformat(s.replace("Z", "+00:00")).replace(tzinfo=None)] *)
Definition parse_time (s : string) : outcome datetime :=
  let? d := fromisoformat lib (PyStr.replace "Z" "+00:00" s) in
  Ok (replace_tzinfo_None d).

(** stages 7 to the end: registry format, ownership, signer type *)
Definition verify_onchain (fields : SIWAMessageFields) (recovered : string)
    (w3 : Web3 W) (registry_address : option string)
  : M W SIWAVerificationResult :=
  do agent_registry <- lift (getitem "agent_registry" (agent_registry fields));
  let registry_parts := PyStr.split ":" agent_registry in
  if negb (Nat.eqb (length registry_parts) 3)
     || negb (String.eqb (default "" (registry_parts !! 0%nat)) "eip155")
  then ret (fail fields INVALID_REGISTRY_FORMAT "Invalid agent_registry format")
  else
    let reg_address :=
      match truthy registry_address with
      | Some a => a
      | None => default "" (registry_parts !! 2%nat)
      end in
    do owner <-
      try_except
        (do a <- lift (to_checksum_address lib reg_address);
         do token <- lift (getitem "agent_id" (agent_id fields));
         do o <- call (EvOwnerOf a token) (owner_of w3 a token);
         ret (Some o))
        (fun _ => ret None);
    match owner with
    | None =>
        ret (fail fields NOT_REGISTERED
               "Agent is not registered on the ERC-8004 Identity Registry")
    | Some owner =>
        if negb (String.eqb (PyStr.lower owner) (PyStr.lower recovered))
        then ret (fail fields NOT_OWNER
                    "Signer is not the owner of this agent NFT")
        else
          (* Detect signer type *)
          do addr <- lift (getitem "address" (address fields));
          do a <- lift (to_checksum_address lib addr);
          do code <- call (EvGetCode a) (get_code w3 a);
          let signer_type := match code with [] => eoa | _ :: _ => sca end in
          do agent_id <- lift (getitem "agent_id" (agent_id fields));
          do chain_id <- lift (getitem "chain_id" (chain_id fields));
          ret {| r_valid := Some true;
                 r_address := Some recovered;
                 r_agent_id := Some agent_id;
                 r_agent_registry := Some agent_registry;
                 r_chain_id := Some chain_id;
                 r_verified := Some onchain;
                 r_signer_type := Some signer_type;
                 r_code := None;
                 r_error := None |}
    end.

(** the [not_before] check of stage 6, then the on-chain stages *)
Definition verify_not_before (now : datetime) (fields : SIWAMessageFields)
    (recovered : string) (w3 : Web3 W) (registry_address : option string)
  : M W SIWAVerificationResult :=
  match truthy (not_before fields) with
  | Some s =>
      do nbf <- lift (parse_time s);
      if dt_lt now nbf
      then ret (fail fields MESSAGE_NOT_YET_VALID
                  "Message not yet valid (not_before)")
      else verify_onchain fields recovered w3 registry_address
  | None => verify_onchain fields recovered w3 registry_address
  end.

(** stage 6: time window, then the on-chain stages *)
Definition verify_time_window (fields : SIWAMessageFields) (recovered : string)
    (w3 : Web3 W) (registry_address : option string)
  : M W SIWAVerificationResult :=
  do now <- read (utcnow lib);
  match truthy (expiration_time fields) with
  | Some s =>
      do exp <- lift (parse_time s);
      if dt_gt now exp
      then ret (fail fields MESSAGE_EXPIRED "Message expired")
      else verify_not_before now fields recovered w3 registry_address
  | None => verify_not_before now fields recovered w3 registry_address
  end.

(** the body of the [try] block of [verify_siwa] *)
Definition verify_body (message signature expected_domain : string)
    (nonce_validator : string -> W -> outcome bool * W)
    (w3 : Web3 W) (registry_address : option string)
  : M W SIWAVerificationResult :=
  (* 1. Parse message *)
  do fields <- lift (parse_siwa_message message);
  (* 2. Verify signature *)
  match recover_message lib message signature with
  | Raise _ => ret (fail fields INVALID_SIGNATURE "Invalid signature")
  | Ok recovered =>
      do addr <- lift (getitem "address" (address fields));
      (* 3. Address match *)
      if negb (String.eqb (PyStr.lower recovered) (PyStr.lower addr))
      then ret (fail fields INVALID_SIGNATURE
                  ("Signature recovered " +:+ recovered
                   +:+ ", expected " +:+ addr))
      else
        do dom <- lift (getitem "domain" (domain fields));
        (* 4. Domain binding *)
        if negb (String.eqb dom expected_domain)
        then ret (fail fields DOMAIN_MISMATCH
                    ("Domain mismatch: expected " +:+ expected_domain
                     +:+ ", got " +:+ dom))
        else
          (* 5. Nonce validation *)
          do n <- lift (getitem "nonce" (nonce fields));
          do nonce_ok <- call (EvNonceValidator n) (nonce_validator n);
          if negb nonce_ok
          then ret (fail fields INVALID_NONCE "Invalid or consumed nonce")
          else verify_time_window fields recovered w3 registry_address
  end.

Definition verify_siwa (message signature expected_domain : string)
    (nonce_validator : string -> W -> outcome bool * W)
    (w3 : Web3 W) (registry_address : option string)
  : M W SIWAVerificationResult :=
  try_except
    (verify_body message signature expected_domain nonce_validator w3
       registry_address)
    (fun e => ret (verification_failed e)).

End Pipeline.

(** ** Response shaper *)

Record SIWASkillRef : Type := {
  sk_name : string;
  sk_install : string;
  sk_url : string
}.

Record SIWAAction : Type := {
  a_type : string;
  a_message : string;
  a_skill : SIWASkillRef;
  a_steps : list string;
  a_registry_address : option string;
  a_chain_id : option Z
}.

Inductive Status : Type := authenticated | not_registered | rejected.

Record SIWAResponse : Type := {
  status : Status;
  p_address : option string;
  p_agent_id : option Z;
  p_agent_registry : option string;
  p_chain_id : option Z;
  p_verified : option Verified;
  p_signer_type : option SignerType;
  p_code : option SIWAErrorCode;
  p_error : option string;
  p_action : option SIWAAction;
  p_skill : option SIWASkillRef
}.

Definition skill_ref : SIWASkillRef :=
  {| sk_name := "siwa";
     sk_install := "pip install siwa";
     sk_url := "https://siwa.id/skill.md" |}.

Definition register_steps : list string :=
  [ "Install the SDK: pip install siwa";
    "Create a wallet: from siwa import create_wallet; wallet = create_wallet()";
    "Fund the wallet with ETH on the target chain for gas fees";
    "Build ERC-8004 registration metadata (JSON with name, description, services, active: true)";
    "Register onchain: call register(agent_uri) on the Identity Registry contract";
    "Retry SIWA sign-in" ].

(** truth value of [result.get("chain_id")]: [None] and [0] are false *)
Definition truthy_int (o : option Z) : option Z :=
  match o with
  | Some 0 => None
  | _ => o
  end.

(** [result.get("chain_id") or
     (int(registry_parts[1]) if len(registry_parts) >= 2 else None)] *)
Definition response_chain_id (result : SIWAVerificationResult)
    (registry_parts : list string) : outcome (option Z) :=
  match truthy_int (r_chain_id result) with
  | Some c => Ok (Some c)
  | None =>
      if Nat.leb 2 (length registry_parts)
      then let? c := PyStr.int (default "" (registry_parts !! 1%nat)) in
           Ok (Some c)
      else Ok None
  end.

Definition build_siwa_response (result : SIWAVerificationResult)
  : outcome SIWAResponse :=
  let base (st : Status) code error action skill :=
    {| status := st;
       p_address := r_address result;
       p_agent_id := r_agent_id result;
       p_agent_registry := r_agent_registry result;
       p_chain_id := r_chain_id result;
       p_verified := r_verified result;
       p_signer_type := r_signer_type result;
       p_code := code; p_error := error;
       p_action := action; p_skill := skill |} in
  if default false (r_valid result) then
    Ok (base authenticated None None None None)
  else if bool_decide (r_code result = Some NOT_REGISTERED) then
    let registry_parts := PyStr.split ":" (default "" (r_agent_registry result)) in
    let registry_address :=
      if Nat.eqb (length registry_parts) 3 then registry_parts !! 2%nat
      else None in
    let? chain_id := response_chain_id result registry_parts in
    Ok (base not_registered (r_code result)
          (Some "Agent is not registered on the ERC-8004 Identity Registry.")
          (Some {| a_type := "register";
                   a_message := "This address is not registered as an ERC-8004 agent. Install the SIWA SDK and register before signing in.";
                   a_skill := skill_ref;
                   a_steps := register_steps;
                   a_registry_address := registry_address;
                   a_chain_id := chain_id |})
          (Some skill_ref))
  else
    Ok (base rejected (r_code result) (r_error result) None (Some skill_ref)).

(** ** Nonce generation *)

Module Base64.

(** the alphabet of [base64.urlsafe_b64encode] *)
Definition alphabet : string :=
  "ABCDEFGHIJKLMNOPQRSTUVWXYZabcdefghijklmnopqrstuvwxyz0123456789-_".

(** the character of a group of six bits *)
Definition sextet (n : N) : ascii :=
  match String.get (N.to_nat n) alphabet with
  | Some c => c
  | None => "="%char
  end.

(** [base64.urlsafe_b64encode(bs).rstrip(b"=").decode("ascii")]: three bytes
    give four characters, a last group of one or two bytes gives two or
    three, the padding being stripped *)
Fixpoint encode (bs : list Byte.byte) : string :=
  match bs with
  | [] => ""
  | a :: bs1 =>
      let a := Byte.to_N a in
      match bs1 with
      | [] =>
          String (sextet (N.shiftr a 2))
            (String (sextet (N.shiftl (N.land a 3) 4)) "")
      | b :: bs2 =>
          let b := Byte.to_N b in
          match bs2 with
          | [] =>
              String (sextet (N.shiftr a 2))
                (String (sextet (N.lor (N.shiftl (N.land a 3) 4) (N.shiftr b 4)))
                   (String (sextet (N.shiftl (N.land b 15) 2)) ""))
          | c :: rest =>
              let c := Byte.to_N c in
              String (sextet (N.shiftr a 2))
                (String (sextet (N.lor (N.shiftl (N.land a 3) 4) (N.shiftr b 4)))
                   (String (sextet (N.lor (N.shiftl (N.land b 15) 2)
                                      (N.shiftr c 6)))
                      (String (sextet (N.land c 63)) (encode rest))))
          end
      end
  end.

End Base64.

(** a digit of [bytes.hex] *)
Definition lower_hex (c : ascii) : bool :=
  let n := N_of_ascii c in
  ((48 <=? n) && (n <=? 57) || (97 <=? n) && (n <=? 102))%N.

(** the groups of six bits *)
Definition sextets : list N := map N.of_nat (seq 0 64).

(** [s[:n]] *)
Definition slice_to (n : Z) (s : string) : string :=
  if n <? 0
  then substring 0 (Z.to_nat (Z.of_nat (String.length s) + n)) s
  else substring 0 (Z.to_nat n) s.

Section Nonce.
Context {W : Type}.

(** [os.urandom]: the source of random bytes, acting on the external state *)
Variable urandom : Z -> W -> outcome (list Byte.byte) * W.

(** [secrets.token_urlsafe(nbytes)] *)
Definition token_urlsafe (nbytes : Z) (s : W) : outcome string * W :=
  match urandom nbytes s with
  | (Ok tok, s') => (Ok (Base64.encode tok), s')
  | (Raise e, s') => (Raise e, s')
  end.

Definition generate_nonce (length : Z) (s : W) : outcome string * W :=
  match token_urlsafe length s with
  | (Ok t, s') => (Ok (slice_to length t), s')
  | (Raise e, s') => (Raise e, s')
  end.

End Nonce.

(** what [os.urandom] does with the request for [n] bytes: a negative [n] is
    refused, otherwise exactly [n] bytes come back *)
Definition urandom_contract {W : Type}
    (urandom : Z -> W -> outcome (list Byte.byte) * W) : Prop :=
  forall n s,
    if n <? 0
    then exists s', urandom n s
                    = (Raise (ValueError "negative argument not allowed"), s')
    else exists bs s', urandom n s = (Ok bs, s')
                       /\ length bs = Z.to_nat n.

(** a character of a nonce: a letter, a digit, [-] or [_] *)
Definition url_safe (c : ascii) : bool :=
  let n := N_of_ascii c in
  ((65 <=? n) && (n <=? 90) || (97 <=? n) && (n <=? 122)
   || (48 <=? n) && (n <=? 57) || (n =? 45) || (n =? 95))%N.

Fixpoint all_chars (p : ascii -> bool) (s : string) : bool :=
  match s with
  | "" => true
  | String c s' => p c && all_chars p s'
  end.

(** ** The local-key signer *)

(** an [eth_account] [LocalAccount]: its address, and the signature bytes of
    the EIP-191 hash of a text *)
Record LocalAccount : Type := {
  account_address : string;
  account_sign_message : string -> outcome (list Byte.byte)
}.

Definition hex_digit (n : N) : ascii :=
  match String.get (N.to_nat n) "0123456789abcdef" with
  | Some c => c
  | None => "0"%char
  end.

(** [bs.hex()] *)
Fixpoint hex (bs : list Byte.byte) : string :=
  match bs with
  | [] => ""
  | b :: rest =>
      let n := Byte.to_N b in
      String (hex_digit (N.shiftr n 4))
        (String (hex_digit (N.land n 15)) (hex rest))
  end.

(** [LocalAccountSigner(account)] *)
Definition LocalAccountSigner {W : Type} (account : LocalAccount) : Signer W :=
  {| get_address := fun s => (Ok (account_address account), s);
     sign_message := fun message s =>
       (let? signature := account_sign_message account message in
        Ok ("0x" +:+ hex signature), s) |}.

(** ** Stages reached *)

Section Stages.
Context {W : Type} (lib : Library W).

(** stages 1 to 5 pass on [message]: it parses into [f], the signature
    recovers [recovered], which is the address of the message up to case,
    the domain is the expected one, and the validator accepts the nonce,
    leaving the external state [s1] *)
Definition reaches_time_window (message signature expected_domain : string)
    (nonce_validator : string -> W -> outcome bool * W) (w : world W)
    (f : SIWAMessageFields) (recovered : string) (s1 : W) : Prop :=
  parse_siwa_message message = Ok f
  /\ recover_message lib message signature = Ok recovered
  /\ (exists a, address f = Some a
                /\ PyStr.lower recovered = PyStr.lower a)
  /\ domain f = Some expected_domain
  /\ (exists n, nonce f = Some n
                /\ nonce_validator n (ext w) = (Ok true, s1)).

(** the expiration check of stage 6 passes at the time [now] *)
Definition expiry_passes (now : datetime) (f : SIWAMessageFields) : Prop :=
  match truthy (expiration_time f) with
  | None => True
  | Some s =>
      exists d, fromisoformat lib (PyStr.replace "Z" "+00:00" s) = Ok d
                /\ dt_gt now d = false
  end.

(** the [not_before] check of stage 6 passes at the time [now] *)
Definition not_before_passes (now : datetime) (f : SIWAMessageFields) : Prop :=
  match truthy (not_before f) with
  | None => True
  | Some s =>
      exists d, fromisoformat lib (PyStr.replace "Z" "+00:00" s) = Ok d
                /\ dt_lt now d = false
  end.

(** stages 7 and 8 pass from the state [s1]: the registry has the three
    parts, the owner of the token is fetched, leaving the state [s2], and
    is the recovered signer up to case *)
Definition ownership_passes (w3 : Web3 W) (registry_address : option string)
    (f : SIWAMessageFields) (recovered : string) (s1 s2 : W)
    (contract : string) (token : Z) : Prop :=
  exists reg p1 p2 owner,
    agent_registry f = Some reg
    /\ PyStr.split ":" reg = ["eip155"; p1; p2]
    /\ to_checksum_address lib
         (match truthy registry_address with Some a => a | None => p2 end)
       = Ok contract
    /\ agent_id f = Some token
    /\ owner_of w3 contract token s1 = (Ok owner, s2)
    /\ PyStr.lower owner = PyStr.lower recovered.

End Stages.

(** ** Calls of a run *)

(** the collaborator calls that a result of the pipeline can come with, [n]
    being the nonce of the message: none before the signature and the domain
    are accepted, the validator alone up to the registry format, then the
    owner lookup, then the code lookup *)
Definition calls_allowed (r : SIWAVerificationResult) (n : string)
    (t : list event) : Prop :=
  match r_code r with
  | Some INVALID_SIGNATURE | Some DOMAIN_MISMATCH => t = []
  | Some INVALID_NONCE | Some MESSAGE_EXPIRED | Some MESSAGE_NOT_YET_VALID
  | Some INVALID_REGISTRY_FORMAT => t = [EvNonceValidator n]
  | Some NOT_REGISTERED =>
      t = [EvNonceValidator n]
      \/ exists c token, t = [EvNonceValidator n; EvOwnerOf c token]
  | Some NOT_OWNER =>
      exists c token, t = [EvNonceValidator n; EvOwnerOf c token]
  | None =>
      exists c token a,
        t = [EvNonceValidator n; EvOwnerOf c token; EvGetCode a]
  | Some VERIFICATION_FAILED =>
      t = [] \/ t = [EvNonceValidator n]
      \/ (exists c token, t = [EvNonceValidator n; EvOwnerOf c token])
      \/ (exists c token a,
            t = [EvNonceValidator n; EvOwnerOf c token; EvGetCode a])
  | Some _ => False
  end.

(** the shape of a result: a success has no code and no error and carries
    the signer type; a failure has a code and an error and no signer type *)
Definition result_shape (r : SIWAVerificationResult) : Prop :=
  (r_valid r = Some true /\ r_code r = None /\ r_error r = None
   /\ r_verified r = Some onchain /\ is_set (r_signer_type r) = true)
  \/ (r_valid r = Some false /\ is_set (r_code r) = true
      /\ is_set (r_error r) = true /\ r_signer_type r = None).

(** ** Fixtures: concrete collaborators for running the pipeline *)

Module Fixture.

(** [datetime.fromisoformat] on the shapes [YYYY-MM-DDTHH:MM:SS] and
    [YYYY-MM-DDTHH:MM:SS+HH:MM] (or [-HH:MM]); every other string is
    rejected here *)
Definition number (s : string) : option Z :=
  match s with
  | "" => None
  | _ => option_map Z.of_uint (NilEmpty.uint_of_string s)
  end.

Definition char_at_is (s : string) (i : nat) (c : ascii) : bool :=
  match String.get i s with
  | Some c' => Ascii.eqb c c'
  | None => false
  end.

Definition is_leap (y : Z) : bool :=
  (y mod 4 =? 0) && (negb (y mod 100 =? 0) || (y mod 400 =? 0)).

Definition days_in_month (y m : Z) : Z :=
  if m =? 2 then (if is_leap y then 29 else 28)
  else if (m =? 4) || (m =? 6) || (m =? 9) || (m =? 11) then 30 else 31.

Definition utcoffset (s : string) : option (option Z) :=
  match s with
  | "" => Some None
  | _ =>
      let sign :=
        if char_at_is s 0 "+" then Some 1
        else if char_at_is s 0 "-" then Some (-1) else None in
      match sign, number (substring 1 2 s), number (substring 4 2 s) with
      | Some sg, Some hh, Some mm =>
          if char_at_is s 3 ":" && Nat.eqb (String.length s) 6
             && (hh <? 24) && (mm <? 60)
          then Some (Some (sg * (hh * 3600 + mm * 60)))
          else None
      | _, _, _ => None
      end
  end.

Definition fromisoformat_basic (s : string) : outcome datetime :=
  let bad := Raise (ValueError ("Invalid isoformat string: '" +:+ s +:+ "'")) in
  if char_at_is s 4 "-" && char_at_is s 7 "-" && char_at_is s 10 "T"
     && char_at_is s 13 ":" && char_at_is s 16 ":"
  then
    match number (substring 0 4 s), number (substring 5 2 s),
          number (substring 8 2 s), number (substring 11 2 s),
          number (substring 14 2 s), number (substring 17 2 s),
          utcoffset (substring 19 (String.length s - 19) s) with
    | Some y, Some mo, Some d, Some h, Some mi, Some se, Some tz =>
        if (1 <=? y) && (1 <=? mo) && (mo <=? 12) && (1 <=? d)
           && (d <=? days_in_month y mo) && (h <? 24) && (mi <? 60)
           && (se <? 60)
        then Ok {| year := y; month := mo; day := d; hour := h;
                   minute := mi; second := se; microsecond := 0;
                   tzinfo := tz |}
        else bad
    | _, _, _, _, _, _, _ => bad
    end
  else bad.

(** external state: the clock, the nonces issued and not yet consumed, the
    owners of the registry's tokens, and the answer of the code lookup *)
Record state : Type := {
  now : datetime;
  issued : gset string;
  owners : gmap Z string;
  code_at : outcome (list Byte.byte)
}.

(** a stand-in for signature recovery: a signature is the signer's address,
    a bar and the signed text; any other text recovers a foreign address *)
Definition foreign_address : string :=
  "0x000000000000000000000000000000000000dEaD".

Definition recover (message signature : string) : outcome string :=
  match PyStr.find_sep "|" signature with
  | Some (a, m) => if String.eqb m message then Ok a else Ok foreign_address
  | None => Raise (Exception "BadSignature" "Signature has an invalid shape")
  end.

Definition checksum (a : string) : outcome string :=
  if PyStr.startswith a "0x" && Nat.eqb (String.length a) 42 then Ok a
  else Raise (Exception "InvalidAddress" ("Invalid address: " +:+ a)).

Definition library : Library state :=
  {| recover_message := recover;
     fromisoformat := fromisoformat_basic;
     utcnow := now;
     to_checksum_address := checksum |}.

(** a validator that consumes a nonce the first time it sees it *)
Definition consume_nonce (n : string) (s : state) : outcome bool * state :=
  if bool_decide (n ∈ issued s)
  then (Ok true, {| now := now s; issued := issued s ∖ {[n]};
                    owners := owners s; code_at := code_at s |})
  else (Ok false, s).

Definition w3 : Web3 state :=
  {| owner_of := fun _ token s =>
       (match owners s !! token with
        | Some o => Ok o
        | None => Raise (Exception "ContractLogicError" "execution reverted")
        end, s);
     get_code := fun _ s => (code_at s, s) |}.

Definition signer_address : string :=
  "0x14791697260E4c9A71f18484C9f997B308e59325".

(** a signer holding a local key *)
Definition signer : Signer state :=
  {| get_address := fun s => (Ok signer_address, s);
     sign_message := fun m s => (Ok (signer_address +:+ "|" +:+ m), s) |}.

Definition at_time (h : Z) : datetime :=
  {| year := 2024; month := 1; day := 1; hour := h; minute := 0;
     second := 0; microsecond := 0; tzinfo := None |}.

Definition registry : string :=
  "eip155:84532:0x8004AA63B05E4C14eC1Fe6B35AD3bAe8A7Bc9b66".

Definition fields : SIWAMessageFields :=
  {| domain := Some "test.example.com";
     address := Some signer_address;
     statement := Some "Sign in to access your account";
     uri := Some "https://test.example.com/api/siwa";
     version := Some "1";
     agent_id := Some 999;
     agent_registry := Some registry;
     chain_id := Some 84532;
     nonce := Some "secure-nonce-value";
     issued_at := Some "2024-01-01T00:00:00Z";
     expiration_time := None;
     not_before := None;
     request_id := None |}.

(** a source of bytes that are all the same *)
Definition constant_urandom (n : Z) (s : state)
  : outcome (list Byte.byte) * state :=
  if n <? 0 then (Raise (ValueError "negative argument not allowed"), s)
  else (Ok (replicate (Z.to_nat n) Byte.xfb), s).

(** the text of [build_siwa_message f] *)
Definition message_of (f : SIWAMessageFields) : string :=
  match build_siwa_message f with
  | Ok m => m
  | Raise _ => ""
  end.

(** the same claim with a validity window *)
Definition with_window (f : SIWAMessageFields) (exp nbf : option string)
  : SIWAMessageFields :=
  {| domain := domain f; address := address f;
     statement := statement f; uri := uri f;
     version := version f; agent_id := agent_id f;
     agent_registry := agent_registry f; chain_id := chain_id f;
     nonce := nonce f; issued_at := issued_at f;
     expiration_time := exp; not_before := nbf;
     request_id := request_id f |}.

(** the same claim with a statement *)
Definition with_statement (f : SIWAMessageFields) (st : option string)
  : SIWAMessageFields :=
  {| domain := domain f; address := address f;
     statement := st; uri := uri f;
     version := version f; agent_id := agent_id f;
     agent_registry := agent_registry f; chain_id := chain_id f;
     nonce := nonce f; issued_at := issued_at f;
     expiration_time := expiration_time f; not_before := not_before f;
     request_id := request_id f |}.

(** a claim with a statement of three lines, padded with spaces, a window
    and a request id *)
Definition full_fields : SIWAMessageFields :=
  {| domain := Some "test.example.com";
     address := Some "0xABCDEF1234567890ABCDEF1234567890ABCDEF12";
     statement :=
       Some ("  Multi-line" +:+ PyStr.nl +:+ "statement" +:+ PyStr.nl
             +:+ "test. ");
     uri := Some "https://test.example.com/api/siwa";
     version := Some "1";
     agent_id := Some 999;
     agent_registry :=
       Some "eip155:42161:0x1234567890123456789012345678901234567890";
     chain_id := Some 42161;
     nonce := Some "secure-nonce-value";
     issued_at := Some "2024-06-01T00:00:00Z";
     expiration_time := Some "2024-06-01T00:05:00Z";
     not_before := Some "";
     request_id := Some "request-id-12345" |}.

(** a local account with the signer's address, whose signatures are 65
    bytes *)
Definition local_account : LocalAccount :=
  {| account_address := signer_address;
     account_sign_message := fun _ => Ok (replicate 65 Byte.x1b) |}.

(** the claim as the signing tests give it: no address, no version *)
Definition bare_fields : SIWAMessageFields :=
  {| domain := Some "test.example.com";
     address := None;
     statement := None;
     uri := Some "https://test.example.com/api/siwa";
     version := None;
     agent_id := Some 999;
     agent_registry := Some registry;
     chain_id := Some 84532;
     nonce := Some "secure-nonce-value";
     issued_at := Some "2024-01-01T00:00:00Z";
     expiration_time := None;
     not_before := None;
     request_id := None |}.

(** the same claim for another registry and chain *)
Definition with_registry (f : SIWAMessageFields) (reg : string) (chain : Z)
  : SIWAMessageFields :=
  {| domain := domain f; address := address f;
     statement := statement f; uri := uri f;
     version := version f; agent_id := agent_id f;
     agent_registry := Some reg; chain_id := Some chain;
     nonce := nonce f; issued_at := issued_at f;
     expiration_time := expiration_time f; not_before := not_before f;
     request_id := request_id f |}.

Definition world_at (h : Z) (tokens : gmap Z string)
    (code : outcome (list Byte.byte)) : world state :=
  {| ext := {| now := at_time h; issued := {["secure-nonce-value"]};
               owners := tokens; code_at := code |};
     trace := [] |}.

(** the agent is registered and its address has no code *)
Definition initial (h : Z) : world state :=
  world_at h {[999 := signer_address]} (Ok []).

(** the external state once the validator has consumed the nonce *)
Definition consumed (w : world state) : state :=
  snd (consume_nonce "secure-nonce-value" (ext w)).

(** the signature of the fixture signer on the message of [f] *)
Definition signature_of (f : SIWAMessageFields) : string :=
  signer_address +:+ "|" +:+ message_of f.

(** sign [f] with the fixture signer, then verify the signed message *)
Definition sign_then_verify (f : SIWAMessageFields) (expected_domain : string)
    (w : world state) : outcome SIWAVerificationResult * world state :=
  match sign_siwa_message f signer w with
  | (Ok sm, w') =>
      verify_siwa library (sm_message sm) (sm_signature sm) expected_domain
        consume_nonce w3 None
        {| ext := ext w'; trace := [] |}
  | (Raise e, w') => (Raise e, w')
  end.

End Fixture.


(** * Properties *)

(** ** Strings *)

Section StringFacts.
Import PyStr.

Lemma no_newline_cons c s :
  no_newline (String c s) = negb (Ascii.eqb newline c) && no_newline s.
Proof.
  unfold no_newline, contains. cbn [find_sep nl strip_prefix].
  destruct (Ascii.eqb newline c); [reflexivity|].
  by destruct (find_sep nl s) as [[??]|].
Qed.

Lemma no_newline_app a b :
  no_newline (a +:+ b) = no_newline a && no_newline b.
Proof.
  induction a as [|c a IH]; [reflexivity|].
  change (String c a +:+ b) with (String c (a +:+ b)).
  rewrite !no_newline_cons, IH. by rewrite andb_assoc.
Qed.

Lemma split_nonempty sep s : split sep s <> [].
Proof.
  destruct s as [|c s]; cbn; [done|].
  destruct (Ascii.eqb c sep); [done|]. by destruct (split sep s).
Qed.

Lemma split_one_line s : no_newline s = true -> split newline s = [s].
Proof.
  induction s as [|c s IH]; [reflexivity|].
  rewrite no_newline_cons. intros [Hc Hs]%andb_true_iff.
  cbn [split]. rewrite Ascii.eqb_sym.
  apply negb_true_iff in Hc. rewrite Hc. by rewrite IH.
Qed.

Lemma split_app_newline a b :
  split newline (a +:+ nl +:+ b) = split newline a ++ split newline b.
Proof.
  induction a as [|c a IH]; [reflexivity|].
  change (String c a +:+ nl +:+ b) with (String c (a +:+ nl +:+ b)).
  cbn [split]. rewrite IH.
  destruct (Ascii.eqb c newline); [reflexivity|].
  pose proof (split_nonempty newline a).
  by destruct (split newline a).
Qed.

Lemma split_join (ls : list string) :
  ls <> [] ->
  split newline (join nl ls) = concat (map (split newline) ls).
Proof.
  induction ls as [|l ls IH]; [done|]. intros _.
  destruct ls as [|l' ls].
  - cbn. by rewrite app_nil_r.
  - change (join nl (l :: l' :: ls)) with (l +:+ nl +:+ join nl (l' :: ls)).
    rewrite split_app_newline, IH by done. reflexivity.
Qed.

Lemma join_cons_char c l ls :
  join nl (String c l :: ls) = String c (join nl (l :: ls)).
Proof. by destruct ls. Qed.

Lemma join_split s : join nl (split newline s) = s.
Proof.
  induction s as [|c s IH]; [reflexivity|].
  cbn [split]. destruct (Ascii.eqb_spec c newline) as [->|_].
  - pose proof (split_nonempty newline s).
    destruct (split newline s) as [|l ls] eqn:E; [done|].
    change (join nl ("" :: l :: ls)) with (nl +:+ join nl (l :: ls)).
    by rewrite IH.
  - pose proof (split_nonempty newline s).
    destruct (split newline s) as [|l ls] eqn:E; [done|].
    by rewrite join_cons_char, IH.
Qed.

Lemma strip_prefix_app p s : strip_prefix p (p +:+ s) = Some s.
Proof.
  induction p as [|c p IH]; [reflexivity|].
  change (String c p +:+ s) with (String c (p +:+ s)).
  cbn [strip_prefix]. by rewrite Ascii.eqb_refl.
Qed.

Lemma startswith_app p s : startswith (p +:+ s) p = true.
Proof. unfold startswith. by rewrite strip_prefix_app. Qed.

End StringFacts.

(** ** Decimal literals *)

Section IntFacts.
Import PyStr.

Lemma int_digits_string_of_uint d :
  int_digits true (NilEmpty.string_of_uint d) = Some d.
Proof. induction d; cbn; rewrite ?IHd; reflexivity. Qed.

Lemma int_literal_string_of_uint d :
  d <> Nil ->
  int_literal (NilEmpty.string_of_uint d) = Some (Z.of_uint d).
Proof.
  destruct d; [done|..]; intros _; cbn;
    by rewrite int_digits_string_of_uint.
Qed.

Lemma int_literal_str_of_int n : int_literal (str_of_int n) = Some n.
Proof.
  unfold str_of_int. rewrite <- (DecimalZ.of_to n) at 2.
  destruct n as [|p|p]; [reflexivity|..]; cbn [Z.to_int NilZero.string_of_int].
  - pose proof (DecimalPos.Unsigned.to_uint_nonnil p) as Hnil.
    assert (NilZero.string_of_uint (Pos.to_uint p)
            = NilEmpty.string_of_uint (Pos.to_uint p)) as ->.
    { by destruct (Pos.to_uint p). }
    by rewrite int_literal_string_of_uint.
  - pose proof (DecimalPos.Unsigned.to_uint_nonnil p) as Hnil.
    assert (NilZero.string_of_uint (Pos.to_uint p)
            = NilEmpty.string_of_uint (Pos.to_uint p)) as ->.
    { by destruct (Pos.to_uint p). }
    cbn [int_literal].
    destruct (Pos.to_uint p) as [|d|d|d|d|d|d|d|d|d|d]; [done|..]; cbn;
      by rewrite int_digits_string_of_uint.
Qed.

Lemma rstrip_string_of_uint d :
  rstrip (NilEmpty.string_of_uint d) = NilEmpty.string_of_uint d.
Proof.
  induction d; [reflexivity|..]; cbn [NilEmpty.string_of_uint rstrip];
    rewrite IHd; by destruct (NilEmpty.string_of_uint d).
Qed.

Lemma strip_str_of_int n : strip (str_of_int n) = str_of_int n.
Proof.
  unfold str_of_int, strip.
  destruct n as [|p|p]; [reflexivity|..]; cbn [Z.to_int NilZero.string_of_int];
    pose proof (DecimalPos.Unsigned.to_uint_nonnil p) as Hnil;
    (assert (NilZero.string_of_uint (Pos.to_uint p)
             = NilEmpty.string_of_uint (Pos.to_uint p)) as ->
       by (by destruct (Pos.to_uint p))).
  - assert (lstrip (NilEmpty.string_of_uint (Pos.to_uint p))
            = NilEmpty.string_of_uint (Pos.to_uint p)) as ->.
    { by destruct (Pos.to_uint p). }
    apply rstrip_string_of_uint.
  - cbn [lstrip]. change (isspace "-") with false. cbn [rstrip].
    rewrite rstrip_string_of_uint.
    by destruct (Pos.to_uint p).
Qed.

(** [int(str(n)) == n] *)
Lemma int_str_of_int n : int (str_of_int n) = Ok n.
Proof. unfold int. by rewrite strip_str_of_int, int_literal_str_of_int. Qed.

Lemma no_newline_string_of_uint d :
  no_newline (NilEmpty.string_of_uint d) = true.
Proof.
  induction d; [reflexivity|..]; cbn [NilEmpty.string_of_uint];
    rewrite no_newline_cons, IHd; reflexivity.
Qed.

Lemma no_newline_str_of_int n : no_newline (str_of_int n) = true.
Proof.
  unfold str_of_int.
  destruct n as [|p|p]; [reflexivity|..]; cbn [Z.to_int NilZero.string_of_int];
    pose proof (DecimalPos.Unsigned.to_uint_nonnil p) as Hnil;
    (assert (NilZero.string_of_uint (Pos.to_uint p)
             = NilEmpty.string_of_uint (Pos.to_uint p)) as ->
       by (by destruct (Pos.to_uint p))).
  - apply no_newline_string_of_uint.
  - rewrite no_newline_cons, no_newline_string_of_uint. reflexivity.
Qed.

End IntFacts.

(** ** The codec, line by line *)

Section CodecFacts.
Import PyStr.

Lemma length_append a b :
  String.length (a +:+ b) = (String.length a + String.length b)%nat.
Proof.
  induction a as [|c a IH]; [reflexivity|].
  change (String c a +:+ b) with (String c (a +:+ b)). cbn. by rewrite IH.
Qed.

Lemma remove_suffix_app suf d : remove_suffix suf (d +:+ suf) = Some d.
Proof.
  induction d as [|c d IH].
  - change ("" +:+ suf) with suf.
    destruct suf; cbn [remove_suffix]; by rewrite String.eqb_refl.
  - change (String c d +:+ suf) with (String c (d +:+ suf)).
    cbn [remove_suffix]. rewrite IH.
    assert (String.eqb (String c (d +:+ suf)) suf = false) as ->; [|done].
    apply String.eqb_neq. intros H%(f_equal String.length).
    cbn in H. rewrite length_append in H. lia.
Qed.

Lemma remove_suffix_Some suf s p :
  remove_suffix suf s = Some p -> s = p +:+ suf.
Proof.
  revert p. induction s as [|c s IH]; intros p; cbn [remove_suffix].
  - destruct (String.eqb_spec "" suf) as [<-|_]; [|done]. by intros [= <-].
  - destruct (String.eqb_spec (String c s) suf) as [<-|_].
    + by intros [= <-].
    + destruct (remove_suffix suf s) as [p'|]; [|done].
      intros [= <-]. by rewrite (IH p' eq_refl).
Qed.

Lemma domain_match_line d :
  d <> "" -> no_newline d = true ->
  domain_match (d +:+ domain_suffix) = Some d.
Proof.
  intros Hd Hnl. unfold domain_match.
  destruct (remove_suffix nl (d +:+ domain_suffix)) as [b|] eqn:E.
  - apply remove_suffix_Some in E.
    apply (f_equal no_newline) in E.
    rewrite !no_newline_app, Hnl in E.
    by rewrite andb_false_r in E.
  - rewrite remove_suffix_app, Hnl. by destruct d.
Qed.

Lemma contains_char_cons a c s :
  contains (String a "") (String c s)
  = Ascii.eqb a c || contains (String a "") s.
Proof.
  unfold contains. cbn [find_sep strip_prefix].
  destruct (Ascii.eqb a c); [reflexivity|].
  by destruct (find_sep (String a "") s) as [[??]|].
Qed.

(** the key of a field line is what precedes its first colon *)
Lemma find_sep_field_line k v :
  contains ":" k = false ->
  find_sep ": " (field_line (k, v)) = Some (k, v).
Proof.
  unfold field_line. cbn [fst snd].
  induction k as [|c k IH]; [reflexivity|].
  rewrite contains_char_cons. intros [Hc Hk]%orb_false_iff.
  change (String c k +:+ ": " +:+ v) with (String c (k +:+ ": " +:+ v)).
  cbn [find_sep strip_prefix]. rewrite Hc, (IH Hk). reflexivity.
Qed.

Lemma field_line_nonempty kv : String.eqb (field_line kv) "" = false.
Proof. destruct kv as [[|c k] v]; reflexivity. Qed.

Lemma parse_step_field i k v st :
  ps_in_statement st = false ->
  contains ":" k = false ->
  parse_step i (field_line (k, v)) st
  = {| ps_field_map := <[k := v]> (ps_field_map st);
       ps_statement := ps_statement st;
       ps_in_statement := false;
       ps_stmt_lines := ps_stmt_lines st |}.
Proof.
  intros Hin Hk. unfold parse_step, record_field, partition, contains.
  rewrite field_line_nonempty, andb_false_r, Hin.
  rewrite (find_sep_field_line k v Hk). reflexivity.
Qed.

Lemma parse_loop_fields i kvs rest st :
  ps_in_statement st = false ->
  Forall (fun kv => contains ":" kv.1 = false) kvs ->
  parse_loop i (map field_line kvs ++ rest) st
  = parse_loop (i + length kvs) rest
      {| ps_field_map := record_all kvs (ps_field_map st);
         ps_statement := ps_statement st;
         ps_in_statement := false;
         ps_stmt_lines := ps_stmt_lines st |}.
Proof.
  intros Hin Hkeys. revert i st Hin.
  induction Hkeys as [|[k v] kvs Hk _ IH]; intros i st Hin.
  - cbn. rewrite Nat.add_0_r. destruct st; cbn in *. by subst.
  - cbn [map app parse_loop length].
    rewrite (parse_step_field i k v st Hin Hk), IH by done.
    by rewrite Nat.add_succ_r.
Qed.

Lemma parse_step_statement_line i line st :
  (3 <= i)%nat ->
  ps_in_statement st = true ->
  statement_line_ok line = true ->
  parse_step i line st
  = {| ps_field_map := ps_field_map st;
       ps_statement := ps_statement st;
       ps_in_statement := true;
       ps_stmt_lines := ps_stmt_lines st ++ [line] |}.
Proof.
  intros Hi Hin [Hne Huri]%andb_true_iff. unfold parse_step.
  apply negb_true_iff in Hne, Huri. rewrite Hne, Huri, Hin.
  by rewrite andb_false_r.
Qed.

Lemma parse_loop_statement i ls rest st :
  (3 <= i)%nat ->
  ps_in_statement st = true ->
  forallb statement_line_ok ls = true ->
  parse_loop i (ls ++ rest) st
  = parse_loop (i + length ls) rest
      {| ps_field_map := ps_field_map st;
         ps_statement := ps_statement st;
         ps_in_statement := true;
         ps_stmt_lines := ps_stmt_lines st ++ ls |}.
Proof.
  revert i st. induction ls as [|l ls IH]; intros i st Hi Hin Hok.
  - cbn. rewrite Nat.add_0_r, app_nil_r. destruct st; cbn in *. by subst.
  - cbn in Hok. apply andb_true_iff in Hok as [Hl Hls].
    cbn [app parse_loop length].
    rewrite (parse_step_statement_line i l st Hi Hin Hl).
    rewrite IH by (cbn; done || lia). cbn.
    by rewrite <- app_assoc, Nat.add_succ_r.
Qed.

Lemma parse_step_statement_end i st :
  (3 <= i)%nat ->
  ps_in_statement st = true ->
  parse_step i "" st
  = {| ps_field_map := ps_field_map st;
       ps_statement := or_none (strip (join nl (ps_stmt_lines st)));
       ps_in_statement := false;
       ps_stmt_lines := ps_stmt_lines st |}.
Proof.
  intros Hi Hin. unfold parse_step.
  destruct i as [|[|[|i]]]; [lia..|]. cbn. by rewrite Hin.
Qed.

(** the loop over the lines from index 2 on: the blank line, the lines of
    the statement, the blank line, the field lines *)
Lemma parse_loop_message stmt_lines kvs :
  forallb statement_line_ok stmt_lines = true ->
  Forall (fun kv => contains ":" kv.1 = false) kvs ->
  parse_loop 2 ("" :: stmt_lines ++ "" :: map field_line kvs) parse_init
  = {| ps_field_map := record_all kvs ∅;
       ps_statement := or_none (strip (join nl stmt_lines));
       ps_in_statement := false;
       ps_stmt_lines := stmt_lines |}.
Proof.
  intros Hstmt Hkeys.
  cbn [parse_loop]. change (parse_step 2 "" parse_init) with
    {| ps_field_map := ∅; ps_statement := None; ps_in_statement := true;
       ps_stmt_lines := [] |}.
  rewrite parse_loop_statement by (cbn; done || lia).
  cbn [parse_loop].
  rewrite parse_step_statement_end by (cbn; done || lia).
  cbn [ps_field_map ps_statement ps_stmt_lines app].
  rewrite <- (app_nil_r (map field_line kvs)).
  rewrite parse_loop_fields by done.
  reflexivity.
Qed.

End CodecFacts.

(** ** Round trip *)

Section RoundTrip.
Import PyStr.

Lemma concat_split_one_line (ls : list string) :
  Forall (fun l => no_newline l = true) ls ->
  concat (map (split newline) ls) = ls.
Proof.
  induction 1 as [|l ls Hl _ IH]; [reflexivity|].
  cbn. by rewrite (split_one_line l Hl), IH.
Qed.

(** the parser on a message laid out as [build_siwa_message] lays it out *)
Lemma parse_message_lines d a stmt kvs :
  d <> "" -> no_newline d = true ->
  startswith a "0x" = true -> String.length a = 42%nat ->
  no_newline a = true ->
  forallb statement_line_ok (concat (map (split newline) stmt)) = true ->
  Forall (fun kv => contains ":" kv.1 = false) kvs ->
  Forall (fun l => no_newline l = true) (map field_line kvs) ->
  parse_siwa_message
    (join nl ([d +:+ domain_suffix; a; ""] ++ stmt ++ "" :: map field_line kvs))
  = let field_map := record_all kvs ∅ in
    let? aid := int (default "0" (field_map !! "Agent ID")) in
    let? cid := int (default "0" (field_map !! "Chain ID")) in
    Ok {| domain := Some d;
          address := Some a;
          statement :=
            or_none (strip (join nl (concat (map (split newline) stmt))));
          uri := Some (default "" (field_map !! "URI"));
          version := Some (default "1" (field_map !! "Version"));
          agent_id := Some aid;
          agent_registry := Some (default "" (field_map !! "Agent Registry"));
          chain_id := Some cid;
          nonce := Some (default "" (field_map !! "Nonce"));
          issued_at := Some (default "" (field_map !! "Issued At"));
          expiration_time := field_map !! "Expiration Time";
          not_before := field_map !! "Not Before";
          request_id := field_map !! "Request ID" |}.
Proof.
  intros Hd Hdnl Ha0x Halen Hanl Hstmt Hkeys Hlines.
  unfold parse_siwa_message.
  rewrite split_join by done.
  rewrite !map_app, !concat_app.
  assert (no_newline (d +:+ domain_suffix) = true) as Hdl.
  { by rewrite no_newline_app, Hdnl. }
  rewrite (concat_split_one_line [d +:+ domain_suffix; a; ""])
    by (repeat constructor; done).
  change (map (split newline) ("" :: map field_line kvs))
    with (map (split newline) ([""] ++ map field_line kvs)).
  rewrite map_app, concat_app.
  rewrite (concat_split_one_line [""]) by (repeat constructor; done).
  rewrite (concat_split_one_line (map field_line kvs)) by done.
  cbn [app lookup list_lookup default from_option id drop].
  rewrite (domain_match_line d Hd Hdnl).
  assert (String.eqb a "" = false) as ->.
  { by destruct a. }
  rewrite Ha0x, Halen. cbn [negb orb Nat.eqb].
  rewrite (parse_loop_message _ kvs Hstmt Hkeys).
  reflexivity.
Qed.

End RoundTrip.

Lemma optional_pair_key key o :
  PyStr.contains ":" key = false ->
  Forall (fun kv => PyStr.contains ":" kv.1 = false) (optional_pair key o).
Proof.
  intros Hkey. unfold optional_pair.
  destruct (truthy o); by repeat constructor.
Qed.

Lemma optional_pair_one_line key o :
  PyStr.no_newline key = true ->
  optional_one_line o = true ->
  Forall (fun l => PyStr.no_newline l = true)
    (map field_line (optional_pair key o)).
Proof.
  intros Hkey Ho. unfold optional_pair.
  destruct o as [[|c s]|]; cbn [truthy map]; repeat constructor.
  unfold field_line. cbn [fst snd].
  rewrite !no_newline_app, Hkey. exact Ho.
Qed.

Ltac split_andb :=
  repeat match goal with
         | H : _ && _ = true |- _ => apply andb_true_iff in H as [? ?]
         end.

Ltac read_field_map :=
  repeat (rewrite lookup_insert_eq
          || (rewrite lookup_insert_ne by discriminate)
          || rewrite lookup_empty).

(** C1, as amended: when the domain is not empty, the address has the form
    the parser accepts, every field other than the statement holds one line,
    and no line of the statement is empty or begins with [URI: ], the message
    is built and parses back into the same fields, with the statement
    stripped and an empty statement or optional field missing. *)
Theorem parse_build_roundtrip (f : SIWAMessageFields) :
  well_formed f = true ->
  exists m,
    build_siwa_message f = Ok m
    /\ parse_siwa_message m = Ok (normalize f).
Proof.
  destruct f as [d a st u v aid reg cid n ia ex nb rq].
  unfold well_formed, normalize.
  cbn [domain address statement uri version agent_id agent_registry chain_id
         nonce issued_at expiration_time not_before request_id].
  intros Hwf. split_andb.
  destruct d as [d|], a as [a|], u as [u|], v as [v|], aid as [aid|],
    reg as [reg|], cid as [cid|], n as [n|], ia as [ia|];
    try discriminate.
  cbn [domain_ok address_ok required_line] in *. split_andb.
  set (stmt := match truthy st with Some s => [s] | None => [] end).
  set (kvs :=
         [("URI", u); ("Version", v); ("Agent ID", PyStr.str_of_int aid);
          ("Agent Registry", reg); ("Chain ID", PyStr.str_of_int cid);
          ("Nonce", n); ("Issued At", ia)]
         ++ optional_pair "Expiration Time" ex
         ++ optional_pair "Not Before" nb
         ++ optional_pair "Request ID" rq).
  exists (PyStr.join PyStr.nl
            ([d +:+ domain_suffix; a; ""] ++ stmt ++ "" :: map field_line kvs)).
  split.
  { unfold build_siwa_message, build_lines, optional_line, kvs, stmt,
      optional_pair.
    cbn [getitem obind domain address statement uri version agent_id
           agent_registry chain_id nonce issued_at expiration_time not_before
           request_id].
    by destruct (truthy st), (truthy ex), (truthy nb), (truthy rq). }
  rewrite parse_message_lines.
  - assert (or_none (PyStr.strip (PyStr.join PyStr.nl
              (concat (map (PyStr.split PyStr.newline) stmt))))
            = match st with
              | Some s => or_none (PyStr.strip s)
              | None => None
              end) as ->.
    { unfold stmt. destruct st as [[|c s]|]; cbn [truthy map concat];
        [reflexivity| |reflexivity].
      by rewrite app_nil_r, join_split. }
    unfold kvs, optional_pair, record_all.
    destruct (truthy ex), (truthy nb), (truthy rq);
      cbn [app foldl fst snd]; read_field_map;
      cbn [default from_option id];
      rewrite !int_str_of_int; reflexivity.
  - match goal with
    | H : negb (String.eqb d "") = true |- _ =>
        by apply negb_true_iff, String.eqb_neq in H
    end.
  - done.
  - done.
  - by apply Nat.eqb_eq.
  - done.
  - unfold stmt. unfold statement_ok in *.
    destruct (truthy st); cbn [map concat]; [|reflexivity].
    by rewrite app_nil_r.
  - unfold kvs. rewrite !Forall_app.
    repeat split; try apply optional_pair_key; repeat constructor.
  - unfold kvs. rewrite !map_app, !Forall_app.
    repeat split; try (by apply optional_pair_one_line).
    repeat constructor; unfold field_line; cbn [fst snd];
      rewrite !no_newline_app, ?no_newline_str_of_int;
      repeat match goal with
             | H : PyStr.no_newline _ = true |- _ => rewrite H
             end;
      reflexivity.
Qed.

Lemma parse_build_roundtrip_witness :
  well_formed Fixture.full_fields = true
  /\ exists m,
       build_siwa_message Fixture.full_fields = Ok m
       /\ parse_siwa_message m = Ok (normalize Fixture.full_fields)
       /\ statement (normalize Fixture.full_fields)
          = Some ("Multi-line" +:+ PyStr.nl +:+ "statement" +:+ PyStr.nl
                  +:+ "test.")
       /\ not_before (normalize Fixture.full_fields) = None.
Proof.
  split; [reflexivity|].
  destruct (parse_build_roundtrip Fixture.full_fields eq_refl)
    as (m & Hbuild & Hparse).
  exists m. split; [exact Hbuild|]. split; [exact Hparse|].
  split; reflexivity.
Defined.

(** C1 as stated fails: every required field is set, the statement is the
    one line [URI: x], not empty and with no blank line, and the parser
    gives back no statement: a line of the statement that begins with
    [URI: ] ends the statement and is read as the URI field. *)
Lemma statement_uri_line_counterexample :
  let f := Fixture.with_statement Fixture.fields (Some "URI: x") in
  is_set (domain f) && is_set (address f) && is_set (uri f)
  && is_set (version f) && is_set (agent_id f) && is_set (agent_registry f)
  && is_set (chain_id f) && is_set (nonce f) && is_set (issued_at f) = true
  /\ forallb (fun l => negb (String.eqb l ""))
       (PyStr.split PyStr.newline "URI: x") = true
  /\ PyStr.strip "URI: x" = "URI: x"
  /\ exists m g,
       build_siwa_message f = Ok m
       /\ parse_siwa_message m = Ok g
       /\ statement g = None
       /\ statement g <> Some (PyStr.strip "URI: x").
Proof.
  intros f. split; [reflexivity|]. split; [reflexivity|].
  split; [reflexivity|].
  do 2 eexists. split; [vm_compute; reflexivity|].
  split; [vm_compute; reflexivity|].
  split; [reflexivity|discriminate].
Qed.






(** ** The parser *)

Lemma parse_ok_inv message f :
  parse_siwa_message message = Ok f ->
  exists d a n reg aid cid,
    domain f = Some d /\ address f = Some a /\ nonce f = Some n
    /\ agent_registry f = Some reg /\ agent_id f = Some aid
    /\ chain_id f = Some cid.
Proof.
  unfold parse_siwa_message.
  destruct (domain_match _) as [d|]; [|discriminate].
  destruct (_ !! 1%nat) as [a|]; [|discriminate].
  destruct (_ || _); [discriminate|].
  destruct (PyStr.int _) as [aid|]; [|discriminate]. cbn [obind].
  destruct (PyStr.int _) as [cid|]; [|discriminate]. cbn [obind].
  intros [= <-]; cbn. do 6 eexists. repeat split; reflexivity.
Qed.

(** a second line that is there and is malformed is rejected with a
    [ValueError], whatever the first line is *)
Lemma parse_rejects_malformed_address message addr :
  PyStr.split PyStr.newline message !! 1%nat = Some addr ->
  PyStr.startswith addr "0x" = false \/ String.length addr <> 42%nat ->
  exists msg, parse_siwa_message message = Raise (ValueError msg).
Proof.
  intros Hline Hbad. unfold parse_siwa_message.
  destruct (domain_match _); [|eauto].
  rewrite Hline.
  assert (String.eqb addr "" || negb (PyStr.startswith addr "0x")
          || negb (Nat.eqb (String.length addr) 42) = true) as ->; [|eauto].
  destruct Hbad as [-> | Hlen].
  - cbn. by rewrite orb_true_r.
  - apply Nat.eqb_neq in Hlen. rewrite Hlen. apply orb_true_r.
Qed.

(** a message of one line, a well-formed first line, has no second line to
    read *)
Lemma parse_missing_address_line message d :
  PyStr.split PyStr.newline message = [message] ->
  domain_match message = Some d ->
  parse_siwa_message message = Raise (IndexError "list index out of range").
Proof.
  intros Hsplit Hd. unfold parse_siwa_message.
  rewrite Hsplit. cbn. by rewrite Hd.
Qed.

(** C5 (the claim holds, the code does not): a message that consists of a
    valid first line only has no second line; reading [lines[1]] raises
    [IndexError], which is not the [ValueError] that the docstring of
    [parse_siwa_message] and the claim announce for a missing address. *)
Theorem parse_first_line_only_raises_IndexError :
  parse_siwa_message "example.com wants you to sign in with your Agent account:"
  = Raise (IndexError "list index out of range")
  /\ is_ValueError (IndexError "list index out of range") = false.
Proof. split; reflexivity. Qed.

(** ** The pipeline: its boundary and its first stages *)

Section PipelineFacts.
Context {W : Type} (lib : Library W).
Implicit Types (w : world W) (f : SIWAMessageFields).
Implicit Types (nv : string -> W -> outcome bool * W).

Lemma verify_siwa_unfold message signature expected nv (w3 : Web3 W) ra w :
  verify_siwa lib message signature expected nv w3 ra w =
  match verify_body lib message signature expected nv w3 ra w with
  | (Ok r, w') => (Ok r, w')
  | (Raise e, w') => (Ok (verification_failed e), w')
  end.
Proof. reflexivity. Qed.

Lemma verify_body_parse_error message signature expected nv (w3 : Web3 W) ra w e :
  parse_siwa_message message = Raise e ->
  verify_body lib message signature expected nv w3 ra w = (Raise e, w).
Proof. intros H. unfold verify_body, bind, lift. by rewrite H. Qed.

(** stages 2 and 3 reject: the signature does not recover, or recovers
    another address *)
Lemma verify_body_bad_signature message signature expected nv (w3 : Web3 W) ra w f a :
  parse_siwa_message message = Ok f ->
  address f = Some a ->
  match recover_message lib message signature with
  | Ok recovered => PyStr.lower recovered <> PyStr.lower a
  | Raise _ => True
  end ->
  exists error,
    verify_body lib message signature expected nv w3 ra w
    = (Ok (fail f INVALID_SIGNATURE error), w).
Proof.
  intros Hp Ha Hrec. unfold verify_body, bind, lift. rewrite Hp.
  destruct (recover_message lib message signature) as [recovered|]; [|eauto].
  rewrite Ha. cbn.
  apply String.eqb_neq in Hrec. rewrite Hrec. cbn. eauto.
Qed.

(** stage 4 rejects *)
Lemma verify_body_domain_mismatch message signature expected nv (w3 : Web3 W) ra w
    f a d recovered :
  parse_siwa_message message = Ok f ->
  address f = Some a ->
  domain f = Some d ->
  recover_message lib message signature = Ok recovered ->
  PyStr.lower recovered = PyStr.lower a ->
  d <> expected ->
  exists error,
    verify_body lib message signature expected nv w3 ra w
    = (Ok (fail f DOMAIN_MISMATCH error), w).
Proof.
  intros Hp Ha Hd Hrec Hlow Hne. unfold verify_body, bind, lift.
  rewrite Hp, Hrec, Ha. cbn. rewrite Hlow, String.eqb_refl. cbn.
  rewrite Hd. cbn. apply String.eqb_neq in Hne. rewrite Hne. cbn. eauto.
Qed.

(** stages 1 to 5 pass: the pipeline is at the time window, the validator
    having run once *)
Lemma verify_body_reaches_time_window message signature expected nv (w3 : Web3 W) ra w
    f a n recovered s1 :
  parse_siwa_message message = Ok f ->
  address f = Some a ->
  domain f = Some expected ->
  nonce f = Some n ->
  recover_message lib message signature = Ok recovered ->
  PyStr.lower recovered = PyStr.lower a ->
  nv n (ext w) = (Ok true, s1) ->
  verify_body lib message signature expected nv w3 ra w
  = verify_time_window lib f recovered w3 ra
      {| ext := s1; trace := trace w ++ [EvNonceValidator n] |}.
Proof.
  intros Hp Ha Hd Hn Hrec Hlow Hnv. unfold verify_body, bind, lift, call.
  rewrite Hp, Hrec, Ha. cbn. rewrite Hlow, String.eqb_refl. cbn.
  rewrite Hd. cbn. rewrite String.eqb_refl. cbn.
  rewrite Hn. cbn. rewrite Hnv. reflexivity.
Qed.

End PipelineFacts.

(** C3: [verify_siwa] returns a result on every input and for every
    behaviour of its collaborators, and never raises: what the body of its
    [try] block returns is returned, and an exception raised at any stage,
    the parser's included, becomes the result with [valid = false],
    [code = VERIFICATION_FAILED] and [verified = "offline"]. *)
Theorem verify_siwa_never_raises {W : Type} (lib : Library W)
    (message signature expected_domain : string)
    (nonce_validator : string -> W -> outcome bool * W)
    (w3 : Web3 W) (registry_address : option string) (w : world W) :
  exists r w',
    verify_siwa lib message signature expected_domain nonce_validator w3
      registry_address w = (Ok r, w')
    /\ match verify_body lib message signature expected_domain nonce_validator
               w3 registry_address w with
       | (Ok r0, w0) => r = r0 /\ w' = w0
       | (Raise e, w0) =>
           r = verification_failed e /\ w' = w0
           /\ r_valid r = Some false
           /\ r_code r = Some VERIFICATION_FAILED
           /\ r_verified r = Some offline
       end
    /\ match parse_siwa_message message with
       | Ok _ => True
       | Raise e =>
           r = verification_failed e /\ w' = w
           /\ r_valid r = Some false
           /\ r_code r = Some VERIFICATION_FAILED
           /\ r_verified r = Some offline
       end.
Proof.
  rewrite verify_siwa_unfold.
  destruct (parse_siwa_message message) as [f|e] eqn:Hp.
  - destruct (verify_body _ _ _ _ _ _ _ _) as [[r|e] w0];
      do 2 eexists; repeat split; reflexivity.
  - rewrite (verify_body_parse_error lib _ _ _ _ _ _ _ _ Hp).
    do 2 eexists; repeat split; reflexivity.
Qed.

(** C2 (the claim holds, the code does not): a validly signed message for
    another domain is rejected at stage 4, before the nonce validator and
    before any chain call (the trace of collaborator calls is empty), and
    yet the result says [verified = "onchain"]; so does every result that
    [fail] builds. *)
Theorem prechain_failure_reports_onchain :
  (exists r w',
     Fixture.sign_then_verify Fixture.fields "other.example.com"
       (Fixture.initial 11) = (Ok r, w')
     /\ r_valid r = Some false
     /\ r_code r = Some DOMAIN_MISMATCH
     /\ trace w' = []
     /\ r_verified r = Some onchain)
  /\ (forall f code error, r_verified (fail f code error) = Some onchain).
Proof.
  split; [|reflexivity].
  do 2 eexists. split; [vm_compute; reflexivity|].
  repeat split; reflexivity.
Qed.

(** ** Stage order: domain binding and nonce validation *)

(** C4, as amended: when the parsed domain differs from [expected_domain],
    the pipeline returns without invoking any collaborator (the external
    state and the trace are unchanged, so the nonce validator has not run
    and no nonce was consumed) and the code is never [INVALID_NONCE]; the
    code is [DOMAIN_MISMATCH] when the signature recovers the address of the
    message, the signature being checked before the domain. *)
Theorem domain_checked_before_nonce {W : Type} (lib : Library W)
    (message signature expected_domain : string)
    (nonce_validator : string -> W -> outcome bool * W)
    (w3 : Web3 W) (registry_address : option string) (w : world W)
    (f : SIWAMessageFields) (d : string) :
  parse_siwa_message message = Ok f ->
  domain f = Some d ->
  d <> expected_domain ->
  exists r,
    verify_siwa lib message signature expected_domain nonce_validator w3
      registry_address w = (Ok r, w)
    /\ r_valid r = Some false
    /\ r_code r <> Some INVALID_NONCE
    /\ (forall recovered a,
          recover_message lib message signature = Ok recovered ->
          address f = Some a ->
          PyStr.lower recovered = PyStr.lower a ->
          r_code r = Some DOMAIN_MISMATCH).
Proof.
  intros Hp Hd Hne.
  destruct (parse_ok_inv _ _ Hp) as (d' & a & _ & _ & _ & _ & _ & Ha & _).
  rewrite verify_siwa_unfold.
  destruct (recover_message lib message signature) as [recovered|e] eqn:Hrec.
  - destruct (decide (PyStr.lower recovered = PyStr.lower a)) as [Hlow|Hlow].
    + destruct (verify_body_domain_mismatch lib message signature
                  expected_domain nonce_validator w3 registry_address w
                  f a d recovered Hp Ha Hd Hrec Hlow Hne) as [error ->].
      eexists. split; [reflexivity|]. split; [reflexivity|].
      split; [discriminate|reflexivity].
    + destruct (verify_body_bad_signature lib message signature
                  expected_domain nonce_validator w3 registry_address w
                  f a Hp Ha) as [error ->].
      { by rewrite Hrec. }
      eexists. split; [reflexivity|]. split; [reflexivity|].
      split; [discriminate|].
      intros recovered' a' [= <-] Ha'. rewrite Ha in Ha'.
      injection Ha' as <-. done.
  - destruct (verify_body_bad_signature lib message signature
                expected_domain nonce_validator w3 registry_address w
                f a Hp Ha) as [error ->].
    { by rewrite Hrec. }
    eexists. split; [reflexivity|]. split; [reflexivity|].
    split; [discriminate|]. intros ?? [=].
Qed.

Lemma domain_checked_before_nonce_witness :
  exists r,
    verify_siwa Fixture.library (Fixture.message_of Fixture.fields)
      (Fixture.signer_address +:+ "|" +:+ Fixture.message_of Fixture.fields)
      "other.example.com" Fixture.consume_nonce Fixture.w3 None
      (Fixture.initial 11) = (Ok r, Fixture.initial 11)
    /\ r_code r = Some DOMAIN_MISMATCH.
Proof.
  destruct (domain_checked_before_nonce Fixture.library
              (Fixture.message_of Fixture.fields)
              (Fixture.signer_address +:+ "|" +:+ Fixture.message_of Fixture.fields)
              "other.example.com" Fixture.consume_nonce Fixture.w3 None
              (Fixture.initial 11)
              (with_address Fixture.fields Fixture.signer_address)
              "test.example.com")
    as (r & Hr & _ & _ & Hcode).
  - vm_compute; reflexivity.
  - reflexivity.
  - discriminate.
  - exists r. split; [exact Hr|].
    apply (Hcode Fixture.signer_address Fixture.signer_address);
      vm_compute; reflexivity.
Defined.

(** C4 as stated fails: a message for another domain whose signature does
    not recover is rejected with [INVALID_SIGNATURE], not [DOMAIN_MISMATCH]. *)
Lemma domain_mismatch_bad_signature_counterexample :
  exists f r w',
    parse_siwa_message (Fixture.message_of Fixture.fields) = Ok f
    /\ domain f = Some "test.example.com"
    /\ "test.example.com" <> "other.example.com"
    /\ verify_siwa Fixture.library (Fixture.message_of Fixture.fields)
         "not-a-signature" "other.example.com" Fixture.consume_nonce
         Fixture.w3 None (Fixture.initial 11) = (Ok r, w')
    /\ r_code r = Some INVALID_SIGNATURE
    /\ r_code r <> Some DOMAIN_MISMATCH.
Proof.
  do 3 eexists.
  split; [vm_compute; reflexivity|].
  split; [reflexivity|].
  split; [discriminate|].
  split; [vm_compute; reflexivity|].
  split; [reflexivity|discriminate].
Qed.

(** ** Signing flow *)

Section SigningFacts.
Context {W : Type} (signer : Signer W).

Lemma sign_siwa_message_mismatch fields (w : world W) a s1 x :
  get_address signer (ext w) = (Ok a, s1) ->
  truthy (address fields) = Some x ->
  PyStr.lower a <> PyStr.lower x ->
  sign_siwa_message fields signer w
  = (Raise (address_mismatch a x),
     {| ext := s1; trace := trace w ++ [EvGetAddress] |}).
Proof.
  intros Hget Hx Hne. unfold sign_siwa_message, bind, call.
  rewrite Hget, Hx. apply String.eqb_neq in Hne. rewrite Hne. reflexivity.
Qed.

Lemma sign_siwa_message_signs fields (w : world W) a s1 m sig s2 :
  get_address signer (ext w) = (Ok a, s1) ->
  match truthy (address fields) with
  | Some x => PyStr.lower a = PyStr.lower x
  | None => True
  end ->
  build_siwa_message (with_address fields a) = Ok m ->
  sign_message signer m s1 = (Ok sig, s2) ->
  sign_siwa_message fields signer w
  = (Ok {| sm_message := m; sm_signature := sig; sm_address := a |},
     {| ext := s2;
        trace := (trace w ++ [EvGetAddress]) ++ [EvSignMessage m] |}).
Proof.
  intros Hget Hx Hbuild Hsign. unfold sign_siwa_message, bind, call, lift.
  rewrite Hget.
  assert (match truthy (address fields) with
          | Some a0 =>
              if negb (String.eqb (PyStr.lower a) (PyStr.lower a0))
              then Some a0 else None
          | None => None
          end = None) as ->.
  { destruct (truthy (address fields)); [|done].
    by rewrite Hx, String.eqb_refl. }
  rewrite Hbuild. cbn. rewrite Hsign. reflexivity.
Qed.

End SigningFacts.

(** C6, as amended: the signer is the authority on the address. When
    [fields.address] is set, is not empty and differs from the signer's
    address up to case, [sign_siwa_message] raises the address-mismatch error
    after the one call to [get_address]: [sign_message] is not invoked, no
    signature exists. When [fields.address] is missing, empty, or equal up to
    case, and the fields build into a message and the signer signs it, the
    call returns that message, its signature and the signer's address. *)
Theorem sign_siwa_message_signer_authority {W : Type} (signer : Signer W)
    (fields : SIWAMessageFields) (w : world W) (a : string) (s1 : W) :
  get_address signer (ext w) = (Ok a, s1) ->
  (forall x,
     address fields = Some x -> x <> "" ->
     PyStr.lower a <> PyStr.lower x ->
     sign_siwa_message fields signer w
     = (Raise (address_mismatch a x),
        {| ext := s1; trace := trace w ++ [EvGetAddress] |}))
  /\ (forall m sig s2,
        address fields = None \/ address fields = Some ""
        \/ (exists x, address fields = Some x
                      /\ PyStr.lower a = PyStr.lower x) ->
        build_siwa_message (with_address fields a) = Ok m ->
        sign_message signer m s1 = (Ok sig, s2) ->
        sign_siwa_message fields signer w
        = (Ok {| sm_message := m; sm_signature := sig; sm_address := a |},
           {| ext := s2;
              trace := (trace w ++ [EvGetAddress]) ++ [EvSignMessage m] |})).
Proof.
  intros Hget. split.
  - intros x Hx Hne Hlow.
    apply sign_siwa_message_mismatch; [done| |done].
    rewrite Hx. by destruct x.
  - intros m sig s2 Hcase Hbuild Hsign.
    apply sign_siwa_message_signs with (s1 := s1); [done| |done|done].
    destruct Hcase as [-> | [-> | (x & -> & Hlow)]]; [done|done|].
    by destruct x.
Qed.

Lemma sign_siwa_message_signer_authority_witness :
  sign_siwa_message
    (with_address Fixture.fields "0x0000000000000000000000000000000000000001")
    Fixture.signer (Fixture.initial 11)
  = (Raise (address_mismatch Fixture.signer_address
              "0x0000000000000000000000000000000000000001"),
     {| ext := ext (Fixture.initial 11); trace := [EvGetAddress] |})
  /\ sign_siwa_message
       (with_address Fixture.fields (PyStr.lower Fixture.signer_address))
       Fixture.signer (Fixture.initial 11)
     = (Ok {| sm_message := Fixture.message_of Fixture.fields;
              sm_signature :=
                Fixture.signer_address +:+ "|"
                +:+ Fixture.message_of Fixture.fields;
              sm_address := Fixture.signer_address |},
        {| ext := ext (Fixture.initial 11);
           trace := [EvGetAddress;
                     EvSignMessage (Fixture.message_of Fixture.fields)] |}).
Proof.
  split.
  - apply (sign_siwa_message_signer_authority Fixture.signer
             (with_address Fixture.fields
                "0x0000000000000000000000000000000000000001")
             (Fixture.initial 11) Fixture.signer_address
             (ext (Fixture.initial 11)) eq_refl).
    + reflexivity.
    + discriminate.
    + vm_compute. discriminate.
  - apply (sign_siwa_message_signer_authority Fixture.signer
             (with_address Fixture.fields (PyStr.lower Fixture.signer_address))
             (Fixture.initial 11) Fixture.signer_address
             (ext (Fixture.initial 11)) eq_refl).
    + right; right. eexists. split; [reflexivity|]. vm_compute. reflexivity.
    + vm_compute. reflexivity.
    + reflexivity.
Defined.

(** C6 as stated fails: an address that is present, empty, and so different
    from the signer's address up to case, raises no error. *)
Lemma sign_empty_address_counterexample :
  let fields := with_address Fixture.fields "" in
  address fields = Some ""
  /\ PyStr.lower Fixture.signer_address <> PyStr.lower ""
  /\ exists sm w',
       sign_siwa_message fields Fixture.signer (Fixture.initial 11)
       = (Ok sm, w').
Proof.
  split; [reflexivity|]. split; [vm_compute; discriminate|].
  do 2 eexists. vm_compute. reflexivity.
Qed.

(** C10: with [fields.address] set to the empty string the mismatch check is
    skipped, whatever the signer's address is: when the fields build into a
    message and the signer signs it, signing succeeds and the address
    returned is the signer's. *)
Theorem sign_siwa_message_empty_address {W : Type} (signer : Signer W)
    (fields : SIWAMessageFields) (w : world W) (a : string) (s1 s2 : W)
    (m sig : string) :
  address fields = Some "" ->
  get_address signer (ext w) = (Ok a, s1) ->
  build_siwa_message (with_address fields a) = Ok m ->
  sign_message signer m s1 = (Ok sig, s2) ->
  exists sm w',
    sign_siwa_message fields signer w = (Ok sm, w')
    /\ sm_address sm = a
    /\ sm_message sm = m
    /\ sm_signature sm = sig
    /\ trace w' = (trace w ++ [EvGetAddress]) ++ [EvSignMessage m].
Proof.
  intros Ha Hget Hbuild Hsign.
  do 2 eexists. split.
  - apply (sign_siwa_message_signs signer fields w a s1 m sig s2);
      [done| |done|done].
    by rewrite Ha.
  - repeat split; reflexivity.
Qed.

Lemma sign_siwa_message_empty_address_witness :
  PyStr.lower Fixture.signer_address <> PyStr.lower ""
  /\ exists sm w',
       sign_siwa_message (with_address Fixture.fields "") Fixture.signer
         (Fixture.initial 11) = (Ok sm, w')
       /\ sm_address sm = Fixture.signer_address.
Proof.
  split; [vm_compute; discriminate|].
  destruct (sign_siwa_message_empty_address Fixture.signer
              (with_address Fixture.fields "") (Fixture.initial 11)
              Fixture.signer_address (ext (Fixture.initial 11))
              (ext (Fixture.initial 11))
              (Fixture.message_of Fixture.fields)
              (Fixture.signer_address +:+ "|"
               +:+ Fixture.message_of Fixture.fields))
    as (sm & w' & Hs & Haddr & _).
  - reflexivity.
  - reflexivity.
  - vm_compute. reflexivity.
  - reflexivity.
  - exists sm, w'. split; [exact Hs|exact Haddr].
Defined.

(** ** Time window and on-chain stages *)

Lemma reading_replace_tzinfo_None d :
  reading (replace_tzinfo_None d) = reading d.
Proof. reflexivity. Qed.

Lemma lex_compare_refl a : lex_compare a a = Eq.
Proof. induction a as [|x a IH]; cbn; [done|]. by rewrite Z.compare_refl. Qed.

(** equal readings pass both checks of the window *)
Lemma dt_gt_irrefl d : dt_gt d d = false.
Proof. unfold dt_gt. by rewrite lex_compare_refl. Qed.

Lemma dt_lt_irrefl d : dt_lt d d = false.
Proof. unfold dt_lt. by rewrite lex_compare_refl. Qed.

Ltac crunch_stage :=
  repeat (case_match; simplify_eq/=); try done.

Section WindowFacts.
Context {W : Type} (lib : Library W).
Implicit Types (w : world W) (f : SIWAMessageFields).

(** the on-chain stages never answer with a code of the time window *)
Lemma verify_onchain_codes f recovered (w3 : Web3 W) ra w :
  match verify_onchain lib f recovered w3 ra w with
  | (Ok r, _) =>
      r_code r <> Some MESSAGE_EXPIRED
      /\ r_code r <> Some MESSAGE_NOT_YET_VALID
  | (Raise _, _) => True
  end.
Proof.
  unfold verify_onchain, bind, lift, try_except, call, ret.
  crunch_stage.
Qed.

End WindowFacts.

Section WindowStage.
Context {W : Type} (lib : Library W).
Implicit Types (w : world W) (f : SIWAMessageFields).

Lemma verify_not_before_codes now f recovered (w3 : Web3 W) ra w :
  match verify_not_before lib now f recovered w3 ra w with
  | (Ok r, _) => r_code r <> Some MESSAGE_EXPIRED
  | (Raise _, _) => True
  end.
Proof.
  pose proof (verify_onchain_codes lib f recovered w3 ra w) as Hon.
  unfold verify_not_before, bind, lift, ret.
  crunch_stage;
    match goal with
    | H1 : ?x = _, H2 : ?x = _ |- _ => rewrite H1 in H2; simplify_eq
    end; tauto.
Qed.

Lemma verify_not_before_rejects now f recovered (w3 : Web3 W) ra w s d :
  truthy (not_before f) = Some s ->
  fromisoformat lib (PyStr.replace "Z" "+00:00" s) = Ok d ->
  dt_lt now d = true ->
  verify_not_before lib now f recovered w3 ra w
  = (Ok (fail f MESSAGE_NOT_YET_VALID "Message not yet valid (not_before)"),
     w).
Proof.
  intros Hs Hd Hlt. unfold verify_not_before, bind, lift, parse_time, ret.
  rewrite Hs, Hd. cbn.
  change (dt_lt now (replace_tzinfo_None d)) with (dt_lt now d).
  by rewrite Hlt.
Qed.

Lemma verify_not_before_continues now f recovered (w3 : Web3 W) ra w :
  not_before_passes lib now f ->
  verify_not_before lib now f recovered w3 ra w
  = verify_onchain lib f recovered w3 ra w.
Proof.
  unfold not_before_passes, verify_not_before, bind, lift, parse_time.
  destruct (truthy (not_before f)) as [s|]; [|done].
  intros (d & -> & Hlt). cbn.
  change (dt_lt now (replace_tzinfo_None d)) with (dt_lt now d).
  by rewrite Hlt.
Qed.

Lemma verify_time_window_rejects f recovered (w3 : Web3 W) ra w s d :
  truthy (expiration_time f) = Some s ->
  fromisoformat lib (PyStr.replace "Z" "+00:00" s) = Ok d ->
  dt_gt (utcnow lib (ext w)) d = true ->
  verify_time_window lib f recovered w3 ra w
  = (Ok (fail f MESSAGE_EXPIRED "Message expired"), w).
Proof.
  intros Hs Hd Hgt.
  unfold verify_time_window, bind, read, lift, parse_time, ret.
  rewrite Hs, Hd. cbn.
  change (dt_gt (utcnow lib (ext w)) (replace_tzinfo_None d))
    with (dt_gt (utcnow lib (ext w)) d).
  by rewrite Hgt.
Qed.

Lemma verify_time_window_continues f recovered (w3 : Web3 W) ra w :
  expiry_passes lib (utcnow lib (ext w)) f ->
  verify_time_window lib f recovered w3 ra w
  = verify_not_before lib (utcnow lib (ext w)) f recovered w3 ra w.
Proof.
  unfold expiry_passes, verify_time_window, bind, read, lift, parse_time.
  destruct (truthy (expiration_time f)) as [s|]; [|done].
  intros (d & -> & Hgt). cbn.
  change (dt_gt (utcnow lib (ext w)) (replace_tzinfo_None d))
    with (dt_gt (utcnow lib (ext w)) d).
  by rewrite Hgt.
Qed.

Lemma verify_siwa_reaches_time_window message signature expected
    (nv : string -> W -> outcome bool * W) (w3 : Web3 W) ra w f recovered s1 :
  reaches_time_window lib message signature expected nv w f recovered s1 ->
  exists n,
    nonce f = Some n
    /\ verify_body lib message signature expected nv w3 ra w
       = verify_time_window lib f recovered w3 ra
           {| ext := s1; trace := trace w ++ [EvNonceValidator n] |}.
Proof.
  intros (Hp & Hrec & (a & Ha & Hlow) & Hd & (n & Hn & Hnv)).
  exists n. split; [done|].
  by apply verify_body_reaches_time_window with (a := a).
Qed.

End WindowStage.

(** C7, as amended: for a message that reaches the time window, with a
    timestamp that parses and carries the offset zero (the [Z] suffix):
    when [expiration_time] is set, the result has code [MESSAGE_EXPIRED]
    exactly when the clock reads strictly later than it, an equal reading
    passing; when the expiration check passes and [not_before] is set, the
    result has code [MESSAGE_NOT_YET_VALID] exactly when the clock reads
    strictly earlier than it. *)
Theorem time_window_stage {W : Type} (lib : Library W)
    (message signature expected_domain : string)
    (nonce_validator : string -> W -> outcome bool * W)
    (w3 : Web3 W) (registry_address : option string) (w : world W)
    (f : SIWAMessageFields) (recovered : string) (s1 : W) :
  reaches_time_window lib message signature expected_domain nonce_validator w
    f recovered s1 ->
  exists r w',
    verify_siwa lib message signature expected_domain nonce_validator w3
      registry_address w = (Ok r, w')
    /\ (forall s d,
          truthy (expiration_time f) = Some s ->
          fromisoformat lib (PyStr.replace "Z" "+00:00" s) = Ok d ->
          tzinfo d = Some 0 ->
          (r_code r = Some MESSAGE_EXPIRED <-> dt_gt (utcnow lib s1) d = true))
    /\ (forall s d,
          expiry_passes lib (utcnow lib s1) f ->
          truthy (not_before f) = Some s ->
          fromisoformat lib (PyStr.replace "Z" "+00:00" s) = Ok d ->
          tzinfo d = Some 0 ->
          (r_code r = Some MESSAGE_NOT_YET_VALID
           <-> dt_lt (utcnow lib s1) d = true)).
Proof.
  intros Hreach.
  destruct (verify_siwa_reaches_time_window lib message signature
              expected_domain nonce_validator w3 registry_address w f
              recovered s1 Hreach) as (n & Hn & Hbody).
  rewrite verify_siwa_unfold, Hbody.
  set (w1 := {| ext := s1; trace := trace w ++ [EvNonceValidator n] |}).
  change (utcnow lib s1) with (utcnow lib (ext w1)).
  pose proof (verify_not_before_codes lib (utcnow lib (ext w1)) f recovered
                w3 registry_address w1) as Hnb.
  pose proof (verify_onchain_codes lib f recovered w3 registry_address w1)
    as Hon.
  assert (forall s d,
            truthy (expiration_time f) = Some s ->
            fromisoformat lib (PyStr.replace "Z" "+00:00" s) = Ok d ->
            dt_gt (utcnow lib (ext w1)) d = false ->
            expiry_passes lib (utcnow lib (ext w1)) f) as Hpass.
  { intros s d Hs Hd Hgt. unfold expiry_passes. rewrite Hs. eauto. }
  assert (forall s d,
            truthy (not_before f) = Some s ->
            fromisoformat lib (PyStr.replace "Z" "+00:00" s) = Ok d ->
            dt_lt (utcnow lib (ext w1)) d = false ->
            not_before_passes lib (utcnow lib (ext w1)) f) as Hpass'.
  { intros s d Hs Hd Hlt. unfold not_before_passes. rewrite Hs. eauto. }
  destruct (verify_time_window lib f recovered w3 registry_address w1)
    as [[r|e] w'] eqn:E.
  - exists r, w'. split; [done|]. split.
    + intros s d Hs Hd _. split.
      * intros Hcode.
        destruct (dt_gt (utcnow lib (ext w1)) d) eqn:Hgt; [done|]. exfalso.
        rewrite verify_time_window_continues in E by eauto.
        rewrite E in Hnb. done.
      * intros Hgt.
        rewrite (verify_time_window_rejects lib f recovered w3
                   registry_address w1 s d Hs Hd Hgt) in E.
        by injection E as <- <-.
    + intros s d Hexp Hs Hd _.
      rewrite verify_time_window_continues in E by done. split.
      * intros Hcode.
        destruct (dt_lt (utcnow lib (ext w1)) d) eqn:Hlt; [done|]. exfalso.
        rewrite verify_not_before_continues in E by eauto.
        rewrite E in Hon. tauto.
      * intros Hlt.
        rewrite (verify_not_before_rejects lib (utcnow lib (ext w1)) f
                   recovered w3 registry_address w1 s d Hs Hd Hlt) in E.
        by injection E as <- <-.
  - exists (verification_failed e), w'. split; [done|]. split.
    + intros s d Hs Hd _. split; [discriminate|].
      intros Hgt.
      rewrite (verify_time_window_rejects lib f recovered w3
                 registry_address w1 s d Hs Hd Hgt) in E.
      discriminate.
    + intros s d Hexp Hs Hd _. split; [discriminate|].
      intros Hlt.
      rewrite verify_time_window_continues in E by done.
      rewrite (verify_not_before_rejects lib (utcnow lib (ext w1)) f
                 recovered w3 registry_address w1 s d Hs Hd Hlt) in E.
      discriminate.
Qed.

(** the fixture signer's message for [f] passes stages 1 to 5 *)
Ltac fixture_reaches :=
  unfold reaches_time_window;
  split; [vm_compute; reflexivity|];
  split; [vm_compute; reflexivity|];
  split; [eexists; split; [reflexivity|vm_compute; reflexivity]|];
  split; [reflexivity|];
  eexists; split; [reflexivity|vm_compute; reflexivity].

Lemma time_window_stage_witness :
  let f := Fixture.with_window Fixture.fields (Some "2024-01-01T10:00:00Z")
             None in
  exists r w',
    verify_siwa Fixture.library (Fixture.message_of f) (Fixture.signature_of f)
      "test.example.com" Fixture.consume_nonce Fixture.w3 None
      (Fixture.initial 11) = (Ok r, w')
    /\ r_code r = Some MESSAGE_EXPIRED.
Proof.
  intros f.
  destruct (time_window_stage Fixture.library (Fixture.message_of f)
              (Fixture.signature_of f) "test.example.com"
              Fixture.consume_nonce Fixture.w3 None (Fixture.initial 11)
              f Fixture.signer_address (Fixture.consumed (Fixture.initial 11)))
    as (r & w' & Hr & Hexp & _).
  - fixture_reaches.
  - exists r, w'. split; [exact Hr|].
    apply (Hexp "2024-01-01T10:00:00Z"
             {| year := 2024; month := 1; day := 1; hour := 10; minute := 0;
                second := 0; microsecond := 0; tzinfo := Some 0 |}).
    + reflexivity.
    + vm_compute; reflexivity.
    + reflexivity.
    + vm_compute; reflexivity.
Defined.

(** C7 as stated fails: a message that reaches the time window at 11:00 with
    [expiration_time] 10:00 and [not_before] 12:00 is earlier than its
    [not_before], and its code is [MESSAGE_EXPIRED], the expiration being
    checked first. *)
Lemma not_before_after_expiry_counterexample :
  let f := Fixture.with_window Fixture.fields (Some "2024-01-01T10:00:00Z")
             (Some "2024-01-01T12:00:00Z") in
  reaches_time_window Fixture.library (Fixture.message_of f)
    (Fixture.signature_of f) "test.example.com" Fixture.consume_nonce
    (Fixture.initial 11) f Fixture.signer_address
    (Fixture.consumed (Fixture.initial 11))
  /\ truthy (not_before f) = Some "2024-01-01T12:00:00Z"
  /\ (exists d,
        fromisoformat Fixture.library
          (PyStr.replace "Z" "+00:00" "2024-01-01T12:00:00Z") = Ok d
        /\ tzinfo d = Some 0
        /\ dt_lt (utcnow Fixture.library
                    (Fixture.consumed (Fixture.initial 11))) d = true)
  /\ exists r w',
       verify_siwa Fixture.library (Fixture.message_of f)
         (Fixture.signature_of f) "test.example.com" Fixture.consume_nonce
         Fixture.w3 None (Fixture.initial 11) = (Ok r, w')
       /\ r_code r = Some MESSAGE_EXPIRED
       /\ r_code r <> Some MESSAGE_NOT_YET_VALID.
Proof.
  intros f. split; [fixture_reaches|].
  split; [reflexivity|].
  split.
  { eexists. split; [vm_compute; reflexivity|].
    split; [reflexivity|vm_compute; reflexivity]. }
  do 2 eexists. split; [vm_compute; reflexivity|].
  split; [reflexivity|discriminate].
Qed.

(** The offset of a timestamp is dropped, not applied: 12:00 at +02:00 is
    10:00 UTC, and a message expiring then is still accepted when the clock
    reads 11:00 UTC. *)
Example expiration_offset_is_dropped :
  let f := Fixture.with_window Fixture.fields
             (Some "2024-01-01T12:00:00+02:00") None in
  exists r w',
    verify_siwa Fixture.library (Fixture.message_of f) (Fixture.signature_of f)
      "test.example.com" Fixture.consume_nonce Fixture.w3 None
      (Fixture.initial 11) = (Ok r, w')
    /\ r_valid r = Some true.
Proof.
  intros f. do 2 eexists. split; [vm_compute; reflexivity|reflexivity].
Qed.

(** ** Signer-type classification *)

Section OnchainStage.
Context {W : Type} (lib : Library W).
Implicit Types (w : world W) (f : SIWAMessageFields).

(** stages 7 and 8 pass: what remains is the classification of the signer *)
Lemma verify_onchain_reaches_classification f recovered (w3 : Web3 W) ra w
    s2 contract token addr a cid :
  ownership_passes lib w3 ra f recovered (ext w) s2 contract token ->
  address f = Some addr ->
  chain_id f = Some cid ->
  to_checksum_address lib addr = Ok a ->
  exists reg,
    agent_registry f = Some reg
    /\ verify_onchain lib f recovered w3 ra w
       = match get_code w3 a s2 with
         | (Ok code, s3) =>
             (Ok {| r_valid := Some true;
                    r_address := Some recovered;
                    r_agent_id := Some token;
                    r_agent_registry := Some reg;
                    r_chain_id := Some cid;
                    r_verified := Some onchain;
                    r_signer_type :=
                      Some match code with [] => eoa | _ :: _ => sca end;
                    r_code := None;
                    r_error := None |},
              {| ext := s3;
                 trace := (trace w ++ [EvOwnerOf contract token])
                          ++ [EvGetCode a] |})
         | (Raise e, s3) =>
             (Raise e,
              {| ext := s3;
                 trace := (trace w ++ [EvOwnerOf contract token])
                          ++ [EvGetCode a] |})
         end.
Proof.
  intros (reg & p1 & p2 & owner & Hreg & Hsplit & Hck & Htok & Hown & Hlow)
    Haddr Hcid Ha.
  exists reg. split; [done|].
  unfold verify_onchain, bind, lift, try_except, call, ret.
  rewrite Hreg. cbn. rewrite Hsplit. cbn.
  rewrite Hck, Htok. cbn. rewrite Hown. cbn.
  rewrite Hlow, String.eqb_refl. cbn.
  rewrite Haddr. cbn. rewrite Ha. cbn.
  destruct (get_code w3 a s2) as [[code|e] s3]; [|done].
  rewrite Hcid. reflexivity.
Qed.

End OnchainStage.

(** C9, as amended: for a verification that passes every stage up to and
    including on-chain ownership, an error of the contract-code lookup is
    caught at the boundary of the pipeline and fails the verification with
    [VERIFICATION_FAILED]; when the lookup answers, the result has
    [valid = true] and the signer type is ["sca"] for a non-empty code and
    ["eoa"] for an empty one. *)
Theorem signer_type_lookup {W : Type} (lib : Library W)
    (message signature expected_domain : string)
    (nonce_validator : string -> W -> outcome bool * W)
    (w3 : Web3 W) (registry_address : option string) (w : world W)
    (f : SIWAMessageFields) (recovered : string) (s1 s2 : W)
    (contract : string) (token : Z) (addr a : string) :
  reaches_time_window lib message signature expected_domain nonce_validator w
    f recovered s1 ->
  expiry_passes lib (utcnow lib s1) f ->
  not_before_passes lib (utcnow lib s1) f ->
  ownership_passes lib w3 registry_address f recovered s1 s2 contract token ->
  address f = Some addr ->
  to_checksum_address lib addr = Ok a ->
  (forall e s3,
     get_code w3 a s2 = (Raise e, s3) ->
     exists r w',
       verify_siwa lib message signature expected_domain nonce_validator w3
         registry_address w = (Ok r, w')
       /\ r = verification_failed e
       /\ r_valid r = Some false
       /\ r_code r = Some VERIFICATION_FAILED)
  /\ (forall code s3,
        get_code w3 a s2 = (Ok code, s3) ->
        exists r w',
          verify_siwa lib message signature expected_domain nonce_validator w3
            registry_address w = (Ok r, w')
          /\ r_valid r = Some true
          /\ r_verified r = Some onchain
          /\ r_signer_type r
             = Some match code with [] => eoa | _ :: _ => sca end).
Proof.
  intros Hreach Hexp Hnbf Hown Haddr Ha.
  destruct Hreach as (Hp & Hreach).
  destruct (parse_ok_inv _ _ Hp) as (_ & _ & _ & _ & _ & cid & _ & _ & _ & _ & _ & Hcid).
  destruct (verify_siwa_reaches_time_window lib message signature
              expected_domain nonce_validator w3 registry_address w f
              recovered s1 (conj Hp Hreach)) as (n & Hn & Hbody).
  rewrite verify_siwa_unfold, Hbody.
  set (w1 := {| ext := s1; trace := trace w ++ [EvNonceValidator n] |}).
  rewrite verify_time_window_continues by done.
  rewrite verify_not_before_continues by done.
  destruct (verify_onchain_reaches_classification lib f recovered w3
              registry_address w1 s2 contract token addr a cid
              Hown Haddr Hcid Ha) as (reg & _ & ->).
  split.
  - intros e s3 ->. do 2 eexists. by split.
  - intros code s3 ->. do 2 eexists. by split.
Qed.

(** the fixture signer's message for [f] passes stages 7 and 8 *)
Ltac fixture_owned :=
  unfold ownership_passes; do 4 eexists;
  split; [reflexivity|];
  split; [vm_compute; reflexivity|];
  split; [vm_compute; reflexivity|];
  split; [reflexivity|];
  split; [vm_compute; reflexivity|vm_compute; reflexivity].

Lemma signer_type_lookup_witness :
  exists r w',
    verify_siwa Fixture.library (Fixture.message_of Fixture.fields)
      (Fixture.signature_of Fixture.fields) "test.example.com"
      Fixture.consume_nonce Fixture.w3 None (Fixture.initial 11) = (Ok r, w')
    /\ r_valid r = Some true
    /\ r_signer_type r = Some eoa.
Proof.
  destruct (signer_type_lookup Fixture.library
              (Fixture.message_of Fixture.fields)
              (Fixture.signature_of Fixture.fields) "test.example.com"
              Fixture.consume_nonce Fixture.w3 None (Fixture.initial 11)
              Fixture.fields Fixture.signer_address
              (Fixture.consumed (Fixture.initial 11))
              (Fixture.consumed (Fixture.initial 11))
              "0x8004AA63B05E4C14eC1Fe6B35AD3bAe8A7Bc9b66" 999
              Fixture.signer_address Fixture.signer_address)
    as [_ Hok].
  - fixture_reaches.
  - exact I.
  - exact I.
  - fixture_owned.
  - reflexivity.
  - reflexivity.
  - destruct (Hok [] (Fixture.consumed (Fixture.initial 11)) eq_refl)
      as (r & w' & Hr & Hvalid & _ & Htype).
    exists r, w'. split; [exact Hr|]. split; [exact Hvalid|exact Htype].
Defined.

(** C9 as stated fails: the message passes every stage up to on-chain
    ownership, the code lookup raises, and the verification fails. *)
Lemma code_lookup_error_counterexample :
  let w := Fixture.world_at 11 {[999 := Fixture.signer_address]}
             (Raise (Exception "ConnectionError" "RPC endpoint unreachable")) in
  let f := Fixture.fields in
  reaches_time_window Fixture.library (Fixture.message_of f)
    (Fixture.signature_of f) "test.example.com" Fixture.consume_nonce w
    f Fixture.signer_address (Fixture.consumed w)
  /\ expiry_passes Fixture.library (utcnow Fixture.library (Fixture.consumed w)) f
  /\ not_before_passes Fixture.library
       (utcnow Fixture.library (Fixture.consumed w)) f
  /\ ownership_passes Fixture.library Fixture.w3 None f Fixture.signer_address
       (Fixture.consumed w) (Fixture.consumed w)
       "0x8004AA63B05E4C14eC1Fe6B35AD3bAe8A7Bc9b66" 999
  /\ exists r w',
       verify_siwa Fixture.library (Fixture.message_of f)
         (Fixture.signature_of f) "test.example.com" Fixture.consume_nonce
         Fixture.w3 None w = (Ok r, w')
       /\ r_valid r = Some false
       /\ r_code r = Some VERIFICATION_FAILED.
Proof.
  intros w f. split; [fixture_reaches|].
  split; [exact I|]. split; [exact I|].
  split; [fixture_owned|].
  do 2 eexists. split; [vm_compute; reflexivity|].
  split; reflexivity.
Qed.

(** ** Response shaper *)

(** the answer for an unregistered agent, whenever the chain id is derived *)
Lemma build_siwa_response_not_registered result c :
  default false (r_valid result) = false ->
  r_code result = Some NOT_REGISTERED ->
  let parts := PyStr.split ":" (default "" (r_agent_registry result)) in
  response_chain_id result parts = Ok c ->
  exists resp action,
    build_siwa_response result = Ok resp
    /\ status resp = not_registered
    /\ p_action resp = Some action
    /\ a_type action = "register"
    /\ a_steps action = register_steps
    /\ length (a_steps action) = 6%nat
    /\ a_registry_address action
       = (if Nat.eqb (length parts) 3 then parts !! 2%nat else None)
    /\ a_chain_id action = c.
Proof.
  intros Hvalid Hcode parts Hchain. unfold build_siwa_response.
  rewrite Hvalid, Hcode. rewrite bool_decide_eq_true_2 by done.
  fold parts. rewrite Hchain. cbn.
  do 2 eexists. repeat split; reflexivity.
Qed.

(** the chain id of the answer: the one of the result unless it is missing
    or zero, then the second part of the registry read as an integer, when
    there are two parts *)
Lemma response_chain_id_cases result parts :
  response_chain_id result parts =
  match r_chain_id result with
  | Some c => if Z.eqb c 0 then
                match parts with
                | _ :: p1 :: _ => let? n := PyStr.int p1 in Ok (Some n)
                | _ => Ok None
                end
              else Ok (Some c)
  | None => match parts with
            | _ :: p1 :: _ => let? n := PyStr.int p1 in Ok (Some n)
            | _ => Ok None
            end
  end.
Proof.
  unfold response_chain_id, truthy_int.
  destruct (r_chain_id result) as [[|c|c]|]; try reflexivity;
    destruct parts as [|p0 [|p1 rest]]; reflexivity.
Qed.

(** C8 (the claim holds, the code does not): a claim with chain id 0 for the
    registry [eip155:base:0x8004...] that is signed and fails the ownership
    lookup gets the code [NOT_REGISTERED]; on that result
    [build_siwa_response] returns no response: reading the second part of
    the registry as an integer raises [ValueError]. *)
Theorem build_siwa_response_raises_on_not_registered :
  let f := Fixture.with_registry Fixture.fields
             "eip155:base:0x8004AA63B05E4C14eC1Fe6B35AD3bAe8A7Bc9b66" 0 in
  exists r w',
    verify_siwa Fixture.library (Fixture.message_of f) (Fixture.signature_of f)
      "test.example.com" Fixture.consume_nonce Fixture.w3 None
      (Fixture.world_at 11 ∅ (Ok [])) = (Ok r, w')
    /\ r_valid r = Some false
    /\ r_code r = Some NOT_REGISTERED
    /\ r_chain_id r = Some 0
    /\ r_agent_registry r
       = Some "eip155:base:0x8004AA63B05E4C14eC1Fe6B35AD3bAe8A7Bc9b66"
    /\ build_siwa_response r
       = Raise (ValueError "invalid literal for int() with base 10: 'base'").
Proof.
  intros f. do 2 eexists. split; [vm_compute; reflexivity|].
  repeat split; reflexivity.
Qed.


(** ** Nonce generation *)

Section NonceFacts.

Lemma triples_ind (P : list Byte.byte -> Prop) :
  P [] -> (forall a, P [a]) -> (forall a b, P [a; b]) ->
  (forall a b c rest, P rest -> P (a :: b :: c :: rest)) ->
  forall bs, P bs.
Proof.
  intros H0 H1 H2 H3.
  fix IH 1. intros [|a [|b [|c rest]]]; [done..|].
  apply H3, IH.
Qed.

Lemma encode_length bs :
  String.length (Base64.encode bs) = ((4 * length bs + 2) / 3)%nat.
Proof.
  induction bs as [|a|a b|a b c rest IH] using triples_ind;
    [reflexivity..|].
  cbn [Base64.encode String.length length]. rewrite IH.
  replace (4 * S (S (S (length rest))) + 2)%nat
    with ((4 * length rest + 2) + 4 * 3)%nat by lia.
  rewrite Nat.div_add by done. lia.
Qed.

Lemma encode_long_enough bs :
  (length bs <= String.length (Base64.encode bs))%nat.
Proof.
  rewrite encode_length.
  apply Nat.div_le_lower_bound; lia.
Qed.

Lemma sextets_complete n : (n < 64)%N -> In n sextets.
Proof.
  intros Hn. unfold sextets. apply in_map_iff.
  exists (N.to_nat n). split; [apply N2Nat.id|].
  apply in_seq. lia.
Qed.

Lemma sextet_url_safe n : (n < 64)%N -> url_safe (Base64.sextet n) = true.
Proof.
  intros Hn%sextets_complete.
  assert (forallb (fun n => url_safe (Base64.sextet n)) sextets = true) as H
    by (vm_compute; reflexivity).
  rewrite forallb_forall in H. by apply H.
Qed.

Lemma lor_sextet x y : (x < 64)%N -> (y < 64)%N -> (N.lor x y < 64)%N.
Proof.
  intros Hx%sextets_complete Hy%sextets_complete.
  assert (forallb (fun x => forallb (fun y => N.ltb (N.lor x y) 64) sextets)
            sextets = true) as H by (vm_compute; reflexivity).
  rewrite forallb_forall in H. specialize (H x Hx).
  rewrite forallb_forall in H. specialize (H y Hy).
  by apply N.ltb_lt in H.
Qed.

Lemma byte_bits (b : Byte.byte) :
  (N.shiftr (Byte.to_N b) 2 < 64
   /\ N.shiftl (N.land (Byte.to_N b) 3) 4 < 64
   /\ N.shiftr (Byte.to_N b) 4 < 64
   /\ N.shiftl (N.land (Byte.to_N b) 15) 2 < 64
   /\ N.shiftr (Byte.to_N b) 6 < 64
   /\ N.land (Byte.to_N b) 63 < 64)%N.
Proof. destruct b; vm_compute; repeat split; reflexivity. Qed.

Lemma encode_url_safe bs : all_chars url_safe (Base64.encode bs) = true.
Proof.
  induction bs as [|a|a b|a b c rest IH] using triples_ind;
    [reflexivity|..]; cbn [Base64.encode all_chars];
    destruct (byte_bits a) as (Ha1 & Ha2 & Ha3 & Ha4 & Ha5 & Ha6);
    try destruct (byte_bits b) as (Hb1 & Hb2 & Hb3 & Hb4 & Hb5 & Hb6);
    try destruct (byte_bits c) as (Hc1 & Hc2 & Hc3 & Hc4 & Hc5 & Hc6);
    rewrite ?IH, ?sextet_url_safe by (done || by apply lor_sextet);
    reflexivity.
Qed.

Lemma substring_prefix_length n s :
  (n <= String.length s)%nat -> String.length (substring 0 n s) = n.
Proof.
  revert s. induction n as [|n IH]; intros [|c s] Hn; cbn in *;
    [done|done|lia|]. rewrite IH; lia.
Qed.

Lemma substring_prefix_all p n s :
  all_chars p s = true -> all_chars p (substring 0 n s) = true.
Proof.
  revert s. induction n as [|n IH]; intros [|c s]; cbn; [done..|].
  intros [-> Hs]%andb_true_iff. by rewrite IH.
Qed.

End NonceFacts.

(** X1: asked for [length >= 0] characters, with a source that hands out the
    bytes it is asked for, [generate_nonce] returns exactly [length]
    characters, each a letter, a digit, [-] or [_]; asked for a negative
    length it raises the [ValueError] of the source and slices nothing. *)
Theorem generate_nonce_length_and_alphabet {W : Type}
    (urandom : Z -> W -> outcome (list Byte.byte) * W) (n : Z) (s : W) :
  urandom_contract urandom ->
  if n <? 0
  then exists s',
      generate_nonce urandom n s
      = (Raise (ValueError "negative argument not allowed"), s')
  else exists nonce s',
      generate_nonce urandom n s = (Ok nonce, s')
      /\ String.length nonce = Z.to_nat n
      /\ all_chars url_safe nonce = true.
Proof.
  intros Hu. specialize (Hu n s).
  unfold generate_nonce, token_urlsafe, slice_to.
  destruct (n <? 0) eqn:Hn.
  - destruct Hu as (s' & ->). eauto.
  - destruct Hu as (bs & s' & -> & Hlen).
    do 2 eexists. split; [reflexivity|]. split.
    + apply substring_prefix_length.
      rewrite <- Hlen. apply encode_long_enough.
    + apply substring_prefix_all, encode_url_safe.
Qed.

Lemma constant_urandom_contract : urandom_contract Fixture.constant_urandom.
Proof.
  intros n s. unfold Fixture.constant_urandom.
  destruct (n <? 0); [eauto|].
  do 2 eexists. split; [reflexivity|]. apply length_replicate.
Qed.

Lemma generate_nonce_length_and_alphabet_witness :
  exists nonce s',
    generate_nonce Fixture.constant_urandom 16
      (ext (Fixture.initial 11)) = (Ok nonce, s')
    /\ String.length nonce = 16%nat
    /\ all_chars url_safe nonce = true.
Proof.
  exact (generate_nonce_length_and_alphabet Fixture.constant_urandom 16
           (ext (Fixture.initial 11)) constant_urandom_contract).
Defined.

(** ** More on the codec *)

Section LayoutFacts.
Import PyStr.

Lemma build_layout f :
  required_set f = true ->
  build_siwa_message f
  = Ok (join nl (layout (default "" (domain f)) (default "" (address f))
                   (statement_block (statement f)) (field_pairs f))).
Proof.
  destruct f as [d a st u v aid reg cid n ia ex nb rq].
  unfold required_set. cbn [domain address uri agent_id agent_registry
                              chain_id nonce issued_at].
  intros Hreq. split_andb.
  destruct d, a, u, aid, reg, cid, n, ia; try discriminate.
  unfold build_siwa_message, build_lines, layout, statement_block,
    field_pairs, optional_line, optional_pair.
  cbn [getitem obind domain address statement uri version agent_id
         agent_registry chain_id nonce issued_at expiration_time not_before
         request_id default from_option id].
  by destruct (truthy st), (truthy ex), (truthy nb), (truthy rq).
Qed.

Lemma well_formed_core_required f :
  well_formed_core f = true -> required_set f = true.
Proof.
  destruct f as [d a st u v aid reg cid n ia ex nb rq].
  unfold well_formed_core, required_set.
  cbn [domain address statement uri version agent_id agent_registry chain_id
         nonce issued_at expiration_time not_before request_id].
  intros Hwf. split_andb.
  by destruct d, a, u, aid, reg, cid, n, ia.
Qed.

Lemma field_pairs_keys f :
  Forall (fun kv => contains ":" kv.1 = false) (field_pairs f).
Proof.
  unfold field_pairs. rewrite !Forall_app.
  repeat split; try apply optional_pair_key; repeat constructor.
Qed.

Lemma field_pairs_lines f :
  well_formed_core f = true ->
  Forall (fun l => no_newline l = true) (map field_line (field_pairs f)).
Proof.
  destruct f as [d a st u v aid reg cid n ia ex nb rq].
  unfold well_formed_core, field_pairs.
  cbn [domain address statement uri version agent_id agent_registry chain_id
         nonce issued_at expiration_time not_before request_id].
  intros Hwf. split_andb.
  destruct u as [u|], reg as [reg|], n as [n|], ia as [ia|];
    try discriminate.
  cbn [required_line default from_option id] in *.
  rewrite !map_app, !Forall_app.
  repeat split; try (by apply optional_pair_one_line).
  repeat constructor; unfold field_line; cbn [fst snd];
    rewrite !no_newline_app, ?no_newline_str_of_int;
    repeat match goal with
           | H : no_newline _ = true |- _ => rewrite H
           end;
    try reflexivity.
  by destruct v.
Qed.

(** the field map of a built message, read at the keys of the parser *)
Lemma field_pairs_lookup f (m : gmap string string) :
  let fm := record_all (field_pairs f) m in
  fm !! "URI" = Some (default "" (uri f))
  /\ fm !! "Version" = Some (default "1" (version f))
  /\ fm !! "Agent ID" = Some (str_of_int (default 0 (agent_id f)))
  /\ fm !! "Agent Registry" = Some (default "" (agent_registry f))
  /\ fm !! "Chain ID" = Some (str_of_int (default 0 (chain_id f)))
  /\ fm !! "Nonce" = Some (default "" (nonce f))
  /\ fm !! "Issued At" = Some (default "" (issued_at f))
  /\ (m !! "Expiration Time" = None ->
      fm !! "Expiration Time" = truthy (expiration_time f))
  /\ (m !! "Not Before" = None ->
      fm !! "Not Before" = truthy (not_before f))
  /\ (m !! "Request ID" = None ->
      fm !! "Request ID" = truthy (request_id f)).
Proof.
  unfold field_pairs, optional_pair, record_all.
  destruct (truthy (expiration_time f)), (truthy (not_before f)),
    (truthy (request_id f));
    cbn [app foldl fst snd]; read_field_map; repeat split; try done.
Qed.

Lemma statement_block_lines st :
  statement_ok st = true ->
  forallb statement_line_ok
    (concat (map (split newline) (statement_block st))) = true.
Proof.
  unfold statement_ok, statement_block.
  destruct (truthy st); cbn [map concat]; [|done].
  by rewrite app_nil_r.
Qed.

Lemma statement_block_normalize st :
  or_none (strip (join nl (concat (map (split newline) (statement_block st)))))
  = match st with
    | Some s => or_none (strip s)
    | None => None
    end.
Proof.
  unfold statement_block.
  destruct st as [[|c s]|]; cbn [truthy map concat];
    [reflexivity| |reflexivity].
  by rewrite app_nil_r, join_split.
Qed.

End LayoutFacts.

Section BuiltMessages.
Import PyStr.

Lemma join_snoc (ls : list string) line :
  ls <> [] -> join nl (ls ++ [line]) = join nl ls +:+ nl +:+ line.
Proof.
  induction ls as [|l ls IH]; [done|]. intros _.
  destruct ls as [|l' ls]; [reflexivity|].
  change (join nl ((l :: l' :: ls) ++ [line]))
    with (l +:+ nl +:+ join nl ((l' :: ls) ++ [line])).
  rewrite IH by done.
  change (join nl (l :: l' :: ls)) with (l +:+ nl +:+ join nl (l' :: ls)).
  generalize (join nl (l' :: ls)). intros rest.
  induction l as [|c l IHl]; [reflexivity|].
  change (String c l +:+ nl +:+ rest +:+ nl +:+ line)
    with (String c (l +:+ nl +:+ rest +:+ nl +:+ line)).
  change ((String c l +:+ nl +:+ rest) +:+ nl +:+ line)
    with (String c ((l +:+ nl +:+ rest) +:+ nl +:+ line)).
  by rewrite IHl.
Qed.

Lemma layout_snoc d a stmt kvs kv :
  layout d a stmt kvs ++ [field_line kv] = layout d a stmt (kvs ++ [kv]).
Proof.
  unfold layout. rewrite map_app. cbn [map].
  by rewrite <- !app_assoc, <- app_comm_cons.
Qed.

Lemma well_formed_core_inv f :
  well_formed_core f = true ->
  exists d a,
    domain f = Some d /\ address f = Some a
    /\ d <> "" /\ no_newline d = true
    /\ startswith a "0x" = true /\ String.length a = 42%nat
    /\ no_newline a = true
    /\ statement_ok (statement f) = true.
Proof.
  destruct f as [d a st u v aid reg cid n ia ex nb rq].
  unfold well_formed_core.
  cbn [domain address statement uri version agent_id agent_registry chain_id
         nonce issued_at expiration_time not_before request_id].
  intros Hwf. split_andb.
  destruct d as [d|], a as [a|]; try discriminate.
  cbn [domain_ok address_ok] in *. split_andb.
  exists d, a. repeat split; try done.
  - match goal with
    | H : negb (String.eqb d "") = true |- _ =>
        by apply negb_true_iff, String.eqb_neq in H
    end.
  - by apply Nat.eqb_eq.
Qed.

(** the parser on a built message followed by further field lines *)
Lemma parse_built_with_extra f extra :
  well_formed_core f = true ->
  Forall (fun kv => contains ":" kv.1 = false) extra ->
  Forall (fun l => no_newline l = true) (map field_line extra) ->
  parse_siwa_message
    (join nl (layout (default "" (domain f)) (default "" (address f))
                (statement_block (statement f)) (field_pairs f ++ extra)))
  = let field_map := record_all extra (record_all (field_pairs f) ∅) in
    let? aid := int (default "0" (field_map !! "Agent ID")) in
    let? cid := int (default "0" (field_map !! "Chain ID")) in
    Ok {| domain := domain f;
          address := address f;
          statement := statement (normalize f);
          uri := Some (default "" (field_map !! "URI"));
          version := Some (default "1" (field_map !! "Version"));
          agent_id := Some aid;
          agent_registry := Some (default "" (field_map !! "Agent Registry"));
          chain_id := Some cid;
          nonce := Some (default "" (field_map !! "Nonce"));
          issued_at := Some (default "" (field_map !! "Issued At"));
          expiration_time := field_map !! "Expiration Time";
          not_before := field_map !! "Not Before";
          request_id := field_map !! "Request ID" |}.
Proof.
  intros Hwf Hkeys Hlines.
  pose proof (field_pairs_keys f) as Hfkeys.
  pose proof (field_pairs_lines f Hwf) as Hflines.
  destruct (well_formed_core_inv f Hwf)
    as (d & a & Hd & Ha & Hne & Hdnl & H0x & Hlen & Hanl & Hst).
  rewrite Hd, Ha. cbn [default from_option id].
  unfold layout.
  rewrite parse_message_lines; try done.
  - rewrite statement_block_normalize.
    unfold record_all at 1. rewrite foldl_app.
    reflexivity.
  - by apply statement_block_lines.
  - by apply Forall_app.
  - rewrite map_app. by apply Forall_app.
Qed.

(** a built message parses back *)
Lemma parse_built f :
  well_formed_core f = true ->
  parse_siwa_message
    (join nl (layout (default "" (domain f)) (default "" (address f))
                (statement_block (statement f)) (field_pairs f)))
  = Ok (normalize_version f).
Proof.
  intros Hwf.
  rewrite <- (app_nil_r (field_pairs f)).
  rewrite parse_built_with_extra by (done || constructor).
  cbn [record_all foldl].
  fold (record_all (field_pairs f) ∅).
  destruct (field_pairs_lookup f ∅)
    as (-> & -> & -> & -> & -> & -> & -> & Hex & Hnb & Hrq).
  rewrite Hex, Hnb, Hrq by apply lookup_empty.
  cbn [default from_option id]. rewrite !int_str_of_int. cbn [obind].
  pose proof (well_formed_core_required f Hwf) as Hreq.
  destruct f as [d a st u v aid reg cid n ia ex nb rq].
  unfold required_set in Hreq.
  cbn [domain address uri agent_id agent_registry chain_id nonce issued_at]
    in Hreq.
  split_andb.
  by destruct d, a, u, aid, reg, cid, n, ia.
Qed.

End BuiltMessages.

Section CodecExtras.
Import PyStr.

Lemma split_lines_no_newline s :
  Forall (fun l => no_newline l = true) (split newline s).
Proof.
  induction s as [|c s IH]; [by repeat constructor|].
  cbn [split]. destruct (Ascii.eqb c newline) eqn:Hc.
  - by constructor.
  - pose proof (split_nonempty newline s) as Hne.
    destruct (split newline s) as [|l ls]; [done|].
    inversion IH as [|?? Hl Hls]; subst.
    constructor; [|done].
    rewrite no_newline_cons, Ascii.eqb_sym, Hc. exact Hl.
Qed.

Lemma domain_match_Some line d :
  no_newline line = true ->
  domain_match line = Some d ->
  line = d +:+ domain_suffix /\ d <> "".
Proof.
  intros Hnl. unfold domain_match.
  destruct (remove_suffix nl line) as [b|] eqn:E.
  { apply remove_suffix_Some in E. subst line.
    rewrite no_newline_app in Hnl. by rewrite andb_false_r in Hnl. }
  destruct (remove_suffix domain_suffix line) as [d'|] eqn:E'; [|done].
  apply remove_suffix_Some in E'.
  destruct d' as [|c d']; [done|].
  destruct (no_newline (String c d')); [|done].
  by intros [= <-].
Qed.

Lemma single_extra_line f m kv :
  required_set f = true ->
  build_siwa_message f = Ok m ->
  m +:+ nl +:+ field_line kv
  = join nl (layout (default "" (domain f)) (default "" (address f))
               (statement_block (statement f)) (field_pairs f ++ [kv])).
Proof.
  intros Hreq Hbuild. rewrite (build_layout f Hreq) in Hbuild.
  injection Hbuild as <-.
  rewrite <- layout_snoc, join_snoc; done.
Qed.

End CodecExtras.

(** X2: [build_siwa_message] returns a message exactly when the eight
    required keys are set (the version need not be: it defaults to 1);
    otherwise it raises [KeyError] for one of the required keys. *)
Theorem build_siwa_message_required_keys (f : SIWAMessageFields) :
  match build_siwa_message f with
  | Ok _ => required_set f = true
  | Raise e =>
      required_set f = false
      /\ exists key, e = KeyError key /\ In key required_keys
  end.
Proof.
  destruct f as [d a st u v aid reg cid n ia ex nb rq].
  unfold build_siwa_message, build_lines, required_set.
  cbn [domain address statement uri version agent_id agent_registry chain_id
         nonce issued_at expiration_time not_before request_id].
  destruct d; [|cbn; split; [done|]; eexists; split;
                  [reflexivity|cbn; tauto]].
  destruct a; [|cbn; split; [done|]; eexists; split;
                  [reflexivity|cbn; tauto]].
  destruct u; [|cbn; split; [done|]; eexists; split;
                  [reflexivity|cbn; tauto]].
  destruct aid; [|cbn; split; [done|]; eexists; split;
                    [reflexivity|cbn; tauto]].
  destruct reg; [|cbn; split; [done|]; eexists; split;
                    [reflexivity|cbn; tauto]].
  destruct cid; [|cbn; split; [done|]; eexists; split;
                    [reflexivity|cbn; tauto]].
  destruct n; [|cbn; split; [done|]; eexists; split;
                  [reflexivity|cbn; tauto]].
  destruct ia; [|cbn; split; [done|]; eexists; split;
                   [reflexivity|cbn; tauto]].
  reflexivity.
Qed.

(** X3: a well-formed claim whose version may be missing is built and parses
    back into the same fields, the version read back being the one given or
    1 when none was given, the statement stripped, and an empty statement or
    optional field missing. *)
Theorem parse_build_roundtrip_default_version (f : SIWAMessageFields) :
  well_formed_core f = true ->
  exists m,
    build_siwa_message f = Ok m
    /\ parse_siwa_message m = Ok (normalize_version f).
Proof.
  intros Hwf. eexists. split.
  - apply build_layout, well_formed_core_required, Hwf.
  - by apply parse_built.
Qed.

Lemma parse_build_roundtrip_default_version_witness :
  let f := with_address Fixture.bare_fields Fixture.signer_address in
  version f = None
  /\ exists m g,
       build_siwa_message f = Ok m
       /\ parse_siwa_message m = Ok g
       /\ version g = Some "1"
       /\ nonce g = nonce f.
Proof.
  intros f. split; [reflexivity|].
  destruct (parse_build_roundtrip_default_version f eq_refl)
    as (m & Hbuild & Hparse).
  exists m, (normalize_version f).
  split; [exact Hbuild|]. split; [exact Hparse|]. split; reflexivity.
Defined.

(** X4: the message determines the claim: two well-formed claims that build
    the same message agree on every field, once the statement is stripped,
    a missing version read as 1, and empty optional fields read as
    missing. *)
Theorem build_siwa_message_injective (f g : SIWAMessageFields) (m : string) :
  well_formed_core f = true ->
  well_formed_core g = true ->
  build_siwa_message f = Ok m ->
  build_siwa_message g = Ok m ->
  normalize_version f = normalize_version g.
Proof.
  intros Hf Hg Hbf Hbg.
  pose proof (parse_built f Hf) as Hpf.
  pose proof (parse_built g Hg) as Hpg.
  pose proof (build_layout f (well_formed_core_required f Hf)) as Hlf.
  pose proof (build_layout g (well_formed_core_required g Hg)) as Hlg.
  assert (parse_siwa_message m = Ok (normalize_version f)) as Hmf
    by congruence.
  assert (parse_siwa_message m = Ok (normalize_version g)) as Hmg
    by congruence.
  congruence.
Qed.

Lemma build_siwa_message_injective_witness :
  let f := Fixture.full_fields in
  let g := Fixture.with_window Fixture.full_fields
             (Some "2024-06-01T00:05:00Z") None in
  f <> g /\ normalize_version f = normalize_version g.
Proof.
  intros f g. split; [discriminate|].
  apply (build_siwa_message_injective f g (Fixture.message_of f));
    vm_compute; reflexivity.
Defined.

(** X5: a second [Nonce] line after the last line of a built message
    replaces the nonce of the message: the parser keeps the last value of a
    key and leaves every other field as it was. *)
Theorem parse_last_nonce_wins (f : SIWAMessageFields) (m n' : string) :
  well_formed_core f = true ->
  build_siwa_message f = Ok m ->
  PyStr.no_newline n' = true ->
  parse_siwa_message (m +:+ PyStr.nl +:+ "Nonce: " +:+ n')
  = Ok (with_nonce (normalize_version f) n').
Proof.
  intros Hwf Hbuild Hn.
  change (m +:+ PyStr.nl +:+ "Nonce: " +:+ n')
    with (m +:+ PyStr.nl +:+ field_line ("Nonce", n')).
  rewrite (single_extra_line f m _ (well_formed_core_required f Hwf) Hbuild).
  rewrite parse_built_with_extra; [|done|by repeat constructor|].
  2:{ repeat constructor. unfold field_line. cbn [fst snd].
      by rewrite !no_newline_app, Hn. }
  unfold record_all at 1. cbn [foldl fst snd].
  destruct (field_pairs_lookup f ∅)
    as (Huri & Hver & Haid & Hreg & Hcid & _ & Hia & Hex & Hnb & Hrq).
  cbn zeta in *.
  read_field_map.
  rewrite Huri, Hver, Haid, Hreg, Hcid, Hia.
  rewrite Hex, Hnb, Hrq by apply lookup_empty.
  cbn [default from_option id]. rewrite !int_str_of_int. cbn [obind].
  pose proof (well_formed_core_required f Hwf) as Hreq.
  destruct f as [d a st u v aid reg cid n ia ex nb rq].
  unfold required_set in Hreq.
  cbn [domain address uri agent_id agent_registry chain_id nonce issued_at]
    in Hreq.
  split_andb.
  by destruct d, a, u, aid, reg, cid, n, ia.
Qed.

Lemma parse_last_nonce_wins_witness :
  exists g,
    parse_siwa_message
      (Fixture.message_of Fixture.fields +:+ PyStr.nl +:+ "Nonce: "
       +:+ "replayed-nonce") = Ok g
    /\ nonce g = Some "replayed-nonce"
    /\ domain g = domain Fixture.fields.
Proof.
  eexists. split.
  - apply (parse_last_nonce_wins Fixture.fields
             (Fixture.message_of Fixture.fields) "replayed-nonce");
      vm_compute; reflexivity.
  - split; reflexivity.
Defined.

(** X6: a further line [key: value] after the last line of a built message,
    with a key that is none of the ten keys of the format, changes nothing
    in what the parser returns. *)
Theorem parse_ignores_unknown_key (f : SIWAMessageFields) (m k v : string) :
  well_formed_core f = true ->
  build_siwa_message f = Ok m ->
  PyStr.contains ":" k = false ->
  PyStr.no_newline k = true ->
  PyStr.no_newline v = true ->
  ~ In k known_keys ->
  parse_siwa_message (m +:+ PyStr.nl +:+ k +:+ ": " +:+ v)
  = Ok (normalize_version f).
Proof.
  intros Hwf Hbuild Hk Hknl Hvnl Hnew.
  change (m +:+ PyStr.nl +:+ k +:+ ": " +:+ v)
    with (m +:+ PyStr.nl +:+ field_line (k, v)).
  rewrite (single_extra_line f m _ (well_formed_core_required f Hwf) Hbuild).
  rewrite parse_built_with_extra; [|done|by repeat constructor|].
  2:{ repeat constructor. unfold field_line. cbn [fst snd].
      by rewrite !no_newline_app, Hknl, Hvnl. }
  unfold record_all at 1. cbn [foldl fst snd].
  destruct (field_pairs_lookup f ∅)
    as (Huri & Hver & Haid & Hreg & Hcid & Hnonce & Hia & Hex & Hnb & Hrq).
  cbn zeta in *. cbn [known_keys In] in Hnew.
  rewrite !lookup_insert_ne by (intros ->; tauto).
  rewrite Huri, Hver, Haid, Hreg, Hcid, Hnonce, Hia.
  rewrite Hex, Hnb, Hrq by apply lookup_empty.
  cbn [default from_option id]. rewrite !int_str_of_int. cbn [obind].
  pose proof (well_formed_core_required f Hwf) as Hreq.
  destruct f as [d a st u v' aid reg cid n ia ex nb rq].
  unfold required_set in Hreq.
  cbn [domain address uri agent_id agent_registry chain_id nonce issued_at]
    in Hreq.
  split_andb.
  by destruct d, a, u, aid, reg, cid, n, ia.
Qed.

Lemma parse_ignores_unknown_key_witness :
  parse_siwa_message
    (Fixture.message_of Fixture.fields +:+ PyStr.nl +:+ "Resources"
     +:+ ": " +:+ "https://example.com/a")
  = parse_siwa_message (Fixture.message_of Fixture.fields).
Proof.
  rewrite (parse_ignores_unknown_key Fixture.fields
             (Fixture.message_of Fixture.fields) "Resources"
             "https://example.com/a").
  - vm_compute; reflexivity.
  - reflexivity.
  - vm_compute; reflexivity.
  - reflexivity.
  - reflexivity.
  - reflexivity.
  - cbn. intros H. repeat destruct H as [H|H]; discriminate || done.
Defined.

(** X7: what the parser accepts has the two header lines: when
    [parse_siwa_message] returns fields, the first line of the message is
    their domain, not empty, followed by the fixed suffix, and the second
    line is their address, 42 characters that begin with [0x]. *)
Theorem parse_accepts_only_headed_messages (message : string)
    (f : SIWAMessageFields) :
  parse_siwa_message message = Ok f ->
  exists d a,
    PyStr.split PyStr.newline message !! 0%nat = Some (d +:+ domain_suffix)
    /\ d <> ""
    /\ domain f = Some d
    /\ PyStr.split PyStr.newline message !! 1%nat = Some a
    /\ address f = Some a
    /\ PyStr.startswith a "0x" = true
    /\ String.length a = 42%nat.
Proof.
  unfold parse_siwa_message.
  pose proof (split_lines_no_newline message) as Hnl.
  pose proof (split_nonempty PyStr.newline message) as Hne.
  destruct (PyStr.split PyStr.newline message) as [|l0 ls]; [done|].
  cbn [lookup list_lookup default from_option id].
  inversion Hnl as [|?? Hl0 _]; subst.
  destruct (domain_match l0) as [d|] eqn:Hd; [|discriminate].
  destruct (domain_match_Some l0 d Hl0 Hd) as [-> Hdne].
  destruct ls as [|a ls]; [discriminate|].
  cbn [lookup list_lookup].
  destruct (String.eqb a "") eqn:Ha; [discriminate|].
  destruct (PyStr.startswith a "0x") eqn:H0x; [|discriminate].
  destruct (Nat.eqb (String.length a) 42) eqn:Hlen; [|discriminate].
  cbn [negb orb].
  destruct (PyStr.int _) as [aid|]; [|discriminate]. cbn [obind].
  destruct (PyStr.int _) as [cid|]; [|discriminate]. cbn [obind].
  intros [= <-]. exists d, a. cbn.
  repeat split; try done. by apply Nat.eqb_eq.
Qed.

Lemma parse_accepts_only_headed_messages_witness :
  exists d a,
    PyStr.split PyStr.newline (Fixture.message_of Fixture.fields) !! 0%nat
    = Some (d +:+ domain_suffix)
    /\ d <> ""
    /\ PyStr.split PyStr.newline (Fixture.message_of Fixture.fields) !! 1%nat
       = Some a
    /\ String.length a = 42%nat.
Proof.
  destruct (parse_accepts_only_headed_messages
              (Fixture.message_of Fixture.fields) Fixture.fields)
    as (d & a & H0 & Hd & _ & H1 & _ & _ & Hlen).
  - vm_compute; reflexivity.
  - exists d, a. repeat split; assumption.
Defined.



(** X9: a message of the two header lines and nothing more parses into the
    defaults: empty URI, registry, nonce and issue time, version 1, agent id
    and chain id 0, no statement and no optional field. *)
Theorem parse_header_only (d a : string) :
  d <> "" ->
  PyStr.no_newline d = true ->
  PyStr.startswith a "0x" = true ->
  String.length a = 42%nat ->
  PyStr.no_newline a = true ->
  parse_siwa_message ((d +:+ domain_suffix) +:+ PyStr.nl +:+ a)
  = Ok (header_only d a).
Proof.
  intros Hd Hdnl H0x Hlen Hanl.
  change ((d +:+ domain_suffix) +:+ PyStr.nl +:+ a)
    with (PyStr.join PyStr.nl [d +:+ domain_suffix; a]).
  unfold parse_siwa_message.
  rewrite split_join by done.
  rewrite concat_split_one_line.
  2:{ repeat constructor; [|done]. by rewrite no_newline_app, Hdnl. }
  cbn [lookup list_lookup default from_option id drop parse_loop].
  rewrite (domain_match_line d Hd Hdnl).
  assert (String.eqb a "" = false) as -> by (by destruct a).
  rewrite H0x, Hlen. cbn [negb orb Nat.eqb].
  cbn [parse_init ps_field_map ps_statement].
  rewrite !lookup_empty. reflexivity.
Qed.

Lemma parse_header_only_witness :
  parse_siwa_message
    (("example.com" +:+ domain_suffix) +:+ PyStr.nl
     +:+ "0x1234567890123456789012345678901234567890")
  = Ok (header_only "example.com"
          "0x1234567890123456789012345678901234567890").
Proof.
  apply parse_header_only; (discriminate || reflexivity).
Defined.

(** ** The pipeline as a whole *)

Ltac exists_trace n :=
  first
    [ exists [], n; split; [reflexivity|]; split;
      [symmetry; apply app_nil_r|]; split; [cbn; eauto 8|reflexivity]
    | exists [EvNonceValidator n], n; split; [reflexivity|]; split;
      [reflexivity|]; split; [cbn; eauto 8|reflexivity]
    | eexists [EvNonceValidator n; EvOwnerOf _ _], n; split; [reflexivity|];
      split; [by rewrite <- !app_assoc|]; split; [cbn; eauto 8|reflexivity]
    | eexists [EvNonceValidator n; EvOwnerOf _ _; EvGetCode _], n;
      split; [reflexivity|];
      split; [by rewrite <- !app_assoc|]; split; [cbn; eauto 8|reflexivity] ].

Ltac unfold_pipeline :=
  unfold verify_siwa, try_except, verify_body, verify_time_window,
    verify_not_before, verify_onchain, parse_time, bind, lift, call, read,
    ret, try_except.

(** X10: whatever the input and the collaborators do, the calls of a run of
    [verify_siwa] follow the order of the stages and stop at the first
    failure: no call for a rejected signature or domain, only the nonce
    validator (on the nonce of the message) up to the registry format, the
    owner lookup only after that, the code lookup only for an owner that
    matches; and the codes reserved for extensions are never returned. *)
Theorem verify_siwa_calls {W : Type} (lib : Library W)
    (message signature expected_domain : string)
    (nonce_validator : string -> W -> outcome bool * W)
    (w3 : Web3 W) (registry_address : option string) (w : world W) :
  exists r w' t n,
    verify_siwa lib message signature expected_domain nonce_validator w3
      registry_address w = (Ok r, w')
    /\ trace w' = trace w ++ t
    /\ calls_allowed r n t
    /\ match parse_siwa_message message with
       | Ok f => nonce f = Some n
       | Raise _ => t = []
       end.
Proof.
  unfold_pipeline.
  destruct (parse_siwa_message message) as [f|e] eqn:Hp.
  2:{ exists (verification_failed e), w, [], "".
      repeat split; [by rewrite app_nil_r|by left]. }
  destruct (parse_ok_inv _ _ Hp) as (d & a & n & reg & aid & cid & Hd & Ha
                                       & Hn & Hreg & Haid & Hcid).
  rewrite Ha, Hd, Hn, Hreg, Haid, Hcid. cbn [getitem].
  repeat case_match; simplify_eq/=;
    do 2 eexists; exists_trace n.
Qed.

(** X11: every result of [verify_siwa] is either a success, with no code,
    no error, [verified = "onchain"] and a signer type, or a failure, with a
    code, an error text and no signer type. *)
Theorem verify_siwa_result_shape {W : Type} (lib : Library W)
    (message signature expected_domain : string)
    (nonce_validator : string -> W -> outcome bool * W)
    (w3 : Web3 W) (registry_address : option string) (w : world W) :
  exists r w',
    verify_siwa lib message signature expected_domain nonce_validator w3
      registry_address w = (Ok r, w')
    /\ result_shape r.
Proof.
  unfold_pipeline. unfold result_shape.
  destruct (parse_siwa_message message) as [f|e] eqn:Hp.
  2:{ do 2 eexists. split; [reflexivity|]. right. by repeat split. }
  repeat case_match; simplify_eq/=;
    do 2 eexists; (split; [reflexivity|]);
    ((left; by repeat split) || (right; by repeat split)).
Qed.

(** X12: a result other than [VERIFICATION_FAILED] reports the agent id, the
    registry and the chain id of the parsed message, and a failure also its
    address; a success reports the address recovered from the signature,
    which is the address of the message up to case. *)
Theorem verify_siwa_echoes_message {W : Type} (lib : Library W)
    (message signature expected_domain : string)
    (nonce_validator : string -> W -> outcome bool * W)
    (w3 : Web3 W) (registry_address : option string) (w w' : world W)
    (r : SIWAVerificationResult) :
  verify_siwa lib message signature expected_domain nonce_validator w3
    registry_address w = (Ok r, w') ->
  r_code r <> Some VERIFICATION_FAILED ->
  exists f,
    parse_siwa_message message = Ok f
    /\ r_agent_id r = agent_id f
    /\ r_agent_registry r = agent_registry f
    /\ r_chain_id r = chain_id f
    /\ match r_valid r with
       | Some true =>
           exists recovered a,
             recover_message lib message signature = Ok recovered
             /\ r_address r = Some recovered
             /\ address f = Some a
             /\ PyStr.lower recovered = PyStr.lower a
       | _ => r_address r = address f
       end.
Proof.
  unfold_pipeline.
  destruct (parse_siwa_message message) as [f|e] eqn:Hp.
  2:{ intros [= <- <-]. done. }
  destruct (parse_ok_inv _ _ Hp) as (d & a & n & reg & aid & cid & Hd & Ha
                                       & Hn & Hreg & Haid & Hcid).
  rewrite Ha, Hd, Hn, Hreg, Haid, Hcid. cbn [getitem].
  intros Hrun Hcode. exists f. split; [done|].
  revert Hrun.
  repeat case_match; simplify_eq/=; intros [= <- <-]; cbn in *;
    try done; rewrite ?Ha, ?Haid, ?Hreg, ?Hcid; cbn;
    repeat split; try done.
  all: do 2 eexists; repeat split; try done.
  all: match goal with
       | H : negb (String.eqb (PyStr.lower ?x) (PyStr.lower ?y)) = false
         |- PyStr.lower ?x = PyStr.lower ?y =>
           by apply negb_false_iff, String.eqb_eq in H
       end.
Qed.

Lemma verify_siwa_echoes_message_witness :
  let r := fail Fixture.fields DOMAIN_MISMATCH
             "Domain mismatch: expected other.example.com, got test.example.com" in
  verify_siwa Fixture.library (Fixture.message_of Fixture.fields)
    (Fixture.signature_of Fixture.fields) "other.example.com"
    Fixture.consume_nonce Fixture.w3 None (Fixture.initial 11)
  = (Ok r, Fixture.initial 11)
  /\ exists f,
       parse_siwa_message (Fixture.message_of Fixture.fields) = Ok f
       /\ r_agent_id r = agent_id f
       /\ r_chain_id r = chain_id f.
Proof.
  intros r.
  assert (verify_siwa Fixture.library (Fixture.message_of Fixture.fields)
            (Fixture.signature_of Fixture.fields) "other.example.com"
            Fixture.consume_nonce Fixture.w3 None (Fixture.initial 11)
          = (Ok r, Fixture.initial 11)) as Hrun
    by (vm_compute; reflexivity).
  split; [exact Hrun|].
  destruct (verify_siwa_echoes_message Fixture.library _ _ _ _ _ _ _ _ _ Hrun)
    as (f & Hp & Haid & _ & Hcid & _).
  - discriminate.
  - exists f. repeat split; assumption.
Defined.

(** ** What a success means *)

Section SuccessFacts.
Context {W : Type} (lib : Library W).
Implicit Types (w : world W) (f : SIWAMessageFields).





End SuccessFacts.



(** ** Failures, stage by stage *)

Section StageFailures.
Context {W : Type} (lib : Library W).
Implicit Types (w : world W) (f : SIWAMessageFields).

Lemma verify_siwa_reaches_onchain message signature expected
    (nv : string -> W -> outcome bool * W) (w3 : Web3 W) ra w f recovered s1 :
  reaches_time_window lib message signature expected nv w f recovered s1 ->
  expiry_passes lib (utcnow lib s1) f ->
  not_before_passes lib (utcnow lib s1) f ->
  exists n,
    nonce f = Some n
    /\ verify_siwa lib message signature expected nv w3 ra w
       = match verify_onchain lib f recovered w3 ra
                 {| ext := s1; trace := trace w ++ [EvNonceValidator n] |} with
         | (Ok r, w') => (Ok r, w')
         | (Raise e, w') => (Ok (verification_failed e), w')
         end.
Proof.
  intros Hreach Hexp Hnbf.
  destruct (verify_siwa_reaches_time_window lib message signature expected
              nv w3 ra w f recovered s1 Hreach) as (n & Hn & Hbody).
  exists n. split; [done|].
  rewrite verify_siwa_unfold, Hbody.
  rewrite verify_time_window_continues by done.
  by rewrite verify_not_before_continues.
Qed.

Lemma verify_onchain_bad_registry f recovered (w3 : Web3 W) ra w reg :
  agent_registry f = Some reg ->
  (length (PyStr.split ":" reg) <> 3%nat
   \/ PyStr.split ":" reg !! 0%nat <> Some "eip155") ->
  verify_onchain lib f recovered w3 ra w
  = (Ok (fail f INVALID_REGISTRY_FORMAT "Invalid agent_registry format"), w).
Proof.
  intros Hreg Hbad. unfold verify_onchain, bind, lift, ret.
  rewrite Hreg. cbn [getitem].
  assert (negb (Nat.eqb (length (PyStr.split ":" reg)) 3)
          || negb (String.eqb (default "" (PyStr.split ":" reg !! 0%nat))
                     "eip155") = true) as ->; [|done].
  destruct Hbad as [Hlen|Hfirst].
  - apply Nat.eqb_neq in Hlen. by rewrite Hlen.
  - apply orb_true_iff. right. apply negb_true_iff, String.eqb_neq.
    pose proof (split_nonempty ":" reg).
    destruct (PyStr.split ":" reg) as [|p0 ps]; [done|].
    cbn in *. congruence.
Qed.

Lemma verify_onchain_not_registered f recovered (w3 : Web3 W) ra w reg p1 p2 :
  agent_registry f = Some reg ->
  PyStr.split ":" reg = ["eip155"; p1; p2] ->
  match to_checksum_address lib
          (match truthy ra with Some a => a | None => p2 end) with
  | Raise _ => True
  | Ok contract =>
      exists token e s2,
        agent_id f = Some token
        /\ owner_of w3 contract token (ext w) = (Raise e, s2)
  end ->
  exists w',
    verify_onchain lib f recovered w3 ra w
    = (Ok (fail f NOT_REGISTERED
             "Agent is not registered on the ERC-8004 Identity Registry"), w')
    /\ (trace w' = trace w
        \/ exists c token, trace w' = trace w ++ [EvOwnerOf c token]).
Proof.
  intros Hreg Hsplit Hfail.
  unfold verify_onchain, bind, lift, try_except, call, ret.
  rewrite Hreg. cbn [getitem]. rewrite Hsplit.
  cbn [length Nat.eqb negb orb lookup list_lookup default from_option id
         String.eqb Ascii.eqb Bool.eqb andb].
  destruct (to_checksum_address lib _) as [contract|].
  - destruct Hfail as (token & e & s2 & Htok & Hown).
    rewrite Htok. cbn [getitem]. rewrite Hown. cbn [ext trace].
    eexists. split; [reflexivity|]. cbn [trace]. right. eauto.
  - eexists. split; [reflexivity|]. by left.
Qed.

Lemma verify_onchain_not_owner f recovered (w3 : Web3 W) ra w reg p1 p2
    contract token owner s2 :
  agent_registry f = Some reg ->
  PyStr.split ":" reg = ["eip155"; p1; p2] ->
  to_checksum_address lib (match truthy ra with Some a => a | None => p2 end)
  = Ok contract ->
  agent_id f = Some token ->
  owner_of w3 contract token (ext w) = (Ok owner, s2) ->
  PyStr.lower owner <> PyStr.lower recovered ->
  verify_onchain lib f recovered w3 ra w
  = (Ok (fail f NOT_OWNER "Signer is not the owner of this agent NFT"),
     {| ext := s2; trace := trace w ++ [EvOwnerOf contract token] |}).
Proof.
  intros Hreg Hsplit Hck Htok Hown Hne.
  unfold verify_onchain, bind, lift, try_except, call, ret.
  rewrite Hreg. cbn [getitem]. rewrite Hsplit.
  cbn [length Nat.eqb negb orb lookup list_lookup default from_option id
         String.eqb Ascii.eqb Bool.eqb andb].
  rewrite Hck, Htok. cbn [getitem]. rewrite Hown. cbn [ext trace].
  apply String.eqb_neq in Hne. by rewrite Hne.
Qed.

End StageFailures.

(** X14: a forged message costs nothing: when the message parses and its
    signature does not recover, or recovers an address other than the
    address of the message up to case, the result is [INVALID_SIGNATURE]
    and the external state and the trace are as before: the nonce validator
    has not run, the nonce is not consumed, no chain call was made. *)
Theorem forged_signature_consumes_nothing {W : Type} (lib : Library W)
    (message signature expected_domain : string)
    (nonce_validator : string -> W -> outcome bool * W)
    (w3 : Web3 W) (registry_address : option string) (w : world W)
    (f : SIWAMessageFields) (a : string) :
  parse_siwa_message message = Ok f ->
  address f = Some a ->
  match recover_message lib message signature with
  | Ok recovered => PyStr.lower recovered <> PyStr.lower a
  | Raise _ => True
  end ->
  exists error,
    verify_siwa lib message signature expected_domain nonce_validator w3
      registry_address w = (Ok (fail f INVALID_SIGNATURE error), w).
Proof.
  intros Hp Ha Hrec. rewrite verify_siwa_unfold.
  destruct (verify_body_bad_signature lib message signature expected_domain
              nonce_validator w3 registry_address w f a Hp Ha Hrec)
    as (error & ->).
  by exists error.
Qed.

Lemma forged_signature_consumes_nothing_witness :
  exists error,
    verify_siwa Fixture.library (Fixture.message_of Fixture.fields)
      (Fixture.foreign_address +:+ "|" +:+ Fixture.message_of Fixture.fields)
      "test.example.com" Fixture.consume_nonce Fixture.w3 None
      (Fixture.initial 11)
    = (Ok (fail Fixture.fields INVALID_SIGNATURE error), Fixture.initial 11).
Proof.
  apply (forged_signature_consumes_nothing Fixture.library
           (Fixture.message_of Fixture.fields)
           (Fixture.foreign_address +:+ "|"
            +:+ Fixture.message_of Fixture.fields)
           "test.example.com" Fixture.consume_nonce Fixture.w3 None
           (Fixture.initial 11) Fixture.fields Fixture.signer_address).
  - vm_compute; reflexivity.
  - reflexivity.
  - vm_compute. discriminate.
Defined.

(** X15: the nonce stage: for a message whose signature and domain are
    accepted, the validator is called once, on the nonce of the message;
    when it answers false the result is [INVALID_NONCE], and when it raises
    the result is [VERIFICATION_FAILED] with the text of its exception; in
    both cases the state is the one the validator left and no chain call is
    made. *)
Theorem nonce_stage_failures {W : Type} (lib : Library W)
    (message signature expected_domain : string)
    (nonce_validator : string -> W -> outcome bool * W)
    (w3 : Web3 W) (registry_address : option string) (w : world W)
    (f : SIWAMessageFields) (a n recovered : string) :
  parse_siwa_message message = Ok f ->
  address f = Some a ->
  domain f = Some expected_domain ->
  nonce f = Some n ->
  recover_message lib message signature = Ok recovered ->
  PyStr.lower recovered = PyStr.lower a ->
  match nonce_validator n (ext w) with
  | (Ok true, _) => True
  | (Ok false, s1) =>
      verify_siwa lib message signature expected_domain nonce_validator w3
        registry_address w
      = (Ok (fail f INVALID_NONCE "Invalid or consumed nonce"),
         {| ext := s1; trace := trace w ++ [EvNonceValidator n] |})
  | (Raise e, s1) =>
      verify_siwa lib message signature expected_domain nonce_validator w3
        registry_address w
      = (Ok (verification_failed e),
         {| ext := s1; trace := trace w ++ [EvNonceValidator n] |})
  end.
Proof.
  intros Hp Ha Hd Hn Hrec Hlow.
  unfold verify_siwa, try_except, verify_body, bind, lift, call, ret.
  rewrite Hp, Hrec, Ha. cbn [getitem]. rewrite Hlow, String.eqb_refl.
  cbn [negb]. rewrite Hd. cbn [getitem]. rewrite String.eqb_refl.
  cbn [negb]. rewrite Hn. cbn [getitem].
  by destruct (nonce_validator n (ext w)) as [[[|]|e] s1].
Qed.

Lemma nonce_stage_failures_witness :
  let f := with_nonce Fixture.fields "never-issued" in
  verify_siwa Fixture.library (Fixture.message_of f) (Fixture.signature_of f)
    "test.example.com" Fixture.consume_nonce Fixture.w3 None
    (Fixture.initial 11)
  = (Ok (fail f INVALID_NONCE "Invalid or consumed nonce"),
     {| ext := ext (Fixture.initial 11);
        trace := [EvNonceValidator "never-issued"] |}).
Proof.
  intros f.
  exact (nonce_stage_failures Fixture.library (Fixture.message_of f)
           (Fixture.signature_of f) "test.example.com" Fixture.consume_nonce
           Fixture.w3 None (Fixture.initial 11) f Fixture.signer_address
           "never-issued" Fixture.signer_address
           ltac:(vm_compute; reflexivity) eq_refl eq_refl eq_refl
           ltac:(vm_compute; reflexivity) eq_refl).
Defined.

(** X16: the registry format stage: for a message that passes the time
    window, a registry that does not split at its colons into exactly three
    parts, or whose first part is not [eip155], gives
    [INVALID_REGISTRY_FORMAT], the nonce validator being the only
    collaborator that was called. *)
Theorem registry_format_stage {W : Type} (lib : Library W)
    (message signature expected_domain : string)
    (nonce_validator : string -> W -> outcome bool * W)
    (w3 : Web3 W) (registry_address : option string) (w : world W)
    (f : SIWAMessageFields) (recovered : string) (s1 : W) (reg : string) :
  reaches_time_window lib message signature expected_domain nonce_validator w
    f recovered s1 ->
  expiry_passes lib (utcnow lib s1) f ->
  not_before_passes lib (utcnow lib s1) f ->
  agent_registry f = Some reg ->
  (length (PyStr.split ":" reg) <> 3%nat
   \/ PyStr.split ":" reg !! 0%nat <> Some "eip155") ->
  exists n,
    nonce f = Some n
    /\ verify_siwa lib message signature expected_domain nonce_validator w3
         registry_address w
       = (Ok (fail f INVALID_REGISTRY_FORMAT "Invalid agent_registry format"),
          {| ext := s1; trace := trace w ++ [EvNonceValidator n] |}).
Proof.
  intros Hreach Hexp Hnbf Hreg Hbad.
  destruct (verify_siwa_reaches_onchain lib message signature expected_domain
              nonce_validator w3 registry_address w f recovered s1
              Hreach Hexp Hnbf) as (n & Hn & ->).
  exists n. split; [done|].
  by rewrite (verify_onchain_bad_registry lib f recovered w3 registry_address
                _ reg Hreg Hbad).
Qed.

Lemma registry_format_stage_witness :
  let f := Fixture.with_registry Fixture.fields "eip155:84532" 84532 in
  exists w',
    verify_siwa Fixture.library (Fixture.message_of f) (Fixture.signature_of f)
      "test.example.com" Fixture.consume_nonce Fixture.w3 None
      (Fixture.initial 11)
    = (Ok (fail f INVALID_REGISTRY_FORMAT "Invalid agent_registry format"), w')
    /\ trace w' = [EvNonceValidator "secure-nonce-value"].
Proof.
  intros f.
  destruct (registry_format_stage Fixture.library (Fixture.message_of f)
              (Fixture.signature_of f) "test.example.com"
              Fixture.consume_nonce Fixture.w3 None (Fixture.initial 11)
              f Fixture.signer_address (Fixture.consumed (Fixture.initial 11))
              "eip155:84532")
    as (n & Hn & Hrun).
  - fixture_reaches.
  - exact I.
  - exact I.
  - reflexivity.
  - left. vm_compute. discriminate.
  - injection Hn as <-. eexists. split; [exact Hrun|reflexivity].
Defined.

(** X17: an agent that cannot be looked up is not registered: for a message
    that passes the time window and has a registry [eip155:_:address], when
    the address to query (the override when it is set and not empty, else
    the third part of the registry) has no checksum form, or the owner
    lookup on it raises, the result is [NOT_REGISTERED]; the calls made are
    the nonce validator and at most the owner lookup, never the code
    lookup. *)
Theorem owner_lookup_failure_is_not_registered {W : Type} (lib : Library W)
    (message signature expected_domain : string)
    (nonce_validator : string -> W -> outcome bool * W)
    (w3 : Web3 W) (registry_address : option string) (w : world W)
    (f : SIWAMessageFields) (recovered : string) (s1 : W)
    (reg p1 p2 : string) :
  reaches_time_window lib message signature expected_domain nonce_validator w
    f recovered s1 ->
  expiry_passes lib (utcnow lib s1) f ->
  not_before_passes lib (utcnow lib s1) f ->
  agent_registry f = Some reg ->
  PyStr.split ":" reg = ["eip155"; p1; p2] ->
  match to_checksum_address lib
          (match truthy registry_address with Some a => a | None => p2 end)
  with
  | Raise _ => True
  | Ok contract =>
      exists token e s2,
        agent_id f = Some token
        /\ owner_of w3 contract token s1 = (Raise e, s2)
  end ->
  exists w',
    verify_siwa lib message signature expected_domain nonce_validator w3
      registry_address w
    = (Ok (fail f NOT_REGISTERED
             "Agent is not registered on the ERC-8004 Identity Registry"), w')
    /\ exists n,
         nonce f = Some n
         /\ (trace w' = trace w ++ [EvNonceValidator n]
             \/ exists c token,
                  trace w' = (trace w ++ [EvNonceValidator n])
                             ++ [EvOwnerOf c token]).
Proof.
  intros Hreach Hexp Hnbf Hreg Hsplit Hfail.
  destruct (verify_siwa_reaches_onchain lib message signature expected_domain
              nonce_validator w3 registry_address w f recovered s1
              Hreach Hexp Hnbf) as (n & Hn & ->).
  destruct (verify_onchain_not_registered lib f recovered w3 registry_address
              {| ext := s1; trace := trace w ++ [EvNonceValidator n] |}
              reg p1 p2 Hreg Hsplit Hfail) as (w' & -> & Hcalls).
  exists w'. split; [done|].
  exists n. split; [done|]. exact Hcalls.
Qed.

Lemma owner_lookup_failure_is_not_registered_witness :
  exists w',
    verify_siwa Fixture.library (Fixture.message_of Fixture.fields)
      (Fixture.signature_of Fixture.fields) "test.example.com"
      Fixture.consume_nonce Fixture.w3 None (Fixture.world_at 11 ∅ (Ok []))
    = (Ok (fail Fixture.fields NOT_REGISTERED
             "Agent is not registered on the ERC-8004 Identity Registry"), w').
Proof.
  destruct (owner_lookup_failure_is_not_registered Fixture.library
              (Fixture.message_of Fixture.fields)
              (Fixture.signature_of Fixture.fields) "test.example.com"
              Fixture.consume_nonce Fixture.w3 None
              (Fixture.world_at 11 ∅ (Ok []))
              Fixture.fields Fixture.signer_address
              (Fixture.consumed (Fixture.world_at 11 ∅ (Ok [])))
              Fixture.registry "84532"
              "0x8004AA63B05E4C14eC1Fe6B35AD3bAe8A7Bc9b66")
    as (w' & Hrun & _).
  - fixture_reaches.
  - exact I.
  - exact I.
  - reflexivity.
  - vm_compute; reflexivity.
  - vm_compute. do 3 eexists. split; reflexivity.
  - exists w'. exact Hrun.
Defined.

(** X18: the owner decides: for a message that passes the time window and
    has a registry [eip155:_:address], the owner of token [agent_id] is
    asked once, of the override address when it is set and not empty and of
    the third part of the registry otherwise; when the owner returned
    differs from the recovered signer up to case the result is [NOT_OWNER],
    and the code lookup is not made. *)
Theorem foreign_owner_is_not_owner {W : Type} (lib : Library W)
    (message signature expected_domain : string)
    (nonce_validator : string -> W -> outcome bool * W)
    (w3 : Web3 W) (registry_address : option string) (w : world W)
    (f : SIWAMessageFields) (recovered : string) (s1 s2 : W)
    (reg p1 p2 contract owner : string) (token : Z) :
  reaches_time_window lib message signature expected_domain nonce_validator w
    f recovered s1 ->
  expiry_passes lib (utcnow lib s1) f ->
  not_before_passes lib (utcnow lib s1) f ->
  agent_registry f = Some reg ->
  PyStr.split ":" reg = ["eip155"; p1; p2] ->
  to_checksum_address lib
    (match truthy registry_address with Some a => a | None => p2 end)
  = Ok contract ->
  agent_id f = Some token ->
  owner_of w3 contract token s1 = (Ok owner, s2) ->
  PyStr.lower owner <> PyStr.lower recovered ->
  exists n,
    nonce f = Some n
    /\ verify_siwa lib message signature expected_domain nonce_validator w3
         registry_address w
       = (Ok (fail f NOT_OWNER "Signer is not the owner of this agent NFT"),
          {| ext := s2;
             trace := (trace w ++ [EvNonceValidator n])
                      ++ [EvOwnerOf contract token] |}).
Proof.
  intros Hreach Hexp Hnbf Hreg Hsplit Hck Htok Hown Hne.
  destruct (verify_siwa_reaches_onchain lib message signature expected_domain
              nonce_validator w3 registry_address w f recovered s1
              Hreach Hexp Hnbf) as (n & Hn & ->).
  exists n. split; [done|].
  by rewrite (verify_onchain_not_owner lib f recovered w3 registry_address
                {| ext := s1; trace := trace w ++ [EvNonceValidator n] |}
                reg p1 p2 contract token owner s2
                Hreg Hsplit Hck Htok Hown Hne).
Qed.

Lemma foreign_owner_is_not_owner_witness :
  let w := Fixture.world_at 11 {[999 := Fixture.foreign_address]} (Ok []) in
  let override := "0x1111111111111111111111111111111111111111" in
  exists w',
    verify_siwa Fixture.library (Fixture.message_of Fixture.fields)
      (Fixture.signature_of Fixture.fields) "test.example.com"
      Fixture.consume_nonce Fixture.w3 (Some override) w
    = (Ok (fail Fixture.fields NOT_OWNER
             "Signer is not the owner of this agent NFT"), w')
    /\ trace w' = [EvNonceValidator "secure-nonce-value";
                   EvOwnerOf override 999].
Proof.
  intros w override.
  destruct (foreign_owner_is_not_owner Fixture.library
              (Fixture.message_of Fixture.fields)
              (Fixture.signature_of Fixture.fields) "test.example.com"
              Fixture.consume_nonce Fixture.w3 (Some override) w
              Fixture.fields Fixture.signer_address
              (Fixture.consumed w) (Fixture.consumed w)
              Fixture.registry "84532"
              "0x8004AA63B05E4C14eC1Fe6B35AD3bAe8A7Bc9b66"
              override Fixture.foreign_address 999)
    as (n & Hn & Hrun).
  - fixture_reaches.
  - exact I.
  - exact I.
  - reflexivity.
  - vm_compute; reflexivity.
  - vm_compute; reflexivity.
  - reflexivity.
  - vm_compute; reflexivity.
  - vm_compute. discriminate.
  - injection Hn as <-. eexists. split; [exact Hrun|reflexivity].
Defined.

(** X19: a timestamp that does not parse fails the verification: for a
    message that reaches the time window with an [expiration_time] that
    [datetime.fromisoformat] rejects, the result is [VERIFICATION_FAILED]
    with the text of that exception, and no chain call is made. *)
Theorem unparsable_expiration_fails {W : Type} (lib : Library W)
    (message signature expected_domain : string)
    (nonce_validator : string -> W -> outcome bool * W)
    (w3 : Web3 W) (registry_address : option string) (w : world W)
    (f : SIWAMessageFields) (recovered : string) (s1 : W) (s : string)
    (e : exn) :
  reaches_time_window lib message signature expected_domain nonce_validator w
    f recovered s1 ->
  truthy (expiration_time f) = Some s ->
  fromisoformat lib (PyStr.replace "Z" "+00:00" s) = Raise e ->
  exists n,
    nonce f = Some n
    /\ verify_siwa lib message signature expected_domain nonce_validator w3
         registry_address w
       = (Ok (verification_failed e),
          {| ext := s1; trace := trace w ++ [EvNonceValidator n] |}).
Proof.
  intros Hreach Hs He.
  destruct (verify_siwa_reaches_time_window lib message signature
              expected_domain nonce_validator w3 registry_address w f
              recovered s1 Hreach) as (n & Hn & Hbody).
  exists n. split; [done|].
  rewrite verify_siwa_unfold, Hbody.
  unfold verify_time_window, bind, read, lift, parse_time.
  by rewrite Hs, He.
Qed.

Lemma unparsable_expiration_fails_witness :
  let f := Fixture.with_window Fixture.fields (Some "tomorrow") None in
  exists r w',
    verify_siwa Fixture.library (Fixture.message_of f) (Fixture.signature_of f)
      "test.example.com" Fixture.consume_nonce Fixture.w3 None
      (Fixture.initial 11) = (Ok r, w')
    /\ r_code r = Some VERIFICATION_FAILED
    /\ r_error r = Some "Invalid isoformat string: 'tomorrow'".
Proof.
  intros f.
  destruct (unparsable_expiration_fails Fixture.library (Fixture.message_of f)
              (Fixture.signature_of f) "test.example.com"
              Fixture.consume_nonce Fixture.w3 None (Fixture.initial 11)
              f Fixture.signer_address (Fixture.consumed (Fixture.initial 11))
              "tomorrow"
              (ValueError "Invalid isoformat string: 'tomorrow'"))
    as (n & _ & Hrun).
  - fixture_reaches.
  - reflexivity.
  - vm_compute; reflexivity.
  - do 2 eexists. split; [exact Hrun|]. split; reflexivity.
Defined.

(** ** The response shaper as a whole *)

(** X20: what a response says: whenever [build_siwa_response] returns, the
    address, agent id, registry, chain id, verified mark and signer type are
    those of the result; the status is [authenticated] exactly for a valid
    result, which then carries no code, error, action or skill;
    [not_registered] exactly for an invalid result with code
    [NOT_REGISTERED], which carries the register action; and [rejected] for
    every other invalid result, which carries the code and the error of the
    result and the skill reference, and no action. *)
Theorem build_siwa_response_status (result : SIWAVerificationResult)
    (resp : SIWAResponse) :
  build_siwa_response result = Ok resp ->
  p_address resp = r_address result
  /\ p_agent_id resp = r_agent_id result
  /\ p_agent_registry resp = r_agent_registry result
  /\ p_chain_id resp = r_chain_id result
  /\ p_verified resp = r_verified result
  /\ p_signer_type resp = r_signer_type result
  /\ match status resp with
     | authenticated =>
         r_valid result = Some true
         /\ p_code resp = None /\ p_error resp = None
         /\ p_action resp = None /\ p_skill resp = None
     | not_registered =>
         r_valid result <> Some true
         /\ r_code result = Some NOT_REGISTERED
         /\ p_code resp = Some NOT_REGISTERED
         /\ p_skill resp = Some skill_ref
         /\ exists action,
              p_action resp = Some action
              /\ a_type action = "register"
              /\ a_steps action = register_steps
     | rejected =>
         r_valid result <> Some true
         /\ r_code result <> Some NOT_REGISTERED
         /\ p_code resp = r_code result
         /\ p_error resp = r_error result
         /\ p_action resp = None
         /\ p_skill resp = Some skill_ref
     end.
Proof.
  unfold build_siwa_response.
  destruct (r_valid result) as [[|]|] eqn:Hv; cbn [default from_option id].
  - intros [= <-]. cbn. by repeat split.
  - destruct (bool_decide_reflect (r_code result = Some NOT_REGISTERED))
      as [Hc|Hc].
    + destruct (response_chain_id _ _) as [c|]; [|discriminate].
      cbn [obind]. intros [= <-]. cbn. rewrite Hc.
      repeat split; try done. eexists. by repeat split.
    + intros [= <-]. cbn. by repeat split.
  - destruct (bool_decide_reflect (r_code result = Some NOT_REGISTERED))
      as [Hc|Hc].
    + destruct (response_chain_id _ _) as [c|]; [|discriminate].
      cbn [obind]. intros [= <-]. cbn. rewrite Hc.
      repeat split; try done. eexists. by repeat split.
    + intros [= <-]. cbn. by repeat split.
Qed.

Lemma build_siwa_response_status_witness :
  let result := fail Fixture.fields NOT_OWNER
                  "Signer is not the owner of this agent NFT" in
  exists resp,
    build_siwa_response result = Ok resp
    /\ status resp = rejected
    /\ p_code resp = Some NOT_OWNER
    /\ p_address resp = Some Fixture.signer_address.
Proof.
  intros result.
  assert (exists resp, build_siwa_response result = Ok resp
                       /\ status resp = rejected) as (resp & Hresp & Hst)
    by (eexists; split; reflexivity).
  destruct (build_siwa_response_status result resp Hresp)
    as (Haddr & _ & _ & _ & _ & _ & Hrest).
  rewrite Hst in Hrest. destruct Hrest as (_ & _ & Hcode & _).
  exists resp. repeat split; assumption.
Defined.


(** ** The signing flow as a whole *)

(** X22: the signer is asked for its address once and is asked to sign at
    most once, and only the message built from the fields with its own
    address substituted; a result that is returned carries that address and
    that message. *)
Theorem sign_siwa_message_signs_own_address {W : Type} (signer : Signer W)
    (fields : SIWAMessageFields) (w : world W) :
  match sign_siwa_message fields signer w with
  | (res, w') =>
      (trace w' = trace w ++ [EvGetAddress] /\ exists e, res = Raise e)
      \/ (exists a s1 m,
            get_address signer (ext w) = (Ok a, s1)
            /\ build_siwa_message (with_address fields a) = Ok m
            /\ trace w' = trace w ++ [EvGetAddress; EvSignMessage m]
            /\ match res with
               | Ok sm => sm_address sm = a /\ sm_message sm = m
               | Raise _ => True
               end)
  end.
Proof.
  unfold sign_siwa_message, bind, call, lift, raise, ret.
  destruct (get_address signer (ext w)) as [[a|e] s1] eqn:Hget;
    [|left; eauto].
  cbn [ext trace].
  destruct (match truthy (address fields) with
            | Some a0 =>
                if negb (String.eqb (PyStr.lower a) (PyStr.lower a0))
                then Some a0 else None
            | None => None
            end) as [x|]; [left; eauto|].
  destruct (build_siwa_message (with_address fields a)) as [m|e] eqn:Hbuild;
    [|left; eauto].
  cbn [ext trace].
  destruct (sign_message signer m s1) as [[sig|e] s2]; right;
    exists a, s1, m; cbn [trace]; rewrite <- app_assoc; by repeat split.
Qed.

Lemma sign_siwa_message_signs_own_address_aux {W : Type} (signer : Signer W)
    (fields : SIWAMessageFields) (w : world W) :
  match sign_siwa_message fields signer w with
  | (Ok sm, _) =>
      exists a m,
        build_siwa_message (with_address fields a) = Ok m
        /\ a = sm_address sm /\ m = sm_message sm
  | (Raise _, _) => True
  end.
Proof.
  unfold sign_siwa_message, bind, call, lift, raise, ret.
  destruct (get_address signer (ext w)) as [[a|e] s1]; [|done].
  destruct (match truthy (address fields) with
            | Some a0 =>
                if negb (String.eqb (PyStr.lower a) (PyStr.lower a0))
                then Some a0 else None
            | None => None
            end) as [x|]; [done|].
  destruct (build_siwa_message (with_address fields a)) as [m|e] eqn:Hbuild;
    [|done].
  cbn [ext trace].
  destruct (sign_message signer m s1) as [[sig|e] s2]; [|done].
  by exists a, m.
Qed.

(** X23: what is signed can be read back: when [sign_siwa_message] returns
    and the fields with the signer's address are well formed, the message
    returned parses into those fields; in particular its address is the
    address returned, the signer's, whatever address the caller gave. *)
Theorem signed_message_parses_back {W : Type} (signer : Signer W)
    (fields : SIWAMessageFields) (w w' : world W) (sm : SignedMessage) :
  sign_siwa_message fields signer w = (Ok sm, w') ->
  well_formed_core (with_address fields (sm_address sm)) = true ->
  parse_siwa_message (sm_message sm)
  = Ok (normalize_version (with_address fields (sm_address sm)))
  /\ address (normalize_version (with_address fields (sm_address sm)))
     = Some (sm_address sm).
Proof.
  intros Hsign Hwf. split; [|reflexivity].
  pose proof (sign_siwa_message_signs_own_address_aux signer fields w)
    as Haux.
  rewrite Hsign in Haux.
  destruct Haux as (a & m & Hbuild & Ha & Hm). subst a m.
  pose proof (build_layout _ (well_formed_core_required _ Hwf)) as Hlayout.
  pose proof (parse_built _ Hwf) as Hparse.
  congruence.
Qed.

Lemma signed_message_parses_back_witness :
  exists sm w' g,
    sign_siwa_message Fixture.bare_fields Fixture.signer (Fixture.initial 11)
    = (Ok sm, w')
    /\ parse_siwa_message (sm_message sm) = Ok g
    /\ address g = Some Fixture.signer_address
    /\ version g = Some "1".
Proof.
  destruct (sign_siwa_message Fixture.bare_fields Fixture.signer
              (Fixture.initial 11)) as [res w'] eqn:Hsign.
  assert (exists sm, res = Ok sm
                     /\ sm_address sm = Fixture.signer_address)
    as (sm & -> & Haddr).
  { vm_compute in Hsign. injection Hsign as <- _.
    eexists. split; reflexivity. }
  destruct (signed_message_parses_back Fixture.signer Fixture.bare_fields
              _ _ _ Hsign) as (Hparse & Ha).
  - rewrite Haddr. reflexivity.
  - exists sm, w', (normalize_version
                     (with_address Fixture.bare_fields (sm_address sm))).
    split; [reflexivity|]. split; [exact Hparse|].
    split; [by rewrite Ha, Haddr|reflexivity].
Defined.

(** ** The local-key signer *)

Section LocalSignerFacts.

Lemma hex_length bs : String.length (hex bs) = (2 * length bs)%nat.
Proof. induction bs as [|b bs IH]; cbn; [done|]. rewrite IH. lia. Qed.

Lemma hex_lower bs : all_chars lower_hex (hex bs) = true.
Proof.
  induction bs as [|b bs IH]; [done|].
  cbn [hex all_chars]. rewrite IH.
  by destruct b.
Qed.

End LocalSignerFacts.

(** X24: the local-key signer: its address is the address of the account,
    and what it returns for a text is [0x] followed by two lower-case
    hexadecimal digits for each byte of the account's signature, so 132
    characters for a signature of 65 bytes; neither call changes the
    external state, and signing fails only when the account does. *)
Theorem local_account_signer_format {W : Type} (account : LocalAccount)
    (message : string) (s : W) :
  get_address (LocalAccountSigner account) s = (Ok (account_address account), s)
  /\ match account_sign_message account message with
     | Ok signature =>
         exists digits,
           sign_message (LocalAccountSigner account) message s
           = (Ok ("0x" +:+ digits), s)
           /\ String.length digits = (2 * length signature)%nat
           /\ all_chars lower_hex digits = true
           /\ (length signature = 65%nat ->
               String.length ("0x" +:+ digits) = 132%nat)
     | Raise e =>
         sign_message (LocalAccountSigner account) message s = (Raise e, s)
     end.
Proof.
  split; [reflexivity|].
  unfold LocalAccountSigner. cbn [sign_message].
  destruct (account_sign_message account message) as [signature|e];
    [|reflexivity].
  exists (hex signature). cbn [obind].
  split; [reflexivity|]. split; [apply hex_length|].
  split; [apply hex_lower|].
  intros Hlen. rewrite length_append, hex_length, Hlen. reflexivity.
Qed.

(** X25: signing a claim with the local-key signer: when the address of the
    fields is missing, empty or the account's up to case, the fields with
    the account's address build into a message and the account signs it,
    [sign_siwa_message] returns that message, the account's address and the
    signature in hexadecimal after [0x], and leaves the external state as it
    was. *)
Theorem sign_siwa_message_with_local_account {W : Type}
    (account : LocalAccount) (fields : SIWAMessageFields) (w : world W)
    (m : string) (signature : list Byte.byte) :
  match truthy (address fields) with
  | Some x => PyStr.lower (account_address account) = PyStr.lower x
  | None => True
  end ->
  build_siwa_message (with_address fields (account_address account)) = Ok m ->
  account_sign_message account m = Ok signature ->
  sign_siwa_message fields (LocalAccountSigner account) w
  = (Ok {| sm_message := m;
           sm_signature := "0x" +:+ hex signature;
           sm_address := account_address account |},
     {| ext := ext w;
        trace := (trace w ++ [EvGetAddress]) ++ [EvSignMessage m] |}).
Proof.
  intros Haddr Hbuild Hsig.
  apply sign_siwa_message_signs with (s1 := ext w); try done.
  cbn [LocalAccountSigner sign_message]. by rewrite Hsig.
Qed.

Lemma sign_siwa_message_with_local_account_witness :
  exists sm w',
    sign_siwa_message Fixture.bare_fields
      (LocalAccountSigner Fixture.local_account) (Fixture.initial 11)
    = (Ok sm, w')
    /\ sm_address sm = Fixture.signer_address
    /\ String.length (sm_signature sm) = 132%nat
    /\ ext w' = ext (Fixture.initial 11).
Proof.
  do 2 eexists. split.
  - apply (sign_siwa_message_with_local_account Fixture.local_account
             Fixture.bare_fields (Fixture.initial 11)
             (Fixture.message_of
                (with_address Fixture.bare_fields Fixture.signer_address))
             (replicate 65 Byte.x1b)).
    + exact I.
    + vm_compute; reflexivity.
    + reflexivity.
  - split; [reflexivity|]. split; [vm_compute; reflexivity|reflexivity].
Defined.

Lemma signed_message_parses_back_aux {W : Type} (signer : Signer W)
    (fields : SIWAMessageFields) (w w' : world W) (sm : SignedMessage) :
  sign_siwa_message fields signer w = (Ok sm, w') ->
  well_formed_core (with_address fields (sm_address sm)) = true ->
  parse_siwa_message (sm_message sm)
  = Ok (normalize_version (with_address fields (sm_address sm))).
Proof.
  intros Hsign Hwf.
  pose proof (sign_siwa_message_signs_own_address_aux signer fields w)
    as Haux.
  rewrite Hsign in Haux.
  destruct Haux as (a & m & Hbuild & Ha & Hm). subst a m.
  pose proof (build_layout _ (well_formed_core_required _ Hwf)) as Hlayout.
  pose proof (parse_built _ Hwf) as Hparse.
  congruence.
Qed.

(** X26: a signed claim verifies: when [sign_siwa_message] returns for
    well-formed fields, the signature recovers the signer's address up to
    case, the domain of the fields is the expected one, the validator
    accepts the nonce, the clock is within the window, the registry names
    the contract whose owner of the token is the recovered signer, and the
    code lookup answers, then [verify_siwa] on the message and signature
    returned gives [valid = true] with the recovered address and the signer
    type read from the code. *)
Theorem signed_claim_verifies {W : Type} (lib : Library W)
    (signer : Signer W) (fields : SIWAMessageFields) (w0 w : world W)
    (sm : SignedMessage) (expected_domain : string)
    (nonce_validator : string -> W -> outcome bool * W)
    (w3 : Web3 W) (registry_address : option string) (v : world W)
    (recovered n : string) (s1 s2 s3 : W) (contract a : string) (token : Z)
    (code : list Byte.byte) :
  let f := normalize_version (with_address fields (sm_address sm)) in
  sign_siwa_message fields signer w0 = (Ok sm, w) ->
  well_formed_core (with_address fields (sm_address sm)) = true ->
  recover_message lib (sm_message sm) (sm_signature sm) = Ok recovered ->
  PyStr.lower recovered = PyStr.lower (sm_address sm) ->
  domain fields = Some expected_domain ->
  nonce fields = Some n ->
  nonce_validator n (ext v) = (Ok true, s1) ->
  expiry_passes lib (utcnow lib s1) f ->
  not_before_passes lib (utcnow lib s1) f ->
  ownership_passes lib w3 registry_address f recovered s1 s2 contract token ->
  to_checksum_address lib (sm_address sm) = Ok a ->
  get_code w3 a s2 = (Ok code, s3) ->
  exists r v',
    verify_siwa lib (sm_message sm) (sm_signature sm) expected_domain
      nonce_validator w3 registry_address v = (Ok r, v')
    /\ r_valid r = Some true
    /\ r_address r = Some recovered
    /\ r_agent_id r = agent_id fields
    /\ r_signer_type r = Some match code with [] => eoa | _ :: _ => sca end.
Proof.
  intros f Hsign Hwf Hrec Hlow Hd Hn Hnv Hexp Hnbf Hown Ha Hcode.
  pose proof (signed_message_parses_back_aux signer fields w0 w sm Hsign Hwf)
    as Hparse.
  fold f in Hparse.
  assert (reaches_time_window lib (sm_message sm) (sm_signature sm)
            expected_domain nonce_validator v f recovered s1) as Hreach.
  { split; [exact Hparse|]. split; [exact Hrec|].
    split; [exists (sm_address sm); by split|].
    split; [exact Hd|]. exists n. by split. }
  destruct (verify_siwa_reaches_onchain lib _ _ _ _ w3 registry_address _ _
              _ _ Hreach Hexp Hnbf) as (n' & Hn' & ->).
  destruct (parse_ok_inv _ _ Hparse)
    as (_ & _ & _ & _ & _ & cid & _ & _ & _ & _ & _ & Hcid).
  destruct (verify_onchain_reaches_classification lib f recovered w3
              registry_address
              {| ext := s1; trace := trace v ++ [EvNonceValidator n'] |}
              s2 contract token (sm_address sm) a cid Hown eq_refl Hcid Ha)
    as (reg & _ & ->).
  rewrite Hcode. do 2 eexists. split; [reflexivity|].
  repeat split.
  destruct Hown as (? & ? & ? & ? & _ & _ & _ & Htok & _). exact (eq_sym Htok).
Qed.

Lemma signed_claim_verifies_witness :
  let m := Fixture.message_of
             (with_address Fixture.bare_fields Fixture.signer_address) in
  let sm := {| sm_message := m;
               sm_signature := Fixture.signer_address +:+ "|" +:+ m;
               sm_address := Fixture.signer_address |} in
  sign_siwa_message Fixture.bare_fields Fixture.signer (Fixture.initial 11)
  = (Ok sm, {| ext := ext (Fixture.initial 11);
               trace := [EvGetAddress; EvSignMessage m] |})
  /\ exists r v',
       verify_siwa Fixture.library (sm_message sm) (sm_signature sm)
         "test.example.com" Fixture.consume_nonce Fixture.w3 None
         (Fixture.initial 11) = (Ok r, v')
       /\ r_valid r = Some true
       /\ r_signer_type r = Some eoa.
Proof.
  intros m sm.
  assert (sign_siwa_message Fixture.bare_fields Fixture.signer
            (Fixture.initial 11)
          = (Ok sm, {| ext := ext (Fixture.initial 11);
                       trace := [EvGetAddress; EvSignMessage m] |}))
    as Hsign by (vm_compute; reflexivity).
  split; [exact Hsign|].
  destruct (signed_claim_verifies Fixture.library Fixture.signer
              Fixture.bare_fields (Fixture.initial 11) _ sm
              "test.example.com" Fixture.consume_nonce Fixture.w3 None
              (Fixture.initial 11) Fixture.signer_address
              "secure-nonce-value"
              (Fixture.consumed (Fixture.initial 11))
              (Fixture.consumed (Fixture.initial 11))
              (Fixture.consumed (Fixture.initial 11))
              "0x8004AA63B05E4C14eC1Fe6B35AD3bAe8A7Bc9b66"
              Fixture.signer_address 999 [] Hsign)
    as (r & v' & Hrun & Hvalid & _ & _ & Htype).
  - vm_compute; reflexivity.
  - vm_compute; reflexivity.
  - reflexivity.
  - reflexivity.
  - reflexivity.
  - vm_compute; reflexivity.
  - exact I.
  - exact I.
  - fixture_owned.
  - vm_compute; reflexivity.
  - reflexivity.
  - exists r, v'. split; [exact Hrun|]. split; [exact Hvalid|exact Htype].
Defined.
